(** * FitTrackApp: goal tracker API, middleware and utilities

    A shallow embedding of the request middleware ([middleware.ts]), the
    three copies of the session-verification helper, the goal-item, progress
    and auth route handlers and the utility function
    [calculateCompletionPercentage], with the properties the specification
    states about them.

    Conventions.  A route handler is a function of the request and of the
    environment of that request (configuration, clock, and which storage
    operations fail), run against the database and the console.  [try] and
    [catch] appear as a case distinction on the outcome of the operation.
    Console lines keep their fixed text and the strings interpolated into
    it; interpolated numbers and objects are left out.  External libraries
    are an interface the definitions are parameterised by. *)

From Stdlib Require Import Bool List String Ascii ZArith Lia.
From Stdlib Require Import Floats.SpecFloat.
Import ListNotations.

Local Open Scope string_scope.

(** ** JavaScript numbers

    A JavaScript [number] is an IEEE 754 binary64 value.  The standard
    library's [spec_float] gives the values, and its operations instantiated
    at precision 53 and maximal exponent 1024 give the arithmetic, rounding
    included. *)

Module Number.

Definition prec : Z := 53.
Definition emax : Z := 1024.

Abbreviation number := spec_float.

Definition of_Z (z : Z) : number := binary_normalize prec emax z 0 false.

Definition zero : number := S754_zero false.
Definition neg_zero : number := S754_zero true.
Definition hundred : number := Eval cbv in of_Z 100.
Definition infinity : number := S754_infinity false.
Definition neg_infinity : number := S754_infinity true.
Definition NaN : number := S754_nan.

Definition mul : number -> number -> number := SFmul prec emax.
Definition div : number -> number -> number := SFdiv prec emax.

Definition ltb : number -> number -> bool := SFltb.
Definition leb : number -> number -> bool := SFleb.

(** Global [isNaN], applied to a value that is already a number. *)
Definition isNaN (x : number) : bool :=
  match x with S754_nan => true | _ => false end.

Definition is_pos_zero (x : number) : bool :=
  match x with S754_zero false => true | _ => false end.

Definition is_neg_zero (x : number) : bool :=
  match x with S754_zero true => true | _ => false end.

(** [Math.max] as ECMAScript defines it: the running maximum starts at
    minus infinity; a NaN argument makes the result NaN; +0 is larger
    than -0. *)
Fixpoint max_from (highest : number) (args : list number) : number :=
  match args with
  | [] => highest
  | x :: rest =>
      if isNaN x then NaN
      else
        let highest := if is_pos_zero x && is_neg_zero highest then zero else highest in
        let highest := if ltb highest x then x else highest in
        max_from highest rest
  end.

Definition Math_max (args : list number) : number := max_from neg_infinity args.

(** [Math.min], symmetrically: starts at plus infinity, -0 is smaller
    than +0. *)
Fixpoint min_from (lowest : number) (args : list number) : number :=
  match args with
  | [] => lowest
  | x :: rest =>
      if isNaN x then NaN
      else
        let lowest := if is_neg_zero x && is_pos_zero lowest then neg_zero else lowest in
        let lowest := if ltb x lowest then x else lowest in
        min_from lowest rest
  end.

Definition Math_min (args : list number) : number := min_from infinity args.

(** The mantissa of a positive integer below 2^53 as a number holds it:
    shifted left to 53 bits. *)
Definition normal (m : positive) : positive :=
  match (52 - Z.log2 (Zpos m))%Z with
  | Zpos d => Pos.iter xO m d
  | _ => m
  end.

End Number.

Import Number.

(** ** JavaScript values, as far as the code inspects them *)

Inductive JsValue : Type :=
| JsUndefined
| JsNull
| JsBool (b : bool)
| JsNum (x : number)
| JsStr (s : string)
| JsObject.

(** One line written to the console. *)
Inductive LogLine : Type :=
| ConsoleLog (msg : string)
| ConsoleWarn (msg : string)
| ConsoleError (msg : string).

(** ** lib/utils.ts *)

Module Utils.

(** [calculateCompletionPercentage], with the warning it may print. *)
Definition calculateCompletionPercentage_run
    (currentValue targetValue : JsValue) : option number * list LogLine :=
  match targetValue with
  | JsNum t =>
      if isNaN t || leb t zero then
        (None,
         if leb t zero
         then [ConsoleWarn "[calculateCompletionPercentage] Target value must be positive for percentage calculation."]
         else [])
      else
        let effectiveCurrentValue :=
          match currentValue with
          | JsNum c => if negb (isNaN c) then c else zero
          | _ => zero
          end in
        let percentage := mul (div effectiveCurrentValue t) hundred in
        let clampedPercentage := Math_max [zero; Math_min [percentage; hundred]] in
        (Some (if isNaN clampedPercentage then zero else clampedPercentage), [])
  | _ => (None, [])
  end.

Definition calculateCompletionPercentage (currentValue targetValue : JsValue)
  : option number :=
  fst (calculateCompletionPercentage_run currentValue targetValue).

(** *** The specification's wording *)

(** The target is absent, non-numeric, zero or negative. *)
Definition target_not_applicable (targetValue : JsValue) : bool :=
  match targetValue with
  | JsNum t => isNaN t || leb t zero
  | _ => true
  end.

(** A non-numeric or absent current value is treated as 0. *)
Definition current_or_zero (currentValue : JsValue) : number :=
  match currentValue with
  | JsNum c => if isNaN c then zero else c
  | _ => zero
  end.

Definition number_of (v : JsValue) : number :=
  match v with JsNum x => x | _ => NaN end.

(** Clamping to the closed interval [0, 100], not-a-number coerced to 0. *)
Definition clamp_0_100 (p : number) : number :=
  if isNaN p then zero
  else if leb p zero then zero
  else if leb hundred p then hundred
  else p.

Definition completion_spec (currentValue targetValue : JsValue) : option number :=
  if target_not_applicable targetValue then None
  else Some (clamp_0_100
               (mul (div (current_or_zero currentValue) (number_of targetValue)) hundred)).

End Utils.

(** ** JavaScript strings

    Strings are modelled by [string]; a character stands for a code unit in
    the Latin-1 range. *)

Module JsString.

(** Truthiness of a value of type [string | undefined]: what [!token]
    negates. *)
Definition truthy (v : option string) : bool :=
  match v with
  | None => false
  | Some EmptyString => false
  | Some (String _ _) => true
  end.

Definition startsWith (s pre : string) : bool := String.prefix pre s.

(** White space and line terminators removed by [String.prototype.trim]:
    TAB, LF, VT, FF, CR, SPACE and NBSP. *)
Definition is_whitespace (c : ascii) : bool :=
  let n := nat_of_ascii c in
  (((9 <=? n) && (n <=? 13)) || (n =? 32) || (n =? 160))%nat.

Fixpoint trimStart (s : string) : string :=
  match s with
  | EmptyString => EmptyString
  | String c rest => if is_whitespace c then trimStart rest else s
  end.

Fixpoint trimEnd (s : string) : string :=
  match s with
  | EmptyString => EmptyString
  | String c rest =>
      match trimEnd rest with
      | EmptyString => if is_whitespace c then EmptyString else String c EmptyString
      | kept => String c kept
      end
  end.

Definition trim (s : string) : string := trimEnd (trimStart s).

(** [String.prototype.toLowerCase] on Latin-1: A-Z and the accented
    capitals 192-222 (the multiplication sign 215 apart) move up by 32. *)
Definition lower_char (c : ascii) : ascii :=
  let n := nat_of_ascii c in
  if (((65 <=? n) && (n <=? 90))
      || ((192 <=? n) && (n <=? 222) && negb (n =? 215)))%nat
  then ascii_of_nat (n + 32) else c.

Fixpoint toLowerCase (s : string) : string :=
  match s with
  | EmptyString => EmptyString
  | String c rest => String (lower_char c) (toLowerCase rest)
  end.

(** The character class [\d]. *)
Definition is_digit (c : ascii) : bool :=
  let n := nat_of_ascii c in ((48 <=? n) && (n <=? 57))%nat.

Definition digit_value (c : ascii) : Z := Z.of_nat (nat_of_ascii c - 48).

(** The longest prefix of digits and what follows it: the only way the
    greedy group [(\d+)] can end when a non-digit has to follow. *)
Fixpoint span_digits (s : string) : string * string :=
  match s with
  | EmptyString => (EmptyString, EmptyString)
  | String c rest =>
      if is_digit c
      then let '(ds, tl) := span_digits rest in (String c ds, tl)
      else (EmptyString, s)
  end.

(** The integer a string of decimal digits denotes. *)
Fixpoint parse_digits (acc : Z) (ds : string) : Z :=
  match ds with
  | EmptyString => acc
  | String c rest => parse_digits (10 * acc + digit_value c)%Z rest
  end.

(** [parseInt(ds, 10)] on a string of decimal digits: the number nearest
    to the integer the digits denote, ties to even, and plus infinity
    when that integer is too large; [NaN] when there is no digit. *)
Definition parseInt10 (ds : string) : number :=
  match ds with
  | EmptyString => Number.NaN
  | _ => Number.of_Z (parse_digits 0%Z ds)
  end.

(** A hexadecimal digit, in either case. *)
Definition is_hex_digit (c : ascii) : bool :=
  let n := nat_of_ascii c in
  (((48 <=? n) && (n <=? 57)) || ((97 <=? n) && (n <=? 102))
   || ((65 <=? n) && (n <=? 70)))%nat.

Fixpoint all_hex_digits (s : string) : bool :=
  match s with
  | EmptyString => true
  | String c rest => is_hex_digit c && all_hex_digits rest
  end.

Fixpoint all_digits (s : string) : bool :=
  match s with
  | EmptyString => true
  | String c rest => is_digit c && all_digits rest
  end.

End JsString.

Import JsString.

(** ** External libraries

    The token library, the ODM's identifier check, the schema validator's
    string formats, the password hashing library and [Date] parsing are not
    part of the repository: the handlers are defined over an arbitrary
    implementation of this interface. *)

Module Jwt.

(** The error classes the handlers tell apart with [instanceof];
    [TokenExpiredError] is tested first. *)
Inductive ErrorClass : Type :=
| TokenExpiredError
| JsonWebTokenError
| OtherError.

Record Error : Type := { error_class : ErrorClass; error_message : string }.

(** What [verify] returns: a string, or an object of which the code reads
    the [userId] property only ([None]: the object has no such key). *)
Inductive Decoded : Type :=
| DecodedString (payload : string)
| DecodedObject (userId : option JsValue).

Inductive VerifyOutcome : Type :=
| Verified (decoded : Decoded)
| Thrown (e : Error).

End Jwt.

Class Libraries : Type := {
  (** [verify(token, secret)] of the token library. *)
  jwt_verify : string -> string -> Jwt.VerifyOutcome;
  (** [sign({ userId }, secret, { expiresIn })] at a given time; [None]
      when it throws. *)
  jwt_sign : string -> string -> string -> Z -> option string;
  (** [mongoose.Types.ObjectId.isValid]. *)
  ObjectId_isValid : string -> bool;
  (** [z.string().email()] and [z.string().datetime({ offset: true })]. *)
  zod_email : string -> bool;
  zod_datetime_offset : string -> bool;
  (** [new Date(s).getTime()]; [None] is the invalid date. *)
  Date_parse : string -> option Z;
  (** [compare(candidate, hash)]; [None] when it throws. *)
  bcrypt_compare : string -> string -> option bool;
  (** [hash(password, await genSalt(10))]; [None] when it throws. *)
  bcrypt_hash : string -> option string
}.

(** ** Persisted entities *)

Definition ObjectId : Type := string.
Definition Date : Type := Z.

Record Goal : Type := {
  goal_id : ObjectId;
  goal_userId : ObjectId;
  goal_name : string;
  goal_description : option string;
  goal_targetMetric : option string;
  goal_targetUnit : option string;
  goal_deadline : option Date;
  goal_createdAt : Date;
  goal_updatedAt : Date
}.

Record ProgressEntry : Type := {
  progress_id : ObjectId;
  progress_goalId : ObjectId;
  progress_userId : ObjectId;
  progress_value : number;
  progress_date : Date;
  progress_notes : option string;
  progress_createdAt : Date;
  progress_updatedAt : Date
}.

Record UserDoc : Type := {
  user_id : ObjectId;
  user_name : string;
  user_email : string;
  user_password : string;
  user_createdAt : Date;
  user_updatedAt : Date
}.

(** The three collections. *)
Record Db : Type := {
  goals : list Goal;
  progress : list ProgressEntry;
  users : list UserDoc
}.

(** ** Environment of one request *)

(** The storage operations the handlers call. *)
Inductive DbOp : Type :=
| ConnectDB
| GoalFindOne
| GoalFindOneAndUpdate
| GoalDeleteOne
| ProgressFind
| ProgressCreate
| ProgressDeleteMany
| UserFindOne
| UserCreate.

(** What a storage operation may throw, as far as the handlers look:
    [error.name === 'ValidationError'], [error.code === 11000] with an
    [email] key pattern, anything else. *)
Inductive DbError : Type :=
| ValidationError (msg : string)
| DuplicateEmailKey
| OtherDbError.

Record Env : Type := {
  JWT_SECRET : option string;
  JWT_EXPIRES_IN : option string;
  NODE_ENV : option string;
  (** the clock and the identifier the driver gives the next document *)
  now : Date;
  fresh_id : ObjectId;
  (** which storage operations fail during this request, and how *)
  throws : DbOp -> option DbError
}.

(** ** HTTP *)

#[warnings="-register-all"]
Inductive Json : Type :=
| JNull
| JBool (b : bool)
| JNumber (x : number)
| JString (s : string)
| JArray (items : list Json)
| JObject (fields : list (string * Json)).

Record Request : Type := {
  origin : string;
  pathname : string;
  cookies : list (string * string);
  (** [await request.json()]; [None] when parsing throws *)
  json : option Json
}.

(** [request.cookies.get(name)?.value] *)
Fixpoint cookie_value (jar : list (string * string)) (name : string) : option string :=
  match jar with
  | [] => None
  | (n, v) :: rest => if String.eqb n name then Some v else cookie_value rest name
  end.

Record PublicUser : Type := {
  public_id : ObjectId;
  public_name : string;
  public_email : string;
  public_createdAt : Date;
  public_updatedAt : Date
}.

Inductive Data : Type :=
| DataGoalDetail (goal : Goal) (progressEntries : list ProgressEntry)
| DataGoal (goal : Goal)
| DataProgressEntry (progressEntry : ProgressEntry)
| DataUser (user : PublicUser).

(** The response envelope; [validationErrors] records whether the field
    errors of a failed validation were attached. *)
Record Envelope : Type := {
  success : bool;
  message : option string;
  data : option Data;
  error : option string;
  validationErrors : bool
}.

Inductive Body : Type :=
| NoBody
| JsonBody (e : Envelope).

Record Cookie : Type := {
  cookie_name : string;
  cookie_token : string;
  httpOnly : bool;
  secure : bool;
  sameSite : string;
  path : string;
  maxAge : number
}.

Record Response : Type := {
  status : Z;
  body : Body;
  set_cookie : option Cookie
}.

(** [NextResponse.json({ success: false, message }, { status })] *)
Definition failure (code : Z) (msg : string) : Response :=
  {| status := code;
     body := JsonBody {| success := false; message := Some msg; data := None;
                         error := None; validationErrors := false |};
     set_cookie := None |}.

(** ... with an [error] field, and possibly the field errors. *)
Definition failure_with (code : Z) (msg err : string) (fields : bool) : Response :=
  {| status := code;
     body := JsonBody {| success := false; message := Some msg; data := None;
                         error := Some err; validationErrors := fields |};
     set_cookie := None |}.

(** [NextResponse.json({ success: true, data }, { status })] *)
Definition success_data (code : Z) (d : Data) : Response :=
  {| status := code;
     body := JsonBody {| success := true; message := None; data := Some d;
                         error := None; validationErrors := false |};
     set_cookie := None |}.

(** [NextResponse.json({ success: true, message }, { status })] *)
Definition success_message (code : Z) (msg : string) : Response :=
  {| status := code;
     body := JsonBody {| success := true; message := Some msg; data := None;
                         error := None; validationErrors := false |};
     set_cookie := None |}.

(** ** Route handlers as state transformers

    A handler runs against the database and the console.  It either goes on
    with a value or has already returned a response: [inl] is the early
    [return] of a [NextResponse]. *)

Record World : Type := { db : Db; console : list LogLine }.

Definition Handler (A : Type) : Type := World -> (Response + A) * World.

Definition ret {A : Type} (a : A) : Handler A := fun w => (inr a, w).

Definition respond {A : Type} (r : Response) : Handler A := fun w => (inl r, w).

Definition bind {A B : Type} (m : Handler A) (k : A -> Handler B) : Handler B :=
  fun w =>
    match m w with
    | (inl r, w') => (inl r, w')
    | (inr a, w') => k a w'
    end.

Declare Scope handler_scope.
Delimit Scope handler_scope with handler.

Notation "x <- m ;; k" := (bind m (fun x => k))
  (at level 100, m at next level, right associativity) : handler_scope.
Notation "m ;;; k" := (bind m (fun _ => k))
  (at level 100, right associativity) : handler_scope.

Local Open Scope handler_scope.

Definition print (l : LogLine) : Handler unit :=
  fun w => (inr tt, {| db := db w; console := console w ++ [l] |}).

(** A storage operation inside [try]: the injected failure, or the
    operation's result and its effect on the database. *)
Definition attempt {A : Type} (env : Env) (op : DbOp) (action : Db -> A * Db)
  : Handler (DbError + A) :=
  fun w =>
    match throws env op with
    | Some e => (inr (inl e), w)
    | None =>
        let '(a, d) := action (db w) in
        (inr (inr a), {| db := d; console := console w |})
    end.

(** [await connectDB()] *)
Definition connectDB (env : Env) : Handler (DbError + unit) :=
  attempt env ConnectDB (fun d => (tt, d)).

(** The response a handler ends with, and the world it leaves. *)
Definition run (h : Handler Response) (w : World) : Response * World :=
  match h w with
  | (inl r, w') => (r, w')
  | (inr r, w') => (r, w')
  end.

Definition response_of (h : Handler Response) (w : World) : Response := fst (run h w).
Definition world_after (h : Handler Response) (w : World) : World := snd (run h w).

(** ** The session-verification helper, three copies

    Each returns the [userId] of the session token or has the handler return
    an error response.  The payload test is
    [typeof decoded === 'object' && decoded !== null && 'userId' in decoded
     && typeof decoded.userId === 'string']. *)

(** The message chosen in the [catch] block. *)
Definition verification_message (e : Jwt.Error) : string :=
  match Jwt.error_class e with
  | Jwt.TokenExpiredError => "Token expired."
  | Jwt.JsonWebTokenError => "Invalid token."
  | Jwt.OtherError => "Invalid or expired token."
  end.

(** What a helper hands back to its caller: the error response or the
    user id. *)
Definition verification_result (helper : Env -> Request -> Handler string)
    (env : Env) (request : Request) (w : World) : Response + string :=
  fst (helper env request w).

(** ** app/api/goals/route.ts *)

Module Goals.

Section Helper.

Context {L : Libraries}.

Definition getVerifiedUserId (env : Env) (request : Request) : Handler string :=
  let token := cookie_value (cookies request) "access_token" in
  match token with
  | Some (String _ _ as token) =>
      let jwtSecret := JWT_SECRET env in
      match jwtSecret with
      | Some (String _ _ as jwtSecret) =>
          match jwt_verify token jwtSecret with
          | Jwt.Verified decoded =>
              match decoded with
              | Jwt.DecodedObject (Some (JsStr userId)) => ret userId
              | _ =>
                  print (ConsoleError "[API Goals] Invalid JWT payload structure after verification:") ;;;
                  respond (failure 401 "Invalid token payload.")
              end
          | Jwt.Thrown error =>
              print (ConsoleError ("[API Goals] JWT Verification Error: " ++ Jwt.error_message error)) ;;;
              respond (failure 401 (verification_message error))
          end
      | _ =>
          print (ConsoleError "[API Goals] JWT_SECRET environment variable is not defined.") ;;;
          respond (failure 500 "Internal Server Error: Server configuration missing.")
      end
  | _ =>
      print (ConsoleWarn "[API Goals] Authentication token missing.") ;;;
      respond (failure 401 "Authentication required.")
  end.

End Helper.

End Goals.

(** ** middleware.ts *)

Module Middleware.

Inductive Result : Type :=
| Respond (r : Response)      (* [new NextResponse(JSON.stringify(..), ..)] *)
| Redirect (url : string)     (* [NextResponse.redirect(loginUrl)] *)
| Next.                       (* [NextResponse.next()] *)

Section Run.

Context {L : Libraries}.

Definition middleware (env : Env) (request : Request) : Result * list LogLine :=
  let token := cookie_value (cookies request) "access_token" in
  let loginUrl := origin request ++ "/login" in
  let isApiPath := startsWith (pathname request) "/api/" in
  match token with
  | Some (String _ _ as token) =>
      let jwtSecret := JWT_SECRET env in
      match jwtSecret with
      | Some (String _ _ as jwtSecret) =>
          match jwt_verify token jwtSecret with
          | Jwt.Verified _ => (Next, [])
          | Jwt.Thrown error =>
              (if isApiPath
               then Respond (failure 401 "Invalid or expired token")
               else Redirect loginUrl,
               [ConsoleError ("JWT Verification Error: " ++ Jwt.error_message error)])
          end
      | _ =>
          (Respond (failure 500 "Internal Server Error: JWT secret missing"),
           [ConsoleError "JWT_SECRET is not defined"])
      end
  | _ =>
      (if isApiPath
       then Respond (failure 401 "Authentication required")
       else Redirect loginUrl,
       [])
  end.

End Run.

(** *** The configured matcher *)

(** [s.split(sep)] *)
Fixpoint split_on (sep : ascii) (s : string) : list string :=
  match s with
  | EmptyString => [EmptyString]
  | String c rest =>
      if Ascii.eqb c sep then EmptyString :: split_on sep rest
      else
        match split_on sep rest with
        | [] => [String c EmptyString]
        | seg :: segs => String c seg :: segs
        end
  end.

(** A pattern segment [:name*]: zero or more path segments. *)
Definition is_wildcard (seg : string) : bool :=
  match seg with
  | String ":" name =>
      match get (String.length name - 1) name with
      | Some "*"%char => true
      | _ => false
      end
  | _ => false
  end.

Definition nonempty (s : string) : bool :=
  match s with EmptyString => false | String _ _ => true end.

(** The segments a wildcard may take: non-empty ones, then possibly one
    empty segment left by a trailing slash. *)
Fixpoint wildcard_accepts (segs : list string) : bool :=
  match segs with
  | [] => true
  | [EmptyString] => true
  | seg :: rest => nonempty seg && wildcard_accepts rest
  end.

(** The framework compiles a pattern segment by segment: a literal has
    to be equal to the path's segment, a final [:name*] accepts what is
    left.  What the framework accepts in addition for the data requests
    of a page, a prefix [/_next/data/<build>] and a suffix [.json], is
    not modelled; the paths considered below have neither. *)
Fixpoint match_segments (pat segs : list string) : bool :=
  match pat with
  | [] =>
      match segs with
      | [] | [EmptyString] => true
      | _ => false
      end
  | p :: pat' =>
      if is_wildcard p then
        match pat' with
        | [] => wildcard_accepts segs
        | _ => false
        end
      else
        match segs with
        | [] => false
        | seg :: segs' => String.eqb p seg && match_segments pat' segs'
        end
  end.

Definition matches_pattern (pattern path : string) : bool :=
  match_segments (split_on "/" pattern) (split_on "/" path).

Definition config_matcher : list string :=
  ["/dashboard/:path*"; "/api/goals/:path*"; "/api/progress/:path*"].

(** The middleware runs for a request exactly when one of the configured
    patterns matches its path. *)
Definition runs_on (path : string) : bool :=
  existsb (fun pattern => matches_pattern pattern path) config_matcher.

(** What reaches the route handlers and pages. *)
Inductive Routed : Type :=
| Stopped (by_middleware : Result)
| Reaches_handler.

Definition route {L : Libraries} (env : Env) (request : Request) : Routed :=
  if runs_on (pathname request) then
    match fst (middleware env request) with
    | Next => Reaches_handler
    | r => Stopped r
    end
  else Reaches_handler.

End Middleware.

(** ** Storage operations (models/Goal.ts, models/Progress.ts, models/User.ts)

    The schemas declare [_id], [userId] and [goalId] as identifiers.  The
    driver keeps an identifier as twelve bytes and writes it as 24
    hexadecimal digits in lower case.  A string in a filter or in a new
    document is cast to the identifier it spells: 24 hexadecimal digits
    in either case, or the twelve bytes themselves where the driver takes
    a string of twelve bytes for an identifier.  Two strings select the
    same documents exactly when they are cast to the same identifier.  A
    string that spells no identifier makes the operation throw; that is
    among the failures of the storage operations the environment of a
    request gives. *)

Module Store.

(** The string spells an identifier: 24 hexadecimal digits. *)
Definition is_hex24 (value : string) : bool :=
  (String.length value =? 24)%nat && all_hex_digits value.

Definition hex_digit (n : nat) : ascii :=
  match n with
  | 0 => "0" | 1 => "1" | 2 => "2" | 3 => "3" | 4 => "4" | 5 => "5" | 6 => "6" | 7 => "7"
  | 8 => "8" | 9 => "9" | 10 => "a" | 11 => "b" | 12 => "c" | 13 => "d" | 14 => "e"
  | _ => "f"
  end%char.

(** [toHexString] of the bytes of an identifier. *)
Fixpoint toHexString (bytes : string) : string :=
  match bytes with
  | EmptyString => EmptyString
  | String c rest =>
      String (hex_digit (nat_of_ascii c / 16))
             (String (hex_digit (nat_of_ascii c mod 16)) (toHexString rest))
  end.

(** The identifier a string is cast to, as the driver writes it. *)
Definition castObjectId (value : string) : ObjectId :=
  if is_hex24 value then toLowerCase value
  else if (String.length value =? 12)%nat then toHexString value
  else value.

(** The filter [{ _id: goalId, userId: userId }]. *)
Definition goal_matches (goalId userId : string) (g : Goal) : bool :=
  String.eqb (castObjectId (goal_id g)) (castObjectId goalId)
  && String.eqb (castObjectId (goal_userId g)) (castObjectId userId).

(** [GoalModel.findOne({ _id, userId }).lean().exec()] *)
Definition GoalModel_findOne (goalId userId : ObjectId) (d : Db) : option Goal * Db :=
  (find (goal_matches goalId userId) (goals d), d).

(** The fields of an update document ([$set]).  A deadline is a [Date],
    or the string the handler left in place. *)
Record GoalUpdate : Type := {
  set_name : option string;
  set_description : option string;
  set_targetMetric : option string;
  set_targetUnit : option string;
  set_deadline : option (Date + string)
}.

Definition or_keep {A : Type} (new : option A) (old : A) : A :=
  match new with Some a => a | None => old end.

Definition or_keep_opt {A : Type} (new : option A) (old : option A) : option A :=
  match new with Some a => Some a | None => old end.

(** The schema trims the string fields; a deadline that is still a string
    is cast by the schema's [Date] type. *)
Definition apply_update {L : Libraries} (at_time : Date) (u : GoalUpdate) (g : Goal) : Goal :=
  {| goal_id := goal_id g;
     goal_userId := goal_userId g;
     goal_name := or_keep (option_map trim (set_name u)) (goal_name g);
     goal_description := or_keep_opt (option_map trim (set_description u)) (goal_description g);
     goal_targetMetric := or_keep_opt (option_map trim (set_targetMetric u)) (goal_targetMetric g);
     goal_targetUnit := or_keep_opt (option_map trim (set_targetUnit u)) (goal_targetUnit g);
     goal_deadline :=
       match set_deadline u with
       | None => goal_deadline g
       | Some (inl date) => Some date
       | Some (inr s) => Date_parse s
       end;
     goal_createdAt := goal_createdAt g;
     goal_updatedAt := at_time |}.

(** Replace the first document the filter selects. *)
Fixpoint update_first (p : Goal -> bool) (f : Goal -> Goal) (l : list Goal)
  : option Goal * list Goal :=
  match l with
  | [] => (None, [])
  | g :: rest =>
      if p g then (Some (f g), f g :: rest)
      else let '(found, rest') := update_first p f rest in (found, g :: rest')
  end.

(** [GoalModel.findOneAndUpdate({ _id, userId }, update, { new: true })] *)
Definition GoalModel_findOneAndUpdate {L : Libraries}
    (at_time : Date) (goalId userId : ObjectId) (u : GoalUpdate) (d : Db)
  : option Goal * Db :=
  let '(found, goals') :=
    update_first (goal_matches goalId userId) (apply_update at_time u) (goals d) in
  (found, {| goals := goals'; progress := progress d; users := users d |}).

(** Remove the first document the filter selects; the count removed. *)
Fixpoint remove_first (p : Goal -> bool) (l : list Goal) : Z * list Goal :=
  match l with
  | [] => (0%Z, [])
  | g :: rest =>
      if p g then (1%Z, rest)
      else let '(n, rest') := remove_first p rest in (n, g :: rest')
  end.

(** [GoalModel.deleteOne({ _id, userId }).exec()]: [deletedCount] *)
Definition GoalModel_deleteOne (goalId userId : ObjectId) (d : Db) : Z * Db :=
  let '(deletedCount, goals') := remove_first (goal_matches goalId userId) (goals d) in
  (deletedCount, {| goals := goals'; progress := progress d; users := users d |}).

(** The filter [{ goalId: goalId }]. *)
Definition of_goal (goalId : string) (p : ProgressEntry) : bool :=
  String.eqb (castObjectId (progress_goalId p)) (castObjectId goalId).

(** Insertion into a list sorted by date, newest first. *)
Fixpoint insert_by_date (p : ProgressEntry) (l : list ProgressEntry) : list ProgressEntry :=
  match l with
  | [] => [p]
  | q :: rest =>
      if (progress_date q <? progress_date p)%Z then p :: l
      else q :: insert_by_date p rest
  end.

Definition sort_newest_first (l : list ProgressEntry) : list ProgressEntry :=
  fold_right insert_by_date [] l.

(** [ProgressModel.find({ goalId }).sort({ date: -1 }).lean().exec()] *)
Definition ProgressModel_find (goalId : ObjectId) (d : Db) : list ProgressEntry * Db :=
  (sort_newest_first (filter (of_goal goalId) (progress d)), d).

(** [ProgressModel.deleteMany({ goalId }).exec()]: [deletedCount] *)
Definition ProgressModel_deleteMany (goalId : ObjectId) (d : Db) : Z * Db :=
  (Z.of_nat (List.length (filter (of_goal goalId) (progress d))),
   {| goals := goals d;
      progress := filter (fun p => negb (of_goal goalId p)) (progress d);
      users := users d |}).

(** [ProgressModel.create(doc)]: the stored document *)
Definition ProgressModel_create (doc : ProgressEntry) (d : Db) : ProgressEntry * Db :=
  (doc, {| goals := goals d; progress := progress d ++ [doc]; users := users d |}).

(** [UserModel.findOne({ email })] *)
Definition UserModel_findOne (email : string) (d : Db) : option UserDoc * Db :=
  (find (fun u => String.eqb (user_email u) email) (users d), d).

(** [UserModel.create(doc)] *)
Definition UserModel_create (doc : UserDoc) (d : Db) : unit * Db :=
  (tt, {| goals := goals d; progress := progress d; users := users d ++ [doc] |}).

End Store.

(** ** Request bodies seen through the validation schemas *)

Module Schema.

(** [body[key]] on a parsed object *)
Fixpoint field (fields : list (string * Json)) (key : string) : option Json :=
  match fields with
  | [] => None
  | (k, v) :: rest => if String.eqb k key then Some v else field rest key
  end.

(** [z.string().trim().optional()]: [None] is a validation failure,
    [Some None] an absent key. *)
Definition optional_trimmed (v : option Json) : option (option string) :=
  match v with
  | None => Some None
  | Some (JString s) => Some (Some (trim s))
  | Some _ => None
  end.

(** [z.string().trim().min(1, ..)] *)
Definition required_trimmed (v : option Json) : option string :=
  match v with
  | Some (JString s) =>
      match trim s with
      | EmptyString => None
      | t => Some t
      end
  | _ => None
  end.

(** [z.string().trim().min(1, ..).optional()] *)
Definition optional_nonempty_trimmed (v : option Json) : option (option string) :=
  match v with
  | None => Some None
  | Some _ => option_map Some (required_trimmed v)
  end.

(** [z.string().datetime({ offset: true }).optional().or(z.date().optional())];
    a parsed JSON body holds no [Date] object. *)
Definition optional_datetime {L : Libraries} (v : option Json) : option (option string) :=
  match v with
  | None => Some None
  | Some (JString s) => if zod_datetime_offset s then Some (Some s) else None
  | Some _ => None
  end.

(** [.strict()]: every key of the body is a key of the schema. *)
Definition only_keys (known : list string) (fields : list (string * Json)) : bool :=
  forallb (fun kv => existsb (String.eqb (fst kv)) known) fields.

Record UpdateGoalData : Type := {
  upd_name : option string;
  upd_description : option string;
  upd_targetMetric : option string;
  upd_targetUnit : option string;
  upd_deadline : option string
}.

(** [updateGoalSchema.safeParse(rawBody)]; [None] when [success] is false *)
Definition updateGoalSchema {L : Libraries} (rawBody : Json) : option UpdateGoalData :=
  match rawBody with
  | JObject fields =>
      match optional_nonempty_trimmed (field fields "name"),
            optional_trimmed (field fields "description"),
            optional_trimmed (field fields "targetMetric"),
            optional_trimmed (field fields "targetUnit"),
            optional_datetime (field fields "deadline") with
      | Some name, Some description, Some targetMetric, Some targetUnit, Some deadline =>
          if only_keys ["name"; "description"; "targetMetric"; "targetUnit"; "deadline"] fields
          then Some {| upd_name := name; upd_description := description;
                       upd_targetMetric := targetMetric; upd_targetUnit := targetUnit;
                       upd_deadline := deadline |}
          else None
      | _, _, _, _, _ => None
      end
  | _ => None
  end.

Record LogProgressData : Type := {
  log_goalId : string;
  log_value : number;
  log_date : string;
  log_notes : option string
}.

(** [z.number().finite(..)] *)
Definition is_finite (x : number) : bool :=
  match x with
  | S754_zero _ | S754_finite _ _ _ => true
  | S754_infinity _ | S754_nan => false
  end.

(** [logProgressSchema.safeParse(rawBody)] *)
Definition logProgressSchema {L : Libraries} (rawBody : Json) : option LogProgressData :=
  match rawBody with
  | JObject fields =>
      match field fields "goalId", field fields "value", field fields "date",
            optional_trimmed (field fields "notes") with
      | Some (JString goalId), Some (JNumber value), Some (JString date), Some notes =>
          if ObjectId_isValid goalId && is_finite value && zod_datetime_offset date
             && only_keys ["goalId"; "value"; "date"; "notes"] fields
          then Some {| log_goalId := goalId; log_value := value;
                       log_date := date; log_notes := notes |}
          else None
      | _, _, _, _ => None
      end
  | _ => None
  end.

End Schema.

(** ** app/api/goals/[goalId]/route.ts *)

Module GoalItem.

Import Store Schema.

Section Handlers.

Context {L : Libraries}.

Definition getVerifiedUserId (env : Env) (request : Request) : Handler string :=
  let token := cookie_value (cookies request) "access_token" in
  match token with
  | Some (String _ _ as token) =>
      let jwtSecret := JWT_SECRET env in
      match jwtSecret with
      | Some (String _ _ as jwtSecret) =>
          match jwt_verify token jwtSecret with
          | Jwt.Verified decoded =>
              match decoded with
              | Jwt.DecodedObject (Some (JsStr userId)) =>
                  if (0 <? String.length userId)%nat then ret userId
                  else
                    print (ConsoleError "[API Goals] Invalid JWT payload: userId is an empty string.") ;;;
                    respond (failure 401 "Invalid token payload.")
              | _ =>
                  print (ConsoleError "[API Goals] Invalid JWT payload structure after verification:") ;;;
                  respond (failure 401 "Invalid token payload.")
              end
          | Jwt.Thrown error =>
              print (ConsoleError ("[API Goals] JWT Verification Error: " ++ Jwt.error_message error)) ;;;
              respond (failure 401 (verification_message error))
          end
      | _ =>
          print (ConsoleError "[API Goals] JWT_SECRET environment variable is not defined.") ;;;
          respond (failure 500 "Internal Server Error: Server configuration missing.")
      end
  | _ =>
      print (ConsoleWarn "[API Goals] Authentication token missing.") ;;;
      respond (failure 401 "Authentication required.")
  end.

Definition not_found : Response :=
  failure 404 "Goal not found or you do not have permission.".

(** [!params.goalId || !mongoose.Types.ObjectId.isValid(params.goalId)] *)
Definition invalid_goalId (goalId : string) : bool :=
  match goalId with
  | EmptyString => true
  | _ => negb (ObjectId_isValid goalId)
  end.

Definition GET (env : Env) (request : Request) (goalId : string) : Handler Response :=
  if invalid_goalId goalId then respond (failure 400 "Invalid Goal ID format.")
  else
    connected <- connectDB env ;;
    match connected with
    | inl dbError =>
        print (ConsoleError "[API Goal Detail GET] Database Connection Error:") ;;;
        respond (failure 500 "Internal Server Error: Could not connect to database.")
    | inr _ =>
        userId <- getVerifiedUserId env request ;;
        found <- attempt env GoalFindOne (GoalModel_findOne goalId userId) ;;
        match found with
        | inl error =>
            print (ConsoleError ("[API Goal Detail GET] Database Error fetching goal " ++ goalId ++ ":")) ;;;
            respond (failure 500 "Internal Server Error: Could not retrieve goal details.")
        | inr None =>
            print (ConsoleLog ("[API Goal Detail GET] Goal not found or permission denied for goalId: "
                               ++ goalId ++ ", userId: " ++ userId)) ;;;
            respond not_found
        | inr (Some goal) =>
            entries <- attempt env ProgressFind (ProgressModel_find goalId) ;;
            match entries with
            | inl error =>
                print (ConsoleError ("[API Goal Detail GET] Database Error fetching goal " ++ goalId ++ ":")) ;;;
                respond (failure 500 "Internal Server Error: Could not retrieve goal details.")
            | inr progressEntries =>
                print (ConsoleLog ("[API Goal Detail GET] Successfully fetched goal " ++ goalId
                                   ++ " and its progress entries for user " ++ userId)) ;;;
                ret (success_data 200 (DataGoalDetail goal progressEntries))
            end
        end
    end.

(** Step 6 of [PUT]: a non-empty deadline string becomes a [Date]; an
    invalid date is deleted from the update. *)
Definition prepare_update (validated : UpdateGoalData) : GoalUpdate :=
  {| set_name := upd_name validated;
     set_description := upd_description validated;
     set_targetMetric := upd_targetMetric validated;
     set_targetUnit := upd_targetUnit validated;
     set_deadline :=
       match upd_deadline validated with
       | None => None
       | Some EmptyString => Some (inr EmptyString)
       | Some s =>
           match Date_parse s with
           | Some date => Some (inl date)
           | None => None
           end
       end |}.

Definition present {A : Type} (o : option A) : nat :=
  match o with Some _ => 1 | None => 0 end.

(** [Object.keys(updateData).length] *)
Definition keys_length (u : GoalUpdate) : nat :=
  present (set_name u) + present (set_description u) + present (set_targetMetric u)
  + present (set_targetUnit u) + present (set_deadline u).

Definition PUT (env : Env) (request : Request) (goalId : string) : Handler Response :=
  if invalid_goalId goalId then respond (failure 400 "Invalid Goal ID format.")
  else
    connected <- connectDB env ;;
    match connected with
    | inl dbError =>
        print (ConsoleError "[API Goal Detail PUT] Database Connection Error:") ;;;
        respond (failure 500 "Internal Server Error: Could not connect to database.")
    | inr _ =>
        userId <- getVerifiedUserId env request ;;
        match json request with
        | None =>
            print (ConsoleError "[API Goal Detail PUT] Request Body Parsing Error:") ;;;
            respond (failure 400 "Invalid request body: Could not parse JSON.")
        | Some rawBody =>
            match updateGoalSchema rawBody with
            | None =>
                print (ConsoleLog "[API Goal Detail PUT] Validation Error:") ;;;
                respond (failure_with 400 "Invalid goal update data provided."
                                      "Validation failed" true)
            | Some validated =>
                let updateData := prepare_update validated in
                if (keys_length updateData =? 0)%nat
                then respond (failure 400 "No update data provided.")
                else
                  updated <- attempt env GoalFindOneAndUpdate
                               (GoalModel_findOneAndUpdate (now env) goalId userId updateData) ;;
                  match updated with
                  | inl error =>
                      print (ConsoleError ("[API Goal Detail PUT] Database Error updating goal "
                                           ++ goalId ++ ":")) ;;;
                      match error with
                      | ValidationError msg =>
                          respond (failure_with 400 "Database validation failed during update."
                                                msg false)
                      | _ => respond (failure 500 "Internal Server Error: Could not update goal.")
                      end
                  | inr None =>
                      print (ConsoleLog ("[API Goal Detail PUT] Goal not found or permission denied for update: goalId: "
                                         ++ goalId ++ ", userId: " ++ userId)) ;;;
                      respond not_found
                  | inr (Some updatedGoal) =>
                      print (ConsoleLog ("[API Goal Detail PUT] Goal updated successfully: goalId: "
                                         ++ goalId ++ ", userId: " ++ userId)) ;;;
                      ret (success_data 200 (DataGoal updatedGoal))
                  end
            end
        end
    end.

(** [new NextResponse(null, { status: 204 })] *)
Definition no_content : Response :=
  {| status := 204; body := NoBody; set_cookie := None |}.

Definition DELETE (env : Env) (request : Request) (goalId : string) : Handler Response :=
  if invalid_goalId goalId then respond (failure 400 "Invalid Goal ID format.")
  else
    connected <- connectDB env ;;
    match connected with
    | inl dbError =>
        print (ConsoleError "[API Goal Detail DELETE] Database Connection Error:") ;;;
        respond (failure 500 "Internal Server Error: Could not connect to database.")
    | inr _ =>
        userId <- getVerifiedUserId env request ;;
        deleteResult <- attempt env GoalDeleteOne (GoalModel_deleteOne goalId userId) ;;
        match deleteResult with
        | inl error =>
            print (ConsoleError ("[API Goal Detail DELETE] Database Error deleting goal "
                                 ++ goalId ++ ":")) ;;;
            respond (failure 500 "Internal Server Error: Could not delete goal.")
        | inr deletedCount =>
            if (deletedCount =? 0)%Z then
              print (ConsoleLog ("[API Goal Detail DELETE] Goal not found or permission denied for deletion: goalId: "
                                 ++ goalId ++ ", userId: " ++ userId)) ;;;
              respond not_found
            else
              print (ConsoleLog ("[API Goal Detail DELETE] Goal deleted successfully: goalId: "
                                 ++ goalId ++ ", userId: " ++ userId)) ;;;
              progressDeleteResult <- attempt env ProgressDeleteMany
                                        (ProgressModel_deleteMany goalId) ;;
              match progressDeleteResult with
              | inr _ =>
                  print (ConsoleLog ("[API Goal Detail DELETE] Deleted associated progress entries for goalId: "
                                     ++ goalId))
              | inl progressError =>
                  print (ConsoleError ("[API Goal Detail DELETE] Error deleting progress entries for goalId "
                                       ++ goalId ++ ":"))
              end ;;;
              ret no_content
        end
    end.

End Handlers.

End GoalItem.

(** ** app/api/progress/route.ts *)

Module Progress.

Import Store Schema.

Section Handlers.

Context {L : Libraries}.

Definition getVerifiedUserId (env : Env) (request : Request) : Handler string :=
  let token := cookie_value (cookies request) "access_token" in
  match token with
  | Some (String _ _ as token) =>
      let jwtSecret := JWT_SECRET env in
      match jwtSecret with
      | Some (String _ _ as jwtSecret) =>
          match jwt_verify token jwtSecret with
          | Jwt.Verified decoded =>
              match decoded with
              | Jwt.DecodedObject (Some (JsStr userId)) =>
                  if (0 <? String.length userId)%nat then ret userId
                  else
                    print (ConsoleError "[API Progress] Invalid JWT payload: userId is an empty string.") ;;;
                    respond (failure 401 "Invalid token payload.")
              | _ =>
                  print (ConsoleError "[API Progress] Invalid JWT payload structure after verification:") ;;;
                  respond (failure 401 "Invalid token payload.")
              end
          | Jwt.Thrown error =>
              print (ConsoleError ("[API Progress] JWT Verification Error: " ++ Jwt.error_message error)) ;;;
              respond (failure 401 (verification_message error))
          end
      | _ =>
          print (ConsoleError "[API Progress] JWT_SECRET environment variable is not defined.") ;;;
          respond (failure 500 "Internal Server Error: Server configuration missing.")
      end
  | _ =>
      print (ConsoleWarn "[API Progress] Authentication token missing.") ;;;
      respond (failure 401 "Authentication required.")
  end.

(** The document [ProgressModel.create] stores for validated data: the
    goal and the verified user, cast to identifiers, the date converted
    with [new Date], a fresh identifier and the timestamps. *)
Definition new_entry (env : Env) (userId : string) (validatedData : LogProgressData)
    (date : Date) : ProgressEntry :=
  {| progress_id := fresh_id env;
     progress_goalId := castObjectId (log_goalId validatedData);
     progress_userId := castObjectId userId;
     progress_value := log_value validatedData;
     progress_date := date;
     progress_notes := option_map trim (log_notes validatedData);
     progress_createdAt := now env;
     progress_updatedAt := now env |}.

(** The [catch] block of steps 5 to 7. *)
Definition creation_failed (error : DbError) : Handler Response :=
  match error with
  | ValidationError msg =>
      print (ConsoleError "[API Progress POST] Mongoose Validation Error:") ;;;
      respond (failure_with 400 "Database validation failed while saving progress." msg false)
  | _ =>
      print (ConsoleError "[API Progress POST] Database Error creating progress:") ;;;
      respond (failure 500 "Internal Server Error: Could not save progress entry.")
  end.

Definition POST (env : Env) (request : Request) : Handler Response :=
  connected <- connectDB env ;;
  match connected with
  | inl dbError =>
      print (ConsoleError "[API Progress POST] Database Connection Error:") ;;;
      respond (failure 500 "Internal Server Error: Could not connect to database.")
  | inr _ =>
      userId <- getVerifiedUserId env request ;;
      match json request with
      | None =>
          print (ConsoleError "[API Progress POST] Request Body Parsing Error:") ;;;
          respond (failure 400 "Invalid request body: Could not parse JSON.")
      | Some rawBody =>
          match logProgressSchema rawBody with
          | None =>
              print (ConsoleLog "[API Progress POST] Validation Error:") ;;;
              respond (failure_with 400 "Invalid progress data provided."
                                    "Validation failed" true)
          | Some validatedData =>
              found <- attempt env GoalFindOne
                         (GoalModel_findOne (log_goalId validatedData) userId) ;;
              match found with
              | inl error => creation_failed error
              | inr None =>
                  print (ConsoleLog ("[API Progress POST] Goal ownership check failed: Goal not found or permission denied for goalId: "
                                     ++ log_goalId validatedData ++ ", userId: " ++ userId)) ;;;
                  respond (failure 404 "Goal not found or you do not have permission.")
              | inr (Some goal) =>
                  match Date_parse (log_date validatedData) with
                  | None =>
                      (* an invalid [Date] does not pass the schema's cast *)
                      creation_failed (ValidationError "Progress validation failed: date")
                  | Some date =>
                      created <- attempt env ProgressCreate
                                   (ProgressModel_create (new_entry env userId validatedData date)) ;;
                      match created with
                      | inl error => creation_failed error
                      | inr newProgressDoc =>
                          print (ConsoleLog ("[API Progress POST] Progress created successfully for goalId: "
                                             ++ log_goalId validatedData ++ ", userId: " ++ userId)) ;;;
                          ret (success_data 201 (DataProgressEntry newProgressDoc))
                      end
                  end
              end
          end
      end
  end.

End Handlers.

End Progress.

(** ** app/api/auth/route.ts *)

Module Auth.

Import Store Schema.

(** The groups of [/^(\d+)([dhms])$/] on a string, when it matches. *)
Definition match_duration (s : string) : option (string * ascii) :=
  match span_digits s with
  | (String _ _ as digits, String unit EmptyString) =>
      match unit with
      | "d"%char | "h"%char | "m"%char | "s"%char => Some (digits, unit)
      | _ => None
      end
  | _ => None
  end.

(** The arithmetic is that of numbers: [value * 24 * 60 * 60] is three
    rounded products. *)
Definition parseJwtExpiresIn (expiresIn : string) : option number :=
  match match_duration (trim expiresIn) with
  | None => None
  | Some (digits, unit) =>
      let value := parseInt10 digits in
      if Number.isNaN value || Number.leb value Number.zero then None
      else
        match unit with
        | "d"%char =>
            Some (Number.mul (Number.mul (Number.mul value (of_Z 24)) (of_Z 60)) (of_Z 60))
        | "h"%char => Some (Number.mul (Number.mul value (of_Z 60)) (of_Z 60))
        | "m"%char => Some (Number.mul value (of_Z 60))
        | "s"%char => Some value
        | _ => None
        end
  end.

(** The [match] of the user schema's [email] path:
    [/^\S+@\S+\.\S+$/]. *)
Fixpoint no_whitespace (s : string) : bool :=
  match s with
  | EmptyString => true
  | String c rest => negb (is_whitespace c) && no_whitespace rest
  end.

Fixpoint dot_then_more (s : string) : bool :=
  match s with
  | EmptyString => false
  | String c rest =>
      (Ascii.eqb c "." && negb (String.eqb rest EmptyString)) || dot_then_more rest
  end.

Fixpoint at_then_domain (s : string) : bool :=
  match s with
  | EmptyString => false
  | String c rest =>
      (Ascii.eqb c "@"
       && match rest with
          | EmptyString => false
          | String _ after => dot_then_more after
          end)
      || at_then_domain rest
  end.

Definition email_path_match (s : string) : bool :=
  no_whitespace s
  && match s with
     | EmptyString => false
     | String _ rest => at_then_domain rest
     end.

Inductive Action : Type := Signup | Login.

(** [actionSchema.safeParse(rawBody)]: [action] is one of the two literals *)
Definition actionSchema (rawBody : Json) : option Action :=
  match rawBody with
  | JObject fields =>
      match field fields "action" with
      | Some (JString action) =>
          if String.eqb action "signup" then Some Signup
          else if String.eqb action "login" then Some Login
          else None
      | _ => None
      end
  | _ => None
  end.

Record SignupData : Type := {
  signup_name : string;
  signup_email : string;
  signup_password : string
}.

Record LoginData : Type := {
  login_email : string;
  login_password : string
}.

Section Handlers.

Context {L : Libraries}.

(** [z.string().trim().email(..)] *)
Definition email_field (v : option Json) : option string :=
  match v with
  | Some (JString s) => if zod_email (trim s) then Some (trim s) else None
  | _ => None
  end.

(** [z.string().min(n, ..)] *)
Definition password_field (n : nat) (v : option Json) : option string :=
  match v with
  | Some (JString s) => if (n <=? String.length s)%nat then Some s else None
  | _ => None
  end.

Definition signupSchema (rawBody : Json) : option SignupData :=
  match rawBody with
  | JObject fields =>
      match field fields "action", required_trimmed (field fields "name"),
            email_field (field fields "email"),
            password_field 6 (field fields "password") with
      | Some (JString action), Some name, Some email, Some password =>
          if String.eqb action "signup"
          then Some {| signup_name := name; signup_email := email;
                       signup_password := password |}
          else None
      | _, _, _, _ => None
      end
  | _ => None
  end.

Definition loginSchema (rawBody : Json) : option LoginData :=
  match rawBody with
  | JObject fields =>
      match field fields "action", email_field (field fields "email"),
            password_field 1 (field fields "password") with
      | Some (JString action), Some email, Some password =>
          if String.eqb action "login"
          then Some {| login_email := email; login_password := password |}
          else None
      | _, _, _ => None
      end
  | _ => None
  end.

(** [user.comparePassword(candidate)]: a comparison that throws counts
    as a mismatch. *)
Definition comparePassword (user : UserDoc) (candidatePassword : string) : bool :=
  match bcrypt_compare candidatePassword (user_password user) with
  | Some isMatch => isMatch
  | None => false
  end.

(** [UserModel.create({ name, email, password })]: the schema's setters,
    its validation, the pre-save hook and the insertion. *)
Definition create_user (env : Env) (details : SignupData) : Handler (DbError + unit) :=
  let email := toLowerCase (trim (signup_email details)) in
  if negb (email_path_match email)
  then ret (inl (ValidationError "Please provide a valid email address."))
  else
    match bcrypt_hash (signup_password details) with
    | None => ret (inl OtherDbError)
    | Some hashedPassword =>
        attempt env UserCreate
          (UserModel_create {| user_id := fresh_id env;
                               user_name := trim (signup_name details);
                               user_email := email;
                               user_password := hashedPassword;
                               user_createdAt := now env;
                               user_updatedAt := now env |})
    end.

Definition signup_failed (error : DbError) : Handler Response :=
  print (ConsoleError "[API Auth] Signup Database Error:") ;;;
  match error with
  | DuplicateEmailKey => respond (failure 409 "Email already in use.")
  | _ => respond (failure 500 "Internal Server Error: Could not create user.")
  end.

Definition signup (env : Env) (rawBody : Json) : Handler Response :=
  match signupSchema rawBody with
  | None =>
      print (ConsoleLog "[API Auth] Signup Validation Error:") ;;;
      respond (failure 400 "Invalid signup data.")
  | Some details =>
      existingUser <- attempt env UserFindOne
                        (UserModel_findOne (toLowerCase (signup_email details))) ;;
      match existingUser with
      | inl error => signup_failed error
      | inr (Some _) =>
          print (ConsoleLog ("[API Auth] Signup attempt failed: Email already in use - "
                             ++ signup_email details)) ;;;
          respond (failure 409 "Email already in use.")
      | inr None =>
          created <- create_user env details ;;
          match created with
          | inl error => signup_failed error
          | inr _ =>
              print (ConsoleLog ("[API Auth] Signup successful for email: "
                                 ++ signup_email details)) ;;;
              ret (success_message 201 "Signup successful. Please login.")
          end
      end
  end.

Definition invalid_credentials : Response := failure 401 "Invalid email or password.".

Definition public_profile (user : UserDoc) : PublicUser :=
  {| public_id := user_id user;
     public_name := user_name user;
     public_email := user_email user;
     public_createdAt := user_createdAt user;
     public_updatedAt := user_updatedAt user |}.

(** [response.cookies.set('access_token', token, { .. })] *)
Definition session_cookie (env : Env) (token : string) (maxAgeSeconds : number) : Cookie :=
  {| cookie_name := "access_token";
     cookie_token := token;
     httpOnly := true;
     secure := match NODE_ENV env with
               | Some mode => String.eqb mode "production"
               | None => false
               end;
     sameSite := "lax";
     path := "/";
     maxAge := maxAgeSeconds |}.

Definition login (env : Env) (rawBody : Json) : Handler Response :=
  match loginSchema rawBody with
  | None =>
      print (ConsoleLog "[API Auth] Login Validation Error:") ;;;
      respond (failure 400 "Invalid login data.")
  | Some credentials =>
      let email := login_email credentials in
      let candidatePassword := login_password credentials in
      found <- attempt env UserFindOne (UserModel_findOne (toLowerCase email)) ;;
      match found with
      | inl error =>
          print (ConsoleError "[API Auth] Login Database/Comparison Error:") ;;;
          respond (failure 500 "Internal Server Error during login process.")
      | inr None =>
          print (ConsoleLog ("[API Auth] Login attempt failed: User not found - " ++ email)) ;;;
          respond invalid_credentials
      | inr (Some user) =>
          if negb (comparePassword user candidatePassword) then
            print (ConsoleLog ("[API Auth] Login attempt failed: Incorrect password - " ++ email)) ;;;
            respond invalid_credentials
          else
            match JWT_SECRET env, JWT_EXPIRES_IN env with
            | Some (String _ _ as jwtSecret), Some (String _ _ as jwtExpiresIn) =>
                match parseJwtExpiresIn jwtExpiresIn with
                | None =>
                    print (ConsoleError ("[API Auth] Invalid JWT_EXPIRES_IN format: " ++ jwtExpiresIn)) ;;;
                    respond (failure 500 "Internal Server Error: Invalid JWT expiration format.")
                | Some maxAgeSeconds =>
                    match jwt_sign (user_id user) jwtSecret jwtExpiresIn (now env) with
                    | None =>
                        print (ConsoleError "[API Auth] JWT Signing Error:") ;;;
                        respond (failure 500 "Internal Server Error: Could not create session.")
                    | Some token =>
                        print (ConsoleLog ("[API Auth] Login successful for email: " ++ email)) ;;;
                        ret {| status := 200;
                               body := JsonBody {| success := true; message := None;
                                                   data := Some (DataUser (public_profile user));
                                                   error := None; validationErrors := false |};
                               set_cookie := Some (session_cookie env token maxAgeSeconds) |}
                    end
                end
            | _, _ =>
                print (ConsoleError "[API Auth] JWT configuration missing in environment variables.") ;;;
                respond (failure 500 "Internal Server Error: JWT configuration missing.")
            end
      end
  end.

Definition POST (env : Env) (request : Request) : Handler Response :=
  connected <- connectDB env ;;
  match connected with
  | inl dbError =>
      print (ConsoleError "[API Auth] Database Connection Error:") ;;;
      respond (failure 500 "Internal Server Error: Could not connect to database.")
  | inr _ =>
      match json request with
      | None =>
          print (ConsoleError "[API Auth] Request Body Parsing Error:") ;;;
          respond (failure 400 "Invalid request body: Could not parse JSON.")
      | Some rawBody =>
          match actionSchema rawBody with
          | None =>
              print (ConsoleLog "[API Auth] Invalid Action:") ;;;
              respond (failure 400 "Invalid action specified.")
          | Some Signup => signup env rawBody
          | Some Login => login env rawBody
          end
      end
  end.

End Handlers.

End Auth.

(** ** A concrete deployment

    A small implementation of the external libraries and a populated
    database, on which the handlers can be run. *)

Module Scenario.

Definition secret : string := "s3cret".

Definition alice : ObjectId := "64b000000000000000000001".
Definition bob : ObjectId := "64b000000000000000000002".
Definition run5k : ObjectId := "64c000000000000000000001".
Definition swim : ObjectId := "64c000000000000000000002".

Definition is_hex (c : ascii) : bool :=
  let n := nat_of_ascii c in
  (((48 <=? n) && (n <=? 57)) || ((97 <=? n) && (n <=? 102))
   || ((65 <=? n) && (n <=? 70)))%nat.

Fixpoint all_hex (s : string) : bool :=
  match s with
  | EmptyString => true
  | String c rest => is_hex c && all_hex rest
  end.

(** Tokens are signed for one secret; the payload is read off the token's
    name. *)
Definition verify (token sec : string) : Jwt.VerifyOutcome :=
  if negb (String.eqb sec secret)
  then Jwt.Thrown {| Jwt.error_class := Jwt.JsonWebTokenError;
                     Jwt.error_message := "invalid signature" |}
  else if String.eqb token "token-alice"
  then Jwt.Verified (Jwt.DecodedObject (Some (JsStr alice)))
  else if String.eqb token "token-bob"
  then Jwt.Verified (Jwt.DecodedObject (Some (JsStr bob)))
  else if String.eqb token "token-empty-userId"
  then Jwt.Verified (Jwt.DecodedObject (Some (JsStr "")))
  else if String.eqb token "token-numeric-userId"
  then Jwt.Verified (Jwt.DecodedObject (Some (JsNum (of_Z 7))))
  else if String.eqb token "token-without-userId"
  then Jwt.Verified (Jwt.DecodedObject None)
  else if String.eqb token "token-expired"
  then Jwt.Thrown {| Jwt.error_class := Jwt.TokenExpiredError;
                     Jwt.error_message := "jwt expired" |}
  else Jwt.Thrown {| Jwt.error_class := Jwt.JsonWebTokenError;
                     Jwt.error_message := "jwt malformed" |}.

#[export] Instance libraries : Libraries := {|
  jwt_verify := verify;
  jwt_sign := fun userId sec expiresIn at_time =>
                if String.eqb expiresIn (trim expiresIn)
                then Some ("token-for-" ++ userId) else None;
  ObjectId_isValid := fun s => (String.length s =? 24)%nat && all_hex s;
  zod_email := Auth.email_path_match;
  zod_datetime_offset := fun s => String.eqb s "2024-07-26T10:00:00.000Z";
  Date_parse := fun s => if String.eqb s "2024-07-26T10:00:00.000Z"
                         then Some 1721988000000%Z else None;
  bcrypt_compare := fun candidate hashed => Some (String.eqb hashed ("hashed:" ++ candidate));
  bcrypt_hash := fun password => Some ("hashed:" ++ password)
|}.

Definition env : Env := {|
  JWT_SECRET := Some secret;
  JWT_EXPIRES_IN := Some "1d";
  NODE_ENV := Some "production";
  now := 1722000000000%Z;
  fresh_id := "64d000000000000000000001";
  throws := fun _ => None
|}.

(** The same deployment without a signing secret. *)
Definition env_without_secret : Env := {|
  JWT_SECRET := None;
  JWT_EXPIRES_IN := Some "1d";
  NODE_ENV := Some "production";
  now := 1722000000000%Z;
  fresh_id := "64d000000000000000000001";
  throws := fun _ => None
|}.

(** The same deployment with a padded expiration duration. *)
Definition env_padded_expiry : Env := {|
  JWT_SECRET := Some secret;
  JWT_EXPIRES_IN := Some " 1d";
  NODE_ENV := Some "production";
  now := 1722000000000%Z;
  fresh_id := "64d000000000000000000001";
  throws := fun _ => None
|}.

(** The same deployment when deleting progress entries fails. *)
Definition env_cascade_fails : Env := {|
  JWT_SECRET := Some secret;
  JWT_EXPIRES_IN := Some "1d";
  NODE_ENV := Some "production";
  now := 1722000000000%Z;
  fresh_id := "64d000000000000000000001";
  throws := fun op => match op with ProgressDeleteMany => Some OtherDbError | _ => None end
|}.

Definition goal_run5k : Goal := {|
  goal_id := run5k; goal_userId := alice; goal_name := "Run 5k";
  goal_description := None; goal_targetMetric := Some "Distance";
  goal_targetUnit := Some "km"; goal_deadline := None;
  goal_createdAt := 1721000000000%Z; goal_updatedAt := 1721000000000%Z |}.

Definition goal_swim : Goal := {|
  goal_id := swim; goal_userId := bob; goal_name := "Swim";
  goal_description := None; goal_targetMetric := None;
  goal_targetUnit := None; goal_deadline := None;
  goal_createdAt := 1721000000001%Z; goal_updatedAt := 1721000000001%Z |}.

Definition entry_run5k : ProgressEntry := {|
  progress_id := "64e000000000000000000001"; progress_goalId := run5k;
  progress_userId := alice; progress_value := of_Z 3;
  progress_date := 1721500000000%Z; progress_notes := None;
  progress_createdAt := 1721500000000%Z; progress_updatedAt := 1721500000000%Z |}.

Definition user_alice : UserDoc := {|
  user_id := alice; user_name := "Alice"; user_email := "alice@example.com";
  user_password := "hashed:wonderland";
  user_createdAt := 1720000000000%Z; user_updatedAt := 1720000000000%Z |}.

Definition database : Db := {|
  goals := [goal_run5k; goal_swim];
  progress := [entry_run5k];
  users := [user_alice]
|}.

Definition world : World := {| db := database; console := [] |}.

Definition request_with (path : string) (jar : list (string * string)) (body : option Json)
  : Request :=
  {| origin := "https://fit.example"; pathname := path; cookies := jar; json := body |}.

Definition as_alice (path : string) (body : option Json) : Request :=
  request_with path [("access_token", "token-alice")] body.

Definition login_body (email password : string) : Json :=
  JObject [("action", JString "login"); ("email", JString email);
           ("password", JString password)].

Definition progress_body (goalId : string) : Json :=
  JObject [("goalId", JString goalId); ("value", JNumber (of_Z 4));
           ("date", JString "2024-07-26T10:00:00.000Z")].

Definition profile_request : Request := request_with "/api/auth/profile" [] None.

Definition goals_api (token : string) : Request :=
  request_with "/api/goals" [("access_token", token)] None.

Definition dashboard (jar : list (string * string)) : Request :=
  request_with "/dashboard" jar None.

Definition goal_request (body : option Json) : Request := as_alice "/api/goals/item" body.

Definition progress_request (goalId : string) : Request :=
  as_alice "/api/progress" (Some (progress_body goalId)).

Definition login_request (email password : string) : Request :=
  request_with "/api/auth" [] (Some (login_body email password)).

End Scenario.

(** ** Vocabulary of the specification *)

Import Middleware.

(** The session token verifies, but its payload carries no usable
    [userId]: the payload is not an object, has no such claim, or the claim
    is not a string or is the empty string. *)
Definition unusable_userId (decoded : Jwt.Decoded) : Prop :=
  match decoded with
  | Jwt.DecodedObject (Some (JsStr (String _ _))) => False
  | _ => True
  end.

Definition is_api_path (request : Request) : bool := startsWith (pathname request) "/api/".

Definition login_page (request : Request) : string := origin request ++ "/login".

(** A JSON failure envelope with a given status. *)
Definition json_failure (code : Z) (r : Result) : Prop :=
  exists msg, r = Respond (failure code msg).

(** The rejection of step 1 and step 3: 401 for API paths, the login page
    for the others. *)
Definition rejected (request : Request) (r : Result) : Prop :=
  if is_api_path request then json_failure 401 r
  else r = Redirect (login_page request).


(** Two strings spell the same identifier. *)
Definition same_id (a b : string) : Prop :=
  Store.castObjectId a = Store.castObjectId b.

(** The user owns a goal with this identifier. *)
Definition owns (d : Db) (userId goalId : string) : Prop :=
  exists g, In g (goals d) /\ same_id (goal_id g) goalId /\ same_id (goal_userId g) userId.

(** The request is authenticated as this user by the goal-item endpoint,
    respectively by the progress endpoint. *)
Definition authenticated_for_goal {L : Libraries} (env : Env) (request : Request)
    (userId : ObjectId) : Prop :=
  forall w, verification_result GoalItem.getVerifiedUserId env request w = inr userId.

Definition authenticated_for_progress {L : Libraries} (env : Env) (request : Request)
    (userId : ObjectId) : Prop :=
  forall w, verification_result Progress.getVerifiedUserId env request w = inr userId.


(** Some progress entry refers to the goal. *)
Definition has_entries (d : Db) (goalId : string) : Prop :=
  exists p, In p (progress d) /\ same_id (progress_goalId p) goalId.


(** No account has this address. *)
Definition no_account (d : Db) (email : string) : Prop :=
  forall u, In u (users d) -> user_email u <> email.

(** The account with this address does not have this password. *)
Definition wrong_password {L : Libraries} (d : Db) (email password : string) : Prop :=
  exists user,
    fst (Store.UserModel_findOne email d) = Some user
    /\ Auth.comparePassword user password = false.

(** Seconds in a unit of the expiration-duration format. *)
Definition unit_seconds (unit : ascii) : option Z :=
  match unit with
  | "d"%char => Some 86400%Z
  | "h"%char => Some 3600%Z
  | "m"%char => Some 60%Z
  | "s"%char => Some 1%Z
  | _ => None
  end.

(** The factors the code multiplies by, one after the other: a day is 24
    hours of 60 minutes of 60 seconds. *)
Definition unit_factors (unit : ascii) : option (list Z) :=
  match unit with
  | "d"%char => Some [24; 60; 60]%Z
  | "h"%char => Some [60; 60]%Z
  | "m"%char => Some [60]%Z
  | "s"%char => Some []
  | _ => None
  end.

(** A number of units in seconds, as numbers are multiplied: every
    product is rounded. *)
Definition in_seconds (value : Z) (factors : list Z) : number :=
  fold_left (fun x factor => Number.mul x (of_Z factor)) factors (of_Z value).

(** [t] has the form [<integer><unit>] with a positive integer and a unit
    among d, h, m, s, and stands for [n] seconds. *)
Definition duration_seconds (t : string) (n : number) : Prop :=
  exists digits unit factors,
    t = digits ++ String unit EmptyString
    /\ digits <> EmptyString
    /\ all_digits digits = true
    /\ unit_factors unit = Some factors
    /\ (0 < parse_digits 0 digits)%Z
    /\ n = in_seconds (parse_digits 0 digits) factors.

(** A number that is at least one: plus infinity, or a positive finite
    number whose leading bit has weight at least one. *)
Definition at_least_one (x : number) : Prop :=
  match x with
  | S754_infinity false => True
  | S754_finite false m e => (0 <= Z.log2 (Zpos m) + e)%Z
  | _ => False
  end.

(** A login that got past the password check, with the configuration in
    place. *)
Definition password_accepted {L : Libraries} (env : Env) (request : Request) (d : Db)
    (user : UserDoc) (jwtSecret jwtExpiresIn : string) : Prop :=
  exists rawBody credentials,
    throws env ConnectDB = None
    /\ throws env UserFindOne = None
    /\ json request = Some rawBody
    /\ Auth.loginSchema rawBody = Some credentials
    /\ fst (Store.UserModel_findOne (toLowerCase (Auth.login_email credentials)) d) = Some user
    /\ Auth.comparePassword user (Auth.login_password credentials) = true
    /\ JWT_SECRET env = Some jwtSecret /\ truthy (Some jwtSecret) = true
    /\ JWT_EXPIRES_IN env = Some jwtExpiresIn /\ truthy (Some jwtExpiresIn) = true.

(** ** app/api/goals/route.ts: the handlers *)

Module GoalsCollection.

Import Store Schema.

(** What the two storage operations of this file may throw during a
    request. *)
Record Faults : Type := {
  create_throws : option DbError;
  find_throws : option DbError
}.

Definition no_faults : Faults := {| create_throws := None; find_throws := None |}.

(** A storage operation inside [try], its failure given. *)
Definition attempt_or {A : Type} (failure : option DbError) (action : Db -> A * Db)
  : Handler (DbError + A) :=
  fun w =>
    match failure with
    | Some e => (inr (inl e), w)
    | None =>
        let '(a, d) := action (db w) in
        (inr (inr a), {| db := d; console := console w |})
    end.

Record CreateGoalData : Type := {
  new_name : string;
  new_description : option string;
  new_targetMetric : option string;
  new_targetUnit : option string;
  new_deadline : option string
}.

(** [GoalModel.create(doc)]: the stored document *)
Definition GoalModel_create (doc : Goal) (d : Db) : Goal * Db :=
  (doc, {| goals := goals d ++ [doc]; progress := progress d; users := users d |}).

(** Insertion into a list sorted by creation time, newest first. *)
Fixpoint insert_by_createdAt (g : Goal) (l : list Goal) : list Goal :=
  match l with
  | [] => [g]
  | h :: rest =>
      if (goal_createdAt h <? goal_createdAt g)%Z then g :: l
      else h :: insert_by_createdAt g rest
  end.

Definition sort_newest_created_first (l : list Goal) : list Goal :=
  fold_right insert_by_createdAt [] l.

(** The filter [{ userId: userId }]. *)
Definition owned_by (userId : string) (g : Goal) : bool :=
  String.eqb (Store.castObjectId (goal_userId g)) (Store.castObjectId userId).

(** [GoalModel.find({ userId }).sort({ createdAt: -1 }).lean().exec()] *)
Definition GoalModel_find (userId : ObjectId) (d : Db) : list Goal * Db :=
  (sort_newest_created_first (filter (owned_by userId) (goals d)), d).

(** What [GET] answers: an envelope, or the list of goals with its status. *)
Inductive Reply : Type :=
| Envelope_reply (r : Response)
| Goals_reply (code : Z) (goals : list Goal).

Definition reply_of (h : Handler Reply) (w : World) : Reply :=
  match h w with
  | (inl r, _) => Envelope_reply r
  | (inr reply, _) => reply
  end.

Definition world_after_reply (h : Handler Reply) (w : World) : World := snd (h w).

Section Handlers.

Context {L : Libraries}.

(** [createGoalSchema.safeParse(rawBody)]; unknown keys are dropped. *)
Definition createGoalSchema (rawBody : Json) : option CreateGoalData :=
  match rawBody with
  | JObject fields =>
      match required_trimmed (field fields "name"),
            optional_trimmed (field fields "description"),
            optional_trimmed (field fields "targetMetric"),
            optional_trimmed (field fields "targetUnit"),
            optional_datetime (field fields "deadline") with
      | Some name, Some description, Some targetMetric, Some targetUnit, Some deadline =>
          Some {| new_name := name; new_description := description;
                  new_targetMetric := targetMetric; new_targetUnit := targetUnit;
                  new_deadline := deadline |}
      | _, _, _, _, _ => None
      end
  | _ => None
  end.

(** The document [GoalModel.create] stores: the validated fields, trimmed
    by the schema, the verified user, cast to an identifier, a fresh
    identifier and the timestamps. *)
Definition new_goal (env : Env) (userId : string) (validated : CreateGoalData)
    (deadline : option Date) : Goal :=
  {| goal_id := fresh_id env;
     goal_userId := Store.castObjectId userId;
     goal_name := trim (new_name validated);
     goal_description := option_map trim (new_description validated);
     goal_targetMetric := option_map trim (new_targetMetric validated);
     goal_targetUnit := option_map trim (new_targetUnit validated);
     goal_deadline := deadline;
     goal_createdAt := now env;
     goal_updatedAt := now env |}.

(** The [catch] block of step 5. *)
Definition creation_failed (error : DbError) : Handler Response :=
  print (ConsoleError "[API Goals POST] Database Error creating goal:") ;;;
  match error with
  | ValidationError msg => respond (failure_with 400 "Database validation failed." msg false)
  | _ => respond (failure 500 "Internal Server Error: Could not create goal.")
  end.

(** [...(data.deadline && { deadline: new Date(data.deadline) })], then the
    schema's cast: [None] when the date is invalid. *)
Definition deadline_to_store (deadline : option string) : option (option Date) :=
  match deadline with
  | None => Some None
  | Some EmptyString => Some None
  | Some s =>
      match Date_parse s with
      | Some date => Some (Some date)
      | None => None
      end
  end.

Definition POST (env : Env) (faults : Faults) (request : Request) : Handler Response :=
  connected <- connectDB env ;;
  match connected with
  | inl dbError =>
      print (ConsoleError "[API Goals POST] Database Connection Error:") ;;;
      respond (failure 500 "Internal Server Error: Could not connect to database.")
  | inr _ =>
      userId <- Goals.getVerifiedUserId env request ;;
      match json request with
      | None =>
          print (ConsoleError "[API Goals POST] Request Body Parsing Error:") ;;;
          respond (failure 400 "Invalid request body: Could not parse JSON.")
      | Some rawBody =>
          match createGoalSchema rawBody with
          | None =>
              print (ConsoleLog "[API Goals POST] Validation Error:") ;;;
              respond (failure_with 400 "Invalid goal data provided." "Validation failed" false)
          | Some validated =>
              match deadline_to_store (new_deadline validated) with
              | None => creation_failed (ValidationError "Goal validation failed: deadline")
              | Some deadline =>
                  created <- attempt_or (create_throws faults)
                               (GoalModel_create (new_goal env userId validated deadline)) ;;
                  match created with
                  | inl error => creation_failed error
                  | inr newGoalDoc =>
                      print (ConsoleLog ("[API Goals POST] Goal created successfully for user "
                                         ++ userId)) ;;;
                      ret (success_data 201 (DataGoal newGoalDoc))
                  end
              end
          end
      end
  end.

Definition GET (env : Env) (faults : Faults) (request : Request) : Handler Reply :=
  connected <- connectDB env ;;
  match connected with
  | inl dbError =>
      print (ConsoleError "[API Goals GET] Database Connection Error:") ;;;
      respond (failure 500 "Internal Server Error: Could not connect to database.")
  | inr _ =>
      userId <- Goals.getVerifiedUserId env request ;;
      found <- attempt_or (find_throws faults) (GoalModel_find userId) ;;
      match found with
      | inl error =>
          print (ConsoleError "[API Goals GET] Database Error fetching goals:") ;;;
          respond (failure 500 "Internal Server Error: Could not retrieve goals.")
      | inr goals =>
          print (ConsoleLog ("[API Goals GET] Fetched goals for user " ++ userId)) ;;;
          ret (Goals_reply 200 goals)
      end
  end.

End Handlers.

End GoalsCollection.

(** ** Further vocabulary *)

From Stdlib Require Import Sorted Permutation.

(** The request is authenticated as this user by the goals-collection
    endpoint. *)
Definition authenticated_for_goals {L : Libraries} (env : Env) (request : Request)
    (userId : ObjectId) : Prop :=
  forall w, verification_result Goals.getVerifiedUserId env request w = inr userId.

(** Goal identifiers are unique, as the storage engine keeps [_id]. *)
Definition unique_goal_ids (d : Db) : Prop :=
  NoDup (map (fun g => Store.castObjectId (goal_id g)) (goals d)).

(** Every progress entry belongs to a goal of the user it is recorded
    for. *)
Definition entries_have_goals (d : Db) : Prop :=
  forall p, In p (progress d) -> owns d (progress_userId p) (progress_goalId p).

(** Entries in the order newest date first. *)
Definition newest_first (entries : list ProgressEntry) : Prop :=
  StronglySorted (fun a b => (progress_date b <= progress_date a)%Z) entries.

(** Goals in the order newest creation first. *)
Definition newest_created_first (l : list Goal) : Prop :=
  StronglySorted (fun a b => (goal_createdAt b <= goal_createdAt a)%Z) l.

(** A helper has its handler answer a failure with this status. *)
Definition refused_with (code : Z) (result : Response + string) : Prop :=
  exists msg, result = inl (failure code msg).

(** The string holds no path separator. *)
Fixpoint no_slash (s : string) : bool :=
  match s with
  | EmptyString => true
  | String c rest => negb (Ascii.eqb c "/") && no_slash rest
  end.

(** Account identifiers are unique, as the storage engine keeps [_id]. *)
Definition unique_user_ids (d : Db) : Prop :=
  NoDup (map (fun u => Store.castObjectId (user_id u)) (users d)).

(** ** lib/db.ts

    [connectDB] and the cache it keeps on [globalThis].  A call runs up to
    its [await]; it is resumed once the promise it waits for has settled.
    Calls of different requests interleave at their awaits. *)

Module MongooseCache.

(** A [Mongoose] instance. *)
Definition Connection : Type := nat.

(** The state of a promise made by [mongoose.connect(..).then(..)]. *)
Inductive PromiseState : Type :=
| Pending
| Fulfilled (instance : Connection)
| Rejected (reason : string).

(** Promises are told apart by the order in which they were made. *)
Definition PromiseRef : Type := nat.

(** [globalThis.mongooseCache] *)
Record Cache : Type := {
  conn : option Connection;
  promise : option PromiseRef
}.

Record Runtime : Type := {
  cached : Cache;
  (** Every promise [mongoose.connect] has returned, oldest first. *)
  promises : list PromiseState;
  console : list LogLine
}.

(** [cached = globalThis.mongooseCache = { conn: null, promise: null }] *)
Definition initial : Runtime :=
  {| cached := {| conn := None; promise := None |}; promises := []; console := [] |}.

(** Where a call waits. *)
Inductive Await : Type :=
| Existing_promise (p : PromiseRef)   (* [await cached.promise], second branch *)
| New_promise (p : PromiseRef).       (* [cached.conn = await cached.promise] *)

Inductive Started : Type :=
| Returned (instance : Connection)
| Waiting (at_await : Await).

Inductive Finished : Type :=
| Resolves (instance : Connection)
| Throws (message : string).

Definition log (line : LogLine) (r : Runtime) : Runtime :=
  {| cached := cached r; promises := promises r; console := console r ++ [line] |}.

Definition set_conn (c : option Connection) (r : Runtime) : Runtime :=
  {| cached := {| conn := c; promise := promise (cached r) |};
     promises := promises r; console := console r |}.

Definition set_promise (p : option PromiseRef) (r : Runtime) : Runtime :=
  {| cached := {| conn := conn (cached r); promise := p |};
     promises := promises r; console := console r |}.

(** [mongoose.connect(MONGODB_URI, opts).then(..)]: a new pending promise. *)
Definition mongoose_connect (r : Runtime) : PromiseRef * Runtime :=
  (List.length (promises r),
   {| cached := cached r; promises := promises r ++ [Pending]; console := console r |}).

(** [connectDB()] up to its first [await] *)
Definition connectDB (r : Runtime) : Started * Runtime :=
  match conn (cached r) with
  | Some instance =>
      (Returned instance, log (ConsoleLog "[DB] Using cached database connection.") r)
  | None =>
      match promise (cached r) with
      | Some p =>
          (Waiting (Existing_promise p),
           log (ConsoleLog "[DB] Awaiting existing database connection promise.") r)
      | None =>
          let r1 := log (ConsoleLog "[DB] Attempting to establish a new database connection...") r in
          let '(p, r2) := mongoose_connect r1 in
          (Waiting (New_promise p), set_promise (Some p) r2)
      end
  end.

(** The rest of [connectDB()] once the awaited promise has settled;
    [None] while it is pending. *)
Definition resume (at_await : Await) (r : Runtime) : option (Finished * Runtime) :=
  match at_await with
  | Existing_promise p =>
      match nth_error (promises r) p with
      | Some (Fulfilled instance) => Some (Resolves instance, r)
      | Some (Rejected reason) =>
          Some (Throws ("Failed to establish database connection via existing promise. "
                        ++ reason),
                log (ConsoleError "[DB] Existing connection promise failed:")
                    (set_promise None r))
      | _ => None
      end
  | New_promise p =>
      match nth_error (promises r) p with
      | Some (Fulfilled instance) =>
          Some (Resolves instance, set_conn (Some instance) r)
      | Some (Rejected reason) =>
          Some (Throws ("Failed to connect to database. " ++ reason),
                set_promise None
                  (log (ConsoleError "[DB] Database connection error during initial connect:") r))
      | _ => None
      end
  end.

Fixpoint replace_nth (p : nat) (outcome : PromiseState) (l : list PromiseState)
  : list PromiseState :=
  match l, p with
  | [], _ => []
  | _ :: rest, O => outcome :: rest
  | state :: rest, S p' => state :: replace_nth p' outcome rest
  end.

(** The driver settles a pending promise; the [then] callback logs a
    success. *)
Definition settle (p : PromiseRef) (outcome : PromiseState) (r : Runtime) : Runtime :=
  {| cached := cached r;
     promises := replace_nth p outcome (promises r);
     console := match outcome with
                | Fulfilled _ =>
                    console r ++ [ConsoleLog "[DB] New database connection established successfully."]
                | _ => console r
                end |}.

(** The server process: the runtime and the calls that wait. *)
Record Server : Type := {
  runtime : Runtime;
  waiting : list Await
}.

Definition boot : Server := {| runtime := initial; waiting := [] |}.

Inductive step : Server -> Server -> Prop :=
| step_call_returns (s : Server) (instance : Connection) (r' : Runtime) :
    connectDB (runtime s) = (Returned instance, r') ->
    step s {| runtime := r'; waiting := waiting s |}
| step_call_waits (s : Server) (at_await : Await) (r' : Runtime) :
    connectDB (runtime s) = (Waiting at_await, r') ->
    step s {| runtime := r'; waiting := at_await :: waiting s |}
| step_settle (s : Server) (p : PromiseRef) (outcome : PromiseState) :
    nth_error (promises (runtime s)) p = Some Pending ->
    outcome <> Pending ->
    step s {| runtime := settle p outcome (runtime s); waiting := waiting s |}
| step_resume (s : Server) (before after : list Await) (at_await : Await)
    (result : Finished) (r' : Runtime) :
    waiting s = (before ++ at_await :: after)%list ->
    resume at_await (runtime s) = Some (result, r') ->
    step s {| runtime := r'; waiting := (before ++ after)%list |}.

Inductive reachable_from (s : Server) : Server -> Prop :=
| reach_refl : reachable_from s s
| reach_step (s1 s2 : Server) :
    reachable_from s s1 -> step s1 s2 -> reachable_from s s2.

(** How often [mongoose.connect] has been called. *)
Definition connects (s : Server) : nat := List.length (promises (runtime s)).

Definition is_rejected (state : PromiseState) : bool :=
  match state with Rejected _ => true | _ => false end.

(** No connection attempt has failed. *)
Definition no_failure (s : Server) : Prop :=
  forallb (fun state => negb (is_rejected state)) (promises (runtime s)) = true.

End MongooseCache.

(** ** components/ProgressHistory.tsx

    The order in which the history of a goal is shown. *)

Module ProgressHistory.

(** [entry.date], typed [string | Date]; the sort also provides for a
    missing one. *)
Inductive DateInput : Type :=
| Missing                           (* [undefined] or [null] *)
| DateObject (time : option Date)   (* a [Date]; [None] when it is invalid *)
| DateText (text : string).

(** [ProgressEntry] of lib/types.ts, as the client holds it. *)
Record Entry : Type := {
  entry_id : ObjectId;
  entry_goalId : ObjectId;
  entry_userId : ObjectId;
  entry_value : number;
  entry_date : DateInput;
  entry_notes : option string;
  entry_createdAt : DateInput
}.

Section Sorting.

(** [parseISO] of the date library; [None] for an invalid [Date]. *)
Variable parseISO : string -> option Date.

Definition parseEntryDateForSort (dateInput : DateInput) : option Date :=
  match dateInput with
  | Missing => None
  | DateText EmptyString => None
  | DateObject time => time
  | DateText text => parseISO text
  end.

(** The comparator handed to [sort]. *)
Definition compare (a b : Entry) : Z :=
  let dateA := parseEntryDateForSort (entry_date a) in
  let dateB := parseEntryDateForSort (entry_date b) in
  match dateA, dateB with
  | None, None => 0
  | None, Some _ => 1
  | Some _, None => -1
  | Some timeA, Some timeB => timeB - timeA
  end.

(** [Array.prototype.sort(comparefn)]: a stable sort. *)
Fixpoint insert (comparefn : Entry -> Entry -> Z) (x : Entry) (sorted : list Entry)
  : list Entry :=
  match sorted with
  | [] => [x]
  | y :: rest =>
      if (comparefn x y <=? 0)%Z then x :: y :: rest
      else y :: insert comparefn x rest
  end.

Fixpoint Array_sort (comparefn : Entry -> Entry -> Z) (items : list Entry) : list Entry :=
  match items with
  | [] => []
  | x :: rest => insert comparefn x (Array_sort comparefn rest)
  end.

Definition sortedEntries (progressEntries : option (list Entry)) : list Entry :=
  match progressEntries with
  | None => []
  | Some [] => []
  | Some entries => Array_sort compare entries
  end.

(** The entry has a date the sort can use. *)
Definition dated (e : Entry) : bool :=
  match parseEntryDateForSort (entry_date e) with Some _ => true | None => false end.

(** Both entries are dated and the first is not the older one. *)
Definition not_older (a b : Entry) : Prop :=
  match parseEntryDateForSort (entry_date a), parseEntryDateForSort (entry_date b) with
  | Some timeA, Some timeB => (timeB <= timeA)%Z
  | _, _ => False
  end.

End Sorting.

(** A stored entry as the detail page receives it: the response body
    carries dates as ISO strings. *)
Definition received (toISOString : Date -> string) (p : ProgressEntry) : Entry :=
  {| entry_id := progress_id p;
     entry_goalId := progress_goalId p;
     entry_userId := progress_userId p;
     entry_value := progress_value p;
     entry_date := DateText (toISOString (progress_date p));
     entry_notes := progress_notes p;
     entry_createdAt := DateText (toISOString (progress_createdAt p)) |}.

End ProgressHistory.

(** ** The forms and the requests made from them

    A form hands its values, parsed by its schema, to the page or
    context that sends them to an endpoint. *)

Module Forms.

Section Client.

Context {L : Libraries}.

(** *** AuthForm and AuthContext *)

Record LoginValues : Type := { login_email_input : string; login_password_input : string }.

(** [LoginCredentials] of lib/types.ts *)
Record LoginCredentials : Type := { cred_email : string; cred_password : string }.

Record SignupValues : Type := {
  signup_name_input : string;
  signup_email_input : string;
  signup_password_input : string
}.

(** [SignupDetails] of lib/types.ts *)
Record SignupDetails : Type := {
  details_name : string;
  details_email : string;
  details_password : string
}.

Definition loginSchema (values : LoginValues) : option LoginCredentials :=
  let email := trim (login_email_input values) in
  if zod_email email && (1 <=? String.length (login_password_input values))%nat
  then Some {| cred_email := email; cred_password := login_password_input values |}
  else None.

Definition signupSchema (values : SignupValues) : option SignupDetails :=
  let name := trim (signup_name_input values) in
  let email := trim (signup_email_input values) in
  if (1 <=? String.length name)%nat && zod_email email
     && (6 <=? String.length (signup_password_input values))%nat
  then Some {| details_name := name; details_email := email;
               details_password := signup_password_input values |}
  else None.

(** [{ action: 'login', ...credentials }], the body [login] posts to
    [/api/auth]. *)
Definition login_body (credentials : LoginCredentials) : Json :=
  JObject [("action", JString "login");
           ("email", JString (cred_email credentials));
           ("password", JString (cred_password credentials))].

(** [{ action: 'signup', ...details }], the body [signup] posts. *)
Definition signup_body (details : SignupDetails) : Json :=
  JObject [("action", JString "signup");
           ("name", JString (details_name details));
           ("email", JString (details_email details));
           ("password", JString (details_password details))].

(** *** GoalForm and the new-goal page *)

Record GoalValues : Type := {
  goal_name_input : string;
  goal_description_input : option string;
  goal_targetMetric_input : option string;
  goal_targetUnit_input : option string
}.

(** [GoalFormData] *)
Record GoalFormData : Type := {
  form_name : string;
  form_description : option string;
  form_targetMetric : option string;
  form_targetUnit : option string
}.

Definition goalSchema (values : GoalValues) : option GoalFormData :=
  let name := trim (goal_name_input values) in
  if (1 <=? String.length name)%nat
  then Some {| form_name := name;
               form_description := option_map trim (goal_description_input values);
               form_targetMetric := option_map trim (goal_targetMetric_input values);
               form_targetUnit := option_map trim (goal_targetUnit_input values) |}
  else None.

(** A property that is [undefined] is left out of the serialised body. *)
Definition optional_member (key : string) (value : option string) : list (string * Json) :=
  match value with
  | Some s => [(key, JString s)]
  | None => []
  end.

(** The body [handleGoalSubmit] posts to [/api/goals]: the form data. *)
Definition goal_body (formData : GoalFormData) : Json :=
  JObject ([("name", JString (form_name formData))]
           ++ optional_member "description" (form_description formData)
           ++ optional_member "targetMetric" (form_targetMetric formData)
           ++ optional_member "targetUnit" (form_targetUnit formData))%list.

(** *** ProgressLogForm and the goal page *)

(** [Number(val)] on the text of an input. *)
Variable ToNumber : string -> number.

Record ProgressValues : Type := {
  value_input : string;
  date_input : string;
  notes_input : option string
}.

(** [ProgressFormData] *)
Record ProgressFormData : Type := {
  form_value : number;
  form_date : string;
  form_notes : option string
}.

Definition progressSchema (values : ProgressValues) : option ProgressFormData :=
  let value := if String.eqb (value_input values) EmptyString
               then Number.NaN
               else ToNumber (value_input values) in
  if negb (Number.isNaN value) && Number.ltb Number.zero value
     && (1 <=? String.length (date_input values))%nat
  then Some {| form_value := value;
               form_date := date_input values;
               form_notes := option_map trim (notes_input values) |}
  else None.

(** [JSON.stringify] of a number: [null] when it is not finite. *)
Definition json_number (x : number) : Json :=
  if Schema.is_finite x then JNumber x else JNull.

(** [{ ...formData, goalId }], the body [handleProgressSubmit] posts to
    [/api/progress]. *)
Definition progress_body (formData : ProgressFormData) (goalId : string) : Json :=
  JObject ([("value", json_number (form_value formData));
            ("date", JString (form_date formData))]
           ++ optional_member "notes" (form_notes formData)
           ++ [("goalId", JString goalId)])%list.

End Client.

End Forms.

(** ** lib/auth.ts

    The session of a request as server code reads it after the
    middleware: the token is decoded, not verified. *)

Module LibAuth.

(** [User.findById(userId).select('-password').lean()] *)
Definition UserModel_findById (userId : string) (d : Db) : option PublicUser :=
  option_map Auth.public_profile
             (find (fun u => String.eqb (Store.castObjectId (user_id u))
                                        (Store.castObjectId userId))
                   (users d)).

Section Session.

Context {L : Libraries}.

(** [decode(token)] of the token library; [None] for [null]. *)
Variable jwt_decode : string -> option Jwt.Decoded.

Definition getUserIdFromRequest (request : Request) : option string * list LogLine :=
  let token := cookie_value (cookies request) "access_token" in
  match token with
  | Some (String _ _ as token) =>
      match jwt_decode token with
      | Some (Jwt.DecodedObject (Some userId)) =>
          match userId with
          | JsStr (String _ _ as userId) => (Some userId, [])
          | _ =>
              (None,
               [ConsoleError "getUserIdFromRequest: Invalid or empty userId found in JWT payload."])
          end
      | _ =>
          (None,
           [ConsoleError "getUserIdFromRequest: Invalid JWT payload structure after decoding."])
      end
  | _ =>
      (None,
       [ConsoleWarn "getUserIdFromRequest: Attempted to decode token, but access_token cookie was missing."])
  end.

(** [getSessionUser(request)]; the query throws when the driver fails or
    when the id cannot be cast to an identifier, and the [catch] block
    returns [null]. *)
Definition getSessionUser (query_fails : bool) (request : Request) (d : Db)
  : option PublicUser :=
  match fst (getUserIdFromRequest request) with
  | None => None
  | Some userId =>
      if query_fails || negb (ObjectId_isValid userId) then None
      else UserModel_findById userId d
  end.

(** The token library decodes a token it verifies to the payload it
    verified. *)
Definition decode_agrees_with_verify : Prop :=
  forall token jwtSecret decoded,
    jwt_verify token jwtSecret = Jwt.Verified decoded ->
    jwt_decode token = Some decoded.

End Session.

End LibAuth.

(** ** Further cases on the deployment *)

Module Cases.

Import Scenario.

(** The deployment while the database cannot be reached. *)
Definition env_database_down : Env := {|
  JWT_SECRET := Some secret;
  JWT_EXPIRES_IN := Some "1d";
  NODE_ENV := Some "production";
  now := 1722000000000%Z;
  fresh_id := "64d000000000000000000001";
  throws := fun op => match op with ConnectDB => Some OtherDbError | _ => None end
|}.

Definition malformed_goal : string := "run5k".

(** The identifier of Alice's goal as a client may spell it. *)
Definition run5k_in_capitals : string := "64C000000000000000000001".

Definition as_bob (path : string) (body : option Json) : Request :=
  request_with path [("access_token", "token-bob")] body.

(** Alice renames her goal. *)
Definition rename_body : Json := JObject [("name", JString " Run 10k ")].

Definition rename_request : Request := goal_request (Some rename_body).

Definition goal_run10k : Goal := {|
  goal_id := run5k; goal_userId := alice; goal_name := "Run 10k";
  goal_description := None; goal_targetMetric := Some "Distance";
  goal_targetUnit := Some "km"; goal_deadline := None;
  goal_createdAt := 1721000000000%Z; goal_updatedAt := 1722000000000%Z |}.

(** Alice creates a goal; the body claims it for Bob. *)
Definition create_body : Json :=
  JObject [("name", JString " Row 2k "); ("userId", JString bob)].

Definition create_request : Request := as_alice "/api/goals" (Some create_body).

Definition goal_row2k : Goal := {|
  goal_id := "64d000000000000000000001"; goal_userId := alice; goal_name := "Row 2k";
  goal_description := None; goal_targetMetric := None;
  goal_targetUnit := None; goal_deadline := None;
  goal_createdAt := 1722000000000%Z; goal_updatedAt := 1722000000000%Z |}.

(** The entry Alice logs with [progress_request run5k]. *)
Definition entry_logged : ProgressEntry := {|
  progress_id := "64d000000000000000000001"; progress_goalId := run5k;
  progress_userId := alice; progress_value := of_Z 4;
  progress_date := 1721988000000%Z; progress_notes := None;
  progress_createdAt := 1722000000000%Z; progress_updatedAt := 1722000000000%Z |}.

(** Carol signs up and logs in. *)
Definition signup_body (name email password : string) : Json :=
  JObject [("action", JString "signup"); ("name", JString name);
           ("email", JString email); ("password", JString password)].

Definition signup_request (name email password : string) : Request :=
  request_with "/api/auth" [] (Some (signup_body name email password)).

Definition carol : Auth.SignupData :=
  {| Auth.signup_name := "Carol"; Auth.signup_email := "Carol@Example.com";
     Auth.signup_password := "rabbit-hole" |}.

(** The cookie and the profile of Alice's login. *)
Definition alice_cookie : Cookie :=
  {| cookie_name := "access_token";
     cookie_token := "token-for-64b000000000000000000001";
     httpOnly := true; secure := true; sameSite := "lax"; path := "/";
     maxAge := of_Z 86400 |}.

Definition alice_session_request : Request :=
  request_with "/api/auth/profile"
               [("access_token", "token-for-64b000000000000000000001")] None.

(** [decode] of the deployment's token library: a signed token names its
    user; the other tokens decode to what they verify to. *)
Definition decode (token : string) : option Jwt.Decoded :=
  if startsWith token "token-for-"
  then Some (Jwt.DecodedObject
               (Some (JsStr (String.substring 10 (String.length token - 10) token))))
  else
    match verify token secret with
    | Jwt.Verified decoded => Some decoded
    | Jwt.Thrown _ => None
    end.

(** *** The connection cache with two requests *)

Definition first_call : MongooseCache.Server :=
  {| MongooseCache.runtime := snd (MongooseCache.connectDB MongooseCache.initial);
     MongooseCache.waiting := [MongooseCache.New_promise 0] |}.

Definition second_call : MongooseCache.Server :=
  {| MongooseCache.runtime
     := snd (MongooseCache.connectDB (MongooseCache.runtime first_call));
     MongooseCache.waiting
     := [MongooseCache.Existing_promise 0; MongooseCache.New_promise 0] |}.

Definition connection_made : MongooseCache.Server :=
  {| MongooseCache.runtime
     := MongooseCache.settle 0 (MongooseCache.Fulfilled 7)
                             (MongooseCache.runtime second_call);
     MongooseCache.waiting
     := [MongooseCache.Existing_promise 0; MongooseCache.New_promise 0] |}.

Definition first_call_resumed : MongooseCache.Server :=
  {| MongooseCache.runtime
     := MongooseCache.set_conn (Some 7) (MongooseCache.runtime connection_made);
     MongooseCache.waiting := [MongooseCache.Existing_promise 0] |}.

Definition third_call : MongooseCache.Server :=
  {| MongooseCache.runtime
     := snd (MongooseCache.connectDB (MongooseCache.runtime first_call_resumed));
     MongooseCache.waiting := [MongooseCache.Existing_promise 0] |}.

(** *** A history on the client *)

Definition toISOString (time : Date) : string :=
  if (time =? 1721500000000)%Z then "2024-07-20T18:26:40.000Z"
  else if (time =? 1721988000000)%Z then "2024-07-26T10:00:00.000Z"
  else "".

Definition parseISO (text : string) : option Date :=
  if String.eqb text "2024-07-20T18:26:40.000Z" then Some 1721500000000%Z
  else if String.eqb text "2024-07-26T10:00:00.000Z" then Some 1721988000000%Z
  else None.

Definition shown (id : string) (date : ProgressHistory.DateInput) : ProgressHistory.Entry :=
  {| ProgressHistory.entry_id := id;
     ProgressHistory.entry_goalId := run5k;
     ProgressHistory.entry_userId := alice;
     ProgressHistory.entry_value := of_Z 3;
     ProgressHistory.entry_date := date;
     ProgressHistory.entry_notes := None;
     ProgressHistory.entry_createdAt := ProgressHistory.Missing |}.

Definition undated_entry : ProgressHistory.Entry :=
  shown "e1" (ProgressHistory.DateText "yesterday").

Definition older_entry : ProgressHistory.Entry :=
  shown "e2" (ProgressHistory.DateText "2024-07-20T18:26:40.000Z").

Definition newer_entry : ProgressHistory.Entry :=
  shown "e3" (ProgressHistory.DateObject (Some 1721988000000%Z)).

Definition blank_entry : ProgressHistory.Entry := shown "e4" (ProgressHistory.DateText "").

(** *** Filled-in forms *)

Definition login_values : Forms.LoginValues :=
  {| Forms.login_email_input := " Alice@Example.com ";
     Forms.login_password_input := "wonderland" |}.

Definition login_credentials : Forms.LoginCredentials :=
  {| Forms.cred_email := "Alice@Example.com"; Forms.cred_password := "wonderland" |}.

Definition goal_values : Forms.GoalValues :=
  {| Forms.goal_name_input := " Row 2k ";
     Forms.goal_description_input := Some "";
     Forms.goal_targetMetric_input := Some " Distance";
     Forms.goal_targetUnit_input := None |}.

Definition goal_form_data : Forms.GoalFormData :=
  {| Forms.form_name := "Row 2k";
     Forms.form_description := Some "";
     Forms.form_targetMetric := Some "Distance";
     Forms.form_targetUnit := None |}.

(** [Number(val)] on the inputs of the example. *)
Definition ToNumber (val : string) : number :=
  if String.eqb val "4" then of_Z 4 else Number.NaN.

(** The date is what a date input gives. *)
Definition progress_values : Forms.ProgressValues :=
  {| Forms.value_input := "4"; Forms.date_input := "2024-07-26";
     Forms.notes_input := Some "" |}.

Definition progress_form_data : Forms.ProgressFormData :=
  {| Forms.form_value := of_Z 4; Forms.form_date := "2024-07-26";
     Forms.form_notes := Some "" |}.

Definition form_progress_request : Request :=
  as_alice "/api/progress" (Some (Forms.progress_body progress_form_data run5k)).

End Cases.

(** * Properties *)

(** ** Completion percentage *)

Section CompletionPercentage.

Import Utils.

Lemma compare_finite_eq (m1 m2 : positive) (e1 e2 : Z) :
  SFcompare (S754_finite false m1 e1) (S754_finite false m2 e2) = Some Eq ->
  S754_finite false m2 e2 = S754_finite false m1 e1.
Proof.
  cbn [SFcompare].
  destruct (Z.compare e1 e2) eqn:He; try discriminate.
  intros H. injection H as H.
  apply Z.compare_eq in He. apply Pos.compare_eq in H.
  subst. reflexivity.
Qed.

Lemma compare_finite_gt (m1 m2 : positive) (e1 e2 : Z) :
  SFcompare (S754_finite false m1 e1) (S754_finite false m2 e2) = Some Gt ->
  SFcompare (S754_finite false m2 e2) (S754_finite false m1 e1) = Some Lt.
Proof.
  cbn [SFcompare].
  rewrite (Z.compare_antisym e1 e2).
  destruct (Z.compare e1 e2); cbn [CompOpp]; try discriminate; try reflexivity.
  intros H. injection H as H.
  pose proof (Pos.compare_cont_antisym m1 m2 Eq) as A.
  rewrite H in A. cbn [CompOpp] in A. rewrite <- A. reflexivity.
Qed.

Lemma compare_hundred_eq (m : positive) (e : Z) :
  SFcompare hundred (S754_finite false m e) = Some Eq ->
  S754_finite false m e = hundred.
Proof. unfold hundred. apply compare_finite_eq. Qed.

Lemma compare_hundred_gt (m : positive) (e : Z) :
  SFcompare hundred (S754_finite false m e) = Some Gt ->
  SFcompare (S754_finite false m e) hundred = Some Lt.
Proof. unfold hundred. apply compare_finite_gt. Qed.

Lemma min_from_finite (lowest : number) (s : bool) (m : positive) (e : Z)
    (rest : list number) :
  min_from lowest (S754_finite s m e :: rest)
  = min_from (if ltb (S754_finite s m e) lowest then S754_finite s m e else lowest) rest.
Proof. reflexivity. Qed.

Lemma max_from_finite (highest : number) (s : bool) (m : positive) (e : Z)
    (rest : list number) :
  max_from highest (S754_finite s m e :: rest)
  = max_from (if ltb highest (S754_finite s m e) then S754_finite s m e else highest) rest.
Proof. reflexivity. Qed.

Lemma max_from_zero (rest : list number) :
  max_from neg_infinity (zero :: rest) = max_from zero rest.
Proof. reflexivity. Qed.

(** [Math.max(0, Math.min(p, 100))], with the final [isNaN] test, is the
    clamp to [0, 100]. *)
Lemma clamp_min_max (p : number) :
  (let clamped := Math_max [zero; Math_min [p; hundred]] in
   if isNaN clamped then zero else clamped) = clamp_0_100 p.
Proof.
  destruct p as [s | s | | s m e].
  - destruct s; reflexivity.
  - destruct s; reflexivity.
  - reflexivity.
  - destruct s.
    + reflexivity.
    + set (p := S754_finite false m e).
      assert (Hinf : ltb p infinity = true) by reflexivity.
      assert (Hpos : ltb zero p = true) by reflexivity.
      assert (Hle : leb p zero = false) by reflexivity.
      assert (Hhun : ltb zero hundred = true) by reflexivity.
      assert (Hmin : Math_min [p; hundred] = if ltb hundred p then hundred else p).
      { unfold Math_min, p. rewrite min_from_finite. fold p. rewrite Hinf.
        unfold hundred at 1. rewrite min_from_finite. reflexivity. }
      cbv zeta. rewrite Hmin. unfold Math_max. rewrite max_from_zero.
      unfold clamp_0_100. rewrite Hle. change (isNaN p) with false. cbv iota.
      unfold ltb at 1 2, leb, SFltb, SFleb.
      destruct (SFcompare hundred p) as [[ | | ] | ] eqn:Hc.
      * apply compare_hundred_eq in Hc. unfold p. rewrite Hc. reflexivity.
      * reflexivity.
      * unfold p. rewrite max_from_finite. fold p. rewrite Hpos. reflexivity.
      * unfold p. rewrite max_from_finite. fold p. rewrite Hpos. reflexivity.
Qed.

Lemma calculateCompletionPercentage_spec (currentValue targetValue : JsValue) :
  calculateCompletionPercentage currentValue targetValue
  = completion_spec currentValue targetValue.
Proof.
  unfold calculateCompletionPercentage, calculateCompletionPercentage_run, completion_spec.
  destruct targetValue as [ | | b | t | s | ]; try reflexivity.
  cbn [target_not_applicable number_of].
  destruct (isNaN t || leb t zero); [reflexivity |].
  cbn [fst]. f_equal.
  rewrite <- clamp_min_max.
  destruct currentValue as [ | | b | c | s | ]; try reflexivity.
  cbn [current_or_zero]. destruct (isNaN c); reflexivity.
Qed.

(** The clamp lands in the closed interval. *)
Lemma clamp_0_100_range (p : number) :
  leb zero (clamp_0_100 p) = true /\ leb (clamp_0_100 p) hundred = true.
Proof.
  destruct p as [s | s | | s m e].
  - destruct s; split; reflexivity.
  - destruct s; split; reflexivity.
  - split; reflexivity.
  - destruct s.
    + split; reflexivity.
    + set (p := S754_finite false m e).
      assert (Hle : leb p zero = false) by reflexivity.
      assert (Hpos : leb zero p = true) by reflexivity.
      unfold clamp_0_100. rewrite Hle. change (isNaN p) with false. cbv iota.
      destruct (leb hundred p) eqn:Hh.
      * split; reflexivity.
      * split; [exact Hpos |].
        unfold leb, SFleb in Hh |- *.
        destruct (SFcompare hundred p) as [[ | | ] | ] eqn:Hc; try discriminate Hh.
        -- apply compare_hundred_gt in Hc. fold p in Hc. rewrite Hc. reflexivity.
        -- unfold hundred, p in Hc. cbn [SFcompare] in Hc. discriminate Hc.
Qed.

(** C6. For every pair of inputs, [calculateCompletionPercentage] returns
    the not-applicable result when the target is absent, non-numeric,
    zero or negative, and otherwise [(current / target) * 100] clamped to
    the closed interval [0, 100], an absent or non-numeric current value
    counting as 0 and a not-a-number result as 0.  The result, when there
    is one, lies between 0 and 100.  The five documented values are
    (50, 100) = 50, (150, 100) = 100, (-10, 100) = 0, (50, 0) = not
    applicable, (absent, 100) = 0. *)
Theorem calculateCompletionPercentage_correct :
  (forall currentValue targetValue,
      calculateCompletionPercentage currentValue targetValue
      = if target_not_applicable targetValue then None
        else Some (clamp_0_100
                     (mul (div (current_or_zero currentValue) (number_of targetValue))
                          hundred)))
  /\ (forall currentValue targetValue r,
         calculateCompletionPercentage currentValue targetValue = Some r ->
         leb zero r = true /\ leb r hundred = true)
  /\ calculateCompletionPercentage (JsNum (of_Z 50)) (JsNum (of_Z 100)) = Some (of_Z 50)
  /\ calculateCompletionPercentage (JsNum (of_Z 150)) (JsNum (of_Z 100)) = Some (of_Z 100)
  /\ calculateCompletionPercentage (JsNum (of_Z (-10))) (JsNum (of_Z 100)) = Some (of_Z 0)
  /\ calculateCompletionPercentage (JsNum (of_Z 50)) (JsNum (of_Z 0)) = None
  /\ calculateCompletionPercentage JsUndefined (JsNum (of_Z 100)) = Some (of_Z 0)
  /\ calculateCompletionPercentage JsNull (JsNum (of_Z 100)) = Some (of_Z 0).
Proof.
  split; [exact calculateCompletionPercentage_spec |].
  split.
  - intros c t r H. rewrite calculateCompletionPercentage_spec in H.
    unfold completion_spec in H.
    destruct (target_not_applicable t); [discriminate |].
    injection H as H. subst r. apply clamp_0_100_range.
  - repeat split; vm_compute; reflexivity.
Qed.

Lemma calculateCompletionPercentage_correct_witness :
  leb zero (of_Z 50) = true /\ leb (of_Z 50) hundred = true.
Proof.
  apply (proj1 (proj2 calculateCompletionPercentage_correct)
               (JsNum (of_Z 50)) (JsNum (of_Z 100)) (of_Z 50)).
  vm_compute. reflexivity.
Defined.

End CompletionPercentage.

(** ** Session verification *)

Section VerificationFacts.

Context {L : Libraries}.

(** A helper leaves the database alone. *)
Lemma getVerifiedUserId_goal_db (env : Env) (request : Request) (w : World) :
  db (snd (GoalItem.getVerifiedUserId env request w)) = db w.
Proof.
  unfold GoalItem.getVerifiedUserId.
  destruct (cookie_value (cookies request) "access_token") as [[ | c token] | ]; try reflexivity.
  destruct (JWT_SECRET env) as [[ | c' jwtSecret] | ]; try reflexivity.
  destruct (jwt_verify (String c token) (String c' jwtSecret)) as [[payload | [[ | | b | x | userId | ] | ]] | e];
    try reflexivity.
  destruct (0 <? String.length userId)%nat; reflexivity.
Qed.

Lemma getVerifiedUserId_progress_db (env : Env) (request : Request) (w : World) :
  db (snd (Progress.getVerifiedUserId env request w)) = db w.
Proof.
  unfold Progress.getVerifiedUserId.
  destruct (cookie_value (cookies request) "access_token") as [[ | c token] | ]; try reflexivity.
  destruct (JWT_SECRET env) as [[ | c' jwtSecret] | ]; try reflexivity.
  destruct (jwt_verify (String c token) (String c' jwtSecret)) as [[payload | [[ | | b | x | userId | ] | ]] | e];
    try reflexivity.
  destruct (0 <? String.length userId)%nat; reflexivity.
Qed.

(** What a helper returns does not depend on the world it runs in. *)
Lemma getVerifiedUserId_goal_result (env : Env) (request : Request) (w w' : World) :
  verification_result GoalItem.getVerifiedUserId env request w
  = verification_result GoalItem.getVerifiedUserId env request w'.
Proof.
  unfold verification_result, GoalItem.getVerifiedUserId.
  destruct (cookie_value (cookies request) "access_token") as [[ | c token] | ]; try reflexivity.
  destruct (JWT_SECRET env) as [[ | c' jwtSecret] | ]; try reflexivity.
  destruct (jwt_verify (String c token) (String c' jwtSecret)) as [[payload | [[ | | b | x | userId | ] | ]] | e];
    try reflexivity.
  destruct (0 <? String.length userId)%nat; reflexivity.
Qed.

Lemma getVerifiedUserId_progress_result (env : Env) (request : Request) (w w' : World) :
  verification_result Progress.getVerifiedUserId env request w
  = verification_result Progress.getVerifiedUserId env request w'.
Proof.
  unfold verification_result, Progress.getVerifiedUserId.
  destruct (cookie_value (cookies request) "access_token") as [[ | c token] | ]; try reflexivity.
  destruct (JWT_SECRET env) as [[ | c' jwtSecret] | ]; try reflexivity.
  destruct (jwt_verify (String c token) (String c' jwtSecret)) as [[payload | [[ | | b | x | userId | ] | ]] | e];
    try reflexivity.
  destruct (0 <? String.length userId)%nat; reflexivity.
Qed.

(** The goal-item and the progress copies return the same result on every
    request. *)
Lemma goal_and_progress_helpers_agree (env : Env) (request : Request) (w : World) :
  verification_result GoalItem.getVerifiedUserId env request w
  = verification_result Progress.getVerifiedUserId env request w.
Proof.
  unfold verification_result, GoalItem.getVerifiedUserId, Progress.getVerifiedUserId.
  destruct (cookie_value (cookies request) "access_token") as [[ | c token] | ]; try reflexivity.
  destruct (JWT_SECRET env) as [[ | c' jwtSecret] | ]; try reflexivity.
  destruct (jwt_verify (String c token) (String c' jwtSecret)) as [[payload | [[ | | b | x | userId | ] | ]] | e];
    try reflexivity.
  destruct (0 <? String.length userId)%nat; reflexivity.
Qed.

(** The goals-collection copy returns the same result as the goal-item copy
    unless the token verifies with an empty [userId]. *)
Lemma collection_helper_agrees_off_empty (env : Env) (request : Request) (w : World) :
  (forall token jwtSecret,
      cookie_value (cookies request) "access_token" = Some token ->
      JWT_SECRET env = Some jwtSecret ->
      jwt_verify token jwtSecret <> Jwt.Verified (Jwt.DecodedObject (Some (JsStr "")))) ->
  verification_result Goals.getVerifiedUserId env request w
  = verification_result GoalItem.getVerifiedUserId env request w.
Proof.
  intros Hne.
  unfold verification_result, Goals.getVerifiedUserId, GoalItem.getVerifiedUserId.
  destruct (cookie_value (cookies request) "access_token") as [[ | c token] | ]; try reflexivity.
  destruct (JWT_SECRET env) as [[ | c' jwtSecret] | ]; try reflexivity.
  specialize (Hne _ _ eq_refl eq_refl).
  destruct (jwt_verify (String c token) (String c' jwtSecret)) as [[payload | [[ | | b | x | userId | ] | ]] | e];
    try reflexivity.
  destruct userId as [ | c0 userId]; [contradiction Hne; reflexivity | reflexivity].
Qed.

(** C2. The claim is that the three copies of the helper return the same
    result on every request, a verified token with an empty [userId]
    included.  On such a token they do not: the goals-collection copy
    returns the empty string as the user id, the goal-item and progress
    copies return 401 "Invalid token payload.". *)
Theorem collection_helper_accepts_empty_userId
    (env : Env) (request : Request) (w : World) (token jwtSecret : string) :
  cookie_value (cookies request) "access_token" = Some token ->
  JWT_SECRET env = Some jwtSecret ->
  truthy (Some token) = true ->
  truthy (Some jwtSecret) = true ->
  jwt_verify token jwtSecret = Jwt.Verified (Jwt.DecodedObject (Some (JsStr ""))) ->
  verification_result Goals.getVerifiedUserId env request w = inr ""
  /\ verification_result GoalItem.getVerifiedUserId env request w
     = inl (failure 401 "Invalid token payload.")
  /\ verification_result Progress.getVerifiedUserId env request w
     = inl (failure 401 "Invalid token payload.").
Proof.
  intros Htoken Hsecret Ht Hs Hverify.
  unfold verification_result, Goals.getVerifiedUserId, GoalItem.getVerifiedUserId,
    Progress.getVerifiedUserId.
  rewrite Htoken, Hsecret.
  destruct token as [ | c token]; [discriminate Ht |].
  destruct jwtSecret as [ | c' jwtSecret]; [discriminate Hs |].
  rewrite Hverify. repeat split.
Qed.

(** ** The request middleware *)

(** C4. The middleware follows the four cases: without a session cookie
    (none, or one with an empty value, which [!token] treats alike) an API
    path gets a 401 JSON failure and a page path the redirect to the login
    page; with a cookie but no signing secret both get a 500 JSON failure;
    with a cookie and a secret, a token that fails verification is rejected
    as in the first case; a token that verifies lets the request proceed
    unchanged. *)
Theorem middleware_four_cases (env : Env) (request : Request) :
  let token := cookie_value (cookies request) "access_token" in
  let result := fst (middleware env request) in
  (truthy token = false -> rejected request result)
  /\ (truthy token = true -> truthy (JWT_SECRET env) = false ->
      json_failure 500 result)
  /\ (forall t jwtSecret e,
         token = Some t -> truthy token = true ->
         JWT_SECRET env = Some jwtSecret -> truthy (JWT_SECRET env) = true ->
         jwt_verify t jwtSecret = Jwt.Thrown e ->
         rejected request result)
  /\ (forall t jwtSecret decoded,
         token = Some t -> truthy token = true ->
         JWT_SECRET env = Some jwtSecret -> truthy (JWT_SECRET env) = true ->
         jwt_verify t jwtSecret = Jwt.Verified decoded ->
         result = Next).
Proof.
  cbv zeta. unfold middleware, rejected, json_failure, is_api_path, login_page.
  destruct (cookie_value (cookies request) "access_token") as [[ | c token] | ];
    cbn [truthy].
  - repeat split; try discriminate.
    intros _. destruct (startsWith (pathname request) "/api/"); cbn; eauto.
  - destruct (JWT_SECRET env) as [[ | c' jwtSecret] | ]; cbn [truthy].
    + repeat split; try discriminate. intros _ _. cbn. eauto.
    + repeat split; try discriminate.
      * intros t s e Ht _ Hs _ Hv. injection Ht as <-. injection Hs as <-.
        rewrite Hv. destruct (startsWith (pathname request) "/api/"); cbn; eauto.
      * intros t s d Ht _ Hs _ Hv. injection Ht as <-. injection Hs as <-.
        rewrite Hv. reflexivity.
    + repeat split; try discriminate. intros _ _. cbn. eauto.
  - repeat split; try discriminate.
    intros _. destruct (startsWith (pathname request) "/api/"); cbn; eauto.
Qed.

(** C10. A request whose session token is validly signed and unexpired but
    whose payload has no usable [userId] passes the middleware, and is
    rejected with 401 "Invalid token payload." by the verification of the
    goal-item endpoint and of the progress endpoint. *)
Theorem unusable_payload_passes_middleware_only
    (env : Env) (request : Request) (w : World)
    (token jwtSecret : string) (decoded : Jwt.Decoded) :
  cookie_value (cookies request) "access_token" = Some token ->
  truthy (Some token) = true ->
  JWT_SECRET env = Some jwtSecret ->
  truthy (Some jwtSecret) = true ->
  jwt_verify token jwtSecret = Jwt.Verified decoded ->
  unusable_userId decoded ->
  fst (middleware env request) = Next
  /\ verification_result GoalItem.getVerifiedUserId env request w
     = inl (failure 401 "Invalid token payload.")
  /\ verification_result Progress.getVerifiedUserId env request w
     = inl (failure 401 "Invalid token payload.").
Proof.
  intros Htoken Ht Hsecret Hs Hverify Hbad.
  unfold middleware, verification_result, GoalItem.getVerifiedUserId, Progress.getVerifiedUserId.
  rewrite Htoken, Hsecret.
  destruct token as [ | c token]; [discriminate Ht |].
  destruct jwtSecret as [ | c' jwtSecret]; [discriminate Hs |].
  rewrite Hverify.
  split; [reflexivity |].
  destruct decoded as [payload | [[ | | b | x | [ | c0 userId] | ] | ]];
    try (split; reflexivity).
  contradiction Hbad.
Qed.

(** The configured patterns cover the dashboard, the goals API and the
    progress API, with their sub-paths, and nothing of the auth API. *)
Lemma configured_paths :
  runs_on "/dashboard" = true
  /\ runs_on "/dashboard/goals/new" = true
  /\ runs_on "/api/goals" = true
  /\ runs_on "/api/goals/64c000000000000000000001" = true
  /\ runs_on "/api/progress" = true
  /\ runs_on "/api/auth" = false
  /\ runs_on "/api/auth/logout" = false
  /\ runs_on "/login" = false.
Proof. repeat split. Qed.

(** C3. The claim is that the profile path is one of the paths the
    middleware is configured for.  It is not: no configured pattern matches
    [/api/auth/profile], so the middleware never runs for it and every
    request to it, with or without a session token, reaches the handler. *)
Theorem profile_path_not_protected (env : Env) (request : Request) :
  pathname request = "/api/auth/profile" ->
  runs_on (pathname request) = false
  /\ route env request = Reaches_handler.
Proof.
  intros Hpath. unfold route. rewrite Hpath. split; reflexivity.
Qed.

End VerificationFacts.

(** ** Identifiers *)

Section IdentifierFacts.

Import Store.

Lemma lower_char_idempotent (c : ascii) : lower_char (lower_char c) = lower_char c.
Proof.
  destruct c as [[] [] [] [] [] [] [] []]; reflexivity.
Qed.

Lemma lower_char_hex (c : ascii) : is_hex_digit (lower_char c) = is_hex_digit c.
Proof.
  destruct c as [[] [] [] [] [] [] [] []]; reflexivity.
Qed.

Lemma toLowerCase_idempotent (s : string) : toLowerCase (toLowerCase s) = toLowerCase s.
Proof.
  induction s as [ | c rest IH]; cbn [toLowerCase]; [reflexivity |].
  rewrite lower_char_idempotent, IH. reflexivity.
Qed.

Lemma toLowerCase_hex24 (s : string) : is_hex24 (toLowerCase s) = is_hex24 s.
Proof.
  unfold is_hex24. f_equal.
  - f_equal. induction s as [ | c rest IH]; cbn [toLowerCase String.length];
      [reflexivity | rewrite IH; reflexivity].
  - induction s as [ | c rest IH]; cbn [toLowerCase all_hex_digits]; [reflexivity |].
    rewrite lower_char_hex, IH. reflexivity.
Qed.

Lemma hex_of_byte (c : ascii) :
  is_hex_digit (hex_digit (nat_of_ascii c / 16)) = true
  /\ is_hex_digit (hex_digit (nat_of_ascii c mod 16)) = true
  /\ lower_char (hex_digit (nat_of_ascii c / 16)) = hex_digit (nat_of_ascii c / 16)
  /\ lower_char (hex_digit (nat_of_ascii c mod 16)) = hex_digit (nat_of_ascii c mod 16).
Proof.
  destruct c as [[] [] [] [] [] [] [] []]; repeat split; reflexivity.
Qed.

Lemma toHexString_hex (s : string) : all_hex_digits (toHexString s) = true.
Proof.
  induction s as [ | c rest IH]; cbn [toHexString all_hex_digits]; [reflexivity |].
  destruct (hex_of_byte c) as [-> [-> _]]. exact IH.
Qed.

Lemma toHexString_length (s : string) :
  String.length (toHexString s) = 2 * String.length s.
Proof.
  induction s as [ | c rest IH]; cbn [toHexString String.length]; [reflexivity |].
  rewrite IH. lia.
Qed.

Lemma toHexString_lower (s : string) : toLowerCase (toHexString s) = toHexString s.
Proof.
  induction s as [ | c rest IH]; cbn [toHexString toLowerCase]; [reflexivity |].
  destruct (hex_of_byte c) as [_ [_ [-> ->]]]. rewrite IH. reflexivity.
Qed.

(** Casting the written form of an identifier gives that identifier. *)
Lemma castObjectId_idempotent (s : string) :
  castObjectId (castObjectId s) = castObjectId s.
Proof.
  unfold castObjectId. destruct (is_hex24 s) eqn:Hs.
  - rewrite toLowerCase_hex24, Hs. apply toLowerCase_idempotent.
  - destruct (String.length s =? 12)%nat eqn:Hlen.
    + apply Nat.eqb_eq in Hlen.
      assert (Hhex : is_hex24 (toHexString s) = true).
      { unfold is_hex24. rewrite toHexString_length, Hlen, toHexString_hex. reflexivity. }
      rewrite Hhex. apply toHexString_lower.
    + rewrite Hs, Hlen. reflexivity.
Qed.

Lemma same_id_cast (a b : string) : same_id a b -> same_id a (castObjectId b).
Proof.
  unfold same_id. intros H. rewrite castObjectId_idempotent. exact H.
Qed.

Lemma same_id_of_cast (a : string) : same_id (castObjectId a) a.
Proof.
  unfold same_id. apply castObjectId_idempotent.
Qed.

Lemma same_id_refl (a : string) : same_id a a.
Proof. reflexivity. Qed.

Lemma same_id_sym (a b : string) : same_id a b -> same_id b a.
Proof. unfold same_id. intros H. symmetry. exact H. Qed.

Lemma same_id_trans (a b c : string) : same_id a b -> same_id b c -> same_id a c.
Proof. unfold same_id. intros H1 H2. rewrite H1. exact H2. Qed.

(** Ownership does not depend on how the identifiers are spelled. *)
Lemma owns_same_id (d : Db) (userId userId' goalId goalId' : string) :
  same_id userId userId' -> same_id goalId goalId' ->
  owns d userId goalId -> owns d userId' goalId'.
Proof.
  unfold owns, same_id. intros Hu Hg [g [Hin [Hid Hown]]].
  exists g. split; [exact Hin |]. split; congruence.
Qed.

End IdentifierFacts.

(** ** The goal-item endpoint *)

Section GoalItemFacts.

Context {L : Libraries}.

Import Store Schema GoalItem.

Lemma goal_helper_success (env : Env) (request : Request) (userId : ObjectId) (w0 : World) :
  verification_result GoalItem.getVerifiedUserId env request w0 = inr userId ->
  forall w, GoalItem.getVerifiedUserId env request w = (inr userId, w).
Proof.
  unfold verification_result, GoalItem.getVerifiedUserId.
  destruct (cookie_value (cookies request) "access_token") as [[ | c token] | ];
    try discriminate.
  destruct (JWT_SECRET env) as [[ | c' jwtSecret] | ]; try discriminate.
  destruct (jwt_verify (String c token) (String c' jwtSecret)) as [[payload | [[ | | b | x | uid | ] | ]] | e];
    try discriminate.
  destruct (0 <? String.length uid)%nat; try discriminate.
  intros H w. cbn in H. injection H as ->. reflexivity.
Qed.

Lemma goal_matches_spec (goalId userId : string) (g : Goal) :
  goal_matches goalId userId g = true
  <-> same_id (goal_id g) goalId /\ same_id (goal_userId g) userId.
Proof.
  unfold goal_matches, same_id. rewrite andb_true_iff, !String.eqb_eq. reflexivity.
Qed.

Lemma of_goal_spec (goalId : string) (p : ProgressEntry) :
  of_goal goalId p = true <-> same_id (progress_goalId p) goalId.
Proof.
  unfold of_goal, same_id. apply String.eqb_eq.
Qed.

(** The lookup by identifier and owner finds nothing exactly when the user
    owns no goal with that identifier. *)
Lemma findOne_none (d : Db) (goalId userId : ObjectId) :
  find (goal_matches goalId userId) (goals d) = None <-> ~ owns d userId goalId.
Proof.
  unfold owns. split.
  - intros Hfind [g [Hin Hg]].
    apply (find_none _ _ Hfind) in Hin.
    apply goal_matches_spec in Hg. congruence.
  - intros Hnot.
    destruct (find (goal_matches goalId userId) (goals d)) as [g | ] eqn:Hfind; [| reflexivity].
    apply find_some in Hfind. destruct Hfind as [Hin Hg].
    apply goal_matches_spec in Hg. exfalso. apply Hnot. exists g. tauto.
Qed.

Lemma remove_first_none (p : Goal -> bool) (l : list Goal) :
  find p l = None -> remove_first p l = (0%Z, l).
Proof.
  induction l as [ | g rest IH]; cbn; [reflexivity |].
  destruct (p g); [discriminate |].
  intros H. rewrite (IH H). reflexivity.
Qed.

Lemma remove_first_some (p : Goal -> bool) (l : list Goal) (g : Goal) :
  find p l = Some g -> fst (remove_first p l) = 1%Z.
Proof.
  induction l as [ | g' rest IH]; cbn; [discriminate |].
  destruct (p g'); [reflexivity |].
  intros H. specialize (IH H). destruct (remove_first p rest). exact IH.
Qed.

Lemma remove_first_length (p : Goal -> bool) (l : list Goal) (g : Goal) :
  find p l = Some g ->
  S (List.length (snd (remove_first p l))) = List.length l.
Proof.
  induction l as [ | g' rest IH]; cbn; [discriminate |].
  destruct (p g'); [reflexivity |].
  intros H. specialize (IH H). destruct (remove_first p rest). cbn in *. congruence.
Qed.


Lemma same_world (w : World) : {| db := db w; console := console w |} = w.
Proof. destruct w. reflexivity. Qed.

Lemma GET_not_owned (env : Env) (request : Request) (goalId userId : ObjectId) (w : World) :
  invalid_goalId goalId = false ->
  throws env ConnectDB = None ->
  throws env GoalFindOne = None ->
  authenticated_for_goal env request userId ->
  ~ owns (db w) userId goalId ->
  response_of (GET env request goalId) w = not_found
  /\ db (world_after (GET env request goalId) w) = db w.
Proof.
  intros Hvalid Hconn Hfind Hauth Hnot.
  apply findOne_none in Hnot.
  unfold response_of, world_after, run, GET.
  rewrite Hvalid.
  unfold bind, connectDB, attempt. rewrite Hconn. cbn [fst snd].
  rewrite same_world.
  rewrite (goal_helper_success _ _ _ w (Hauth w)).
  rewrite Hfind.
  unfold GoalModel_findOne. rewrite Hnot. cbn. split; reflexivity.
Qed.


Lemma DELETE_not_owned (env : Env) (request : Request) (goalId userId : ObjectId) (w : World) :
  invalid_goalId goalId = false ->
  throws env ConnectDB = None ->
  throws env GoalDeleteOne = None ->
  authenticated_for_goal env request userId ->
  ~ owns (db w) userId goalId ->
  response_of (DELETE env request goalId) w = not_found
  /\ db (world_after (DELETE env request goalId) w) = db w.
Proof.
  intros Hvalid Hconn Hdel Hauth Hnot.
  apply findOne_none in Hnot.
  unfold response_of, world_after, run, DELETE.
  rewrite Hvalid.
  unfold bind, connectDB, attempt. rewrite Hconn. cbn [fst snd].
  rewrite same_world.
  rewrite (goal_helper_success _ _ _ w (Hauth w)).
  rewrite Hdel.
  unfold GoalModel_deleteOne. rewrite (remove_first_none _ _ Hnot). cbn.
  split; [reflexivity |]. destruct w as [[gs ps us] c]. reflexivity.
Qed.






Lemma owns_found (d : Db) (goalId userId : ObjectId) :
  owns d userId goalId ->
  exists g, find (goal_matches goalId userId) (goals d) = Some g.
Proof.
  intros Howns.
  destruct (find (goal_matches goalId userId) (goals d)) as [g | ] eqn:Hfind.
  - exists g. reflexivity.
  - apply findOne_none in Hfind. contradiction.
Qed.

Lemma no_entries_left (goalId : ObjectId) (d : Db) :
  ~ has_entries (snd (ProgressModel_deleteMany goalId d)) goalId.
Proof.
  intros [p [Hin Hgoal]]. cbn in Hin.
  apply filter_In in Hin. destruct Hin as [_ Hneg].
  apply of_goal_spec in Hgoal. rewrite Hgoal in Hneg. discriminate Hneg.
Qed.

(** C9. When the deletion of the goal, filtered by id and owner, succeeds,
    the handler deletes the progress entries of that goal and answers 204
    without a body.  When that second deletion fails, the failure is
    written to the error log, the answer is still 204, and the goal stays
    deleted. *)
Theorem delete_cascade_is_best_effort
    (env : Env) (request : Request) (goalId userId : ObjectId) (w : World) :
  invalid_goalId goalId = false ->
  throws env ConnectDB = None ->
  throws env GoalDeleteOne = None ->
  authenticated_for_goal env request userId ->
  owns (db w) userId goalId ->
  let after := world_after (DELETE env request goalId) w in
  response_of (DELETE env request goalId) w
  = {| status := 204; body := NoBody; set_cookie := None |}
  /\ goals (db after) = snd (remove_first (goal_matches goalId userId) (goals (db w)))
  /\ S (List.length (goals (db after))) = List.length (goals (db w))
  /\ (throws env ProgressDeleteMany = None ->
      progress (db after) = filter (fun p => negb (of_goal goalId p)) (progress (db w))
      /\ ~ has_entries (db after) goalId)
  /\ (forall e, throws env ProgressDeleteMany = Some e ->
        progress (db after) = progress (db w)
        /\ In (ConsoleError ("[API Goal Detail DELETE] Error deleting progress entries for goalId "
                             ++ goalId ++ ":"))
              (console after)).
Proof.
  intros Hvalid Hconn Hdel Hauth Howns.
  destruct (owns_found _ _ _ Howns) as [g Hfind].
  pose proof (remove_first_some _ _ _ Hfind) as Hcount.
  pose proof (remove_first_length _ _ _ Hfind) as Hlen.
  cbv zeta.
  unfold response_of, world_after, run, DELETE.
  rewrite Hvalid.
  unfold bind, connectDB, attempt. rewrite Hconn. cbn [fst snd].
  rewrite same_world.
  rewrite (goal_helper_success _ _ _ w (Hauth w)).
  rewrite Hdel.
  unfold GoalModel_deleteOne.
  destruct (remove_first (goal_matches goalId userId) (goals (db w))) as [n rest] eqn:Hrm.
  cbn [fst snd] in Hcount, Hlen. subst n.
  cbn -[String.append].
  destruct (throws env ProgressDeleteMany) as [e | ] eqn:Hmany; cbn -[String.append].
  - split; [reflexivity |]. split; [reflexivity |]. split; [exact Hlen |].
    split; [discriminate |].
    intros e' _. split; [reflexivity |].
    apply in_or_app. right. left. reflexivity.
  - split; [reflexivity |]. split; [reflexivity |]. split; [exact Hlen |].
    split; [| discriminate].
    intros _. split; [reflexivity |].
    apply (no_entries_left goalId
             {| goals := rest; progress := progress (db w); users := users (db w) |}).
Qed.

End GoalItemFacts.

(** ** The progress endpoint *)

Section ProgressFacts.

Context {L : Libraries}.

Import Store Schema Progress.

Lemma progress_helper_success (env : Env) (request : Request) (userId : ObjectId) (w0 : World) :
  verification_result Progress.getVerifiedUserId env request w0 = inr userId ->
  forall w, Progress.getVerifiedUserId env request w = (inr userId, w).
Proof.
  unfold verification_result, Progress.getVerifiedUserId.
  destruct (cookie_value (cookies request) "access_token") as [[ | c token] | ];
    try discriminate.
  destruct (JWT_SECRET env) as [[ | c' jwtSecret] | ]; try discriminate.
  destruct (jwt_verify (String c token) (String c' jwtSecret)) as [[payload | [[ | | b | x | uid | ] | ]] | e];
    try discriminate.
  destruct (0 <? String.length uid)%nat; try discriminate.
  intros H w. cbn in H. injection H as ->. reflexivity.
Qed.

Lemma creation_failed_db (error : DbError) (w : World) :
  db (snd (run (creation_failed error) w)) = db w.
Proof. destruct error; reflexivity. Qed.

Lemma POST_not_owned (env : Env) (request : Request) (w : World)
    (userId : ObjectId) (rawBody : Json) (validatedData : LogProgressData) :
  throws env ConnectDB = None ->
  throws env GoalFindOne = None ->
  authenticated_for_progress env request userId ->
  json request = Some rawBody ->
  logProgressSchema rawBody = Some validatedData ->
  ~ owns (db w) userId (log_goalId validatedData) ->
  response_of (POST env request) w
  = failure 404 "Goal not found or you do not have permission."
  /\ db (world_after (POST env request) w) = db w.
Proof.
  intros Hconn Hfind Hauth Hjson Hschema Hnot.
  apply findOne_none in Hnot.
  unfold response_of, world_after, run, POST.
  unfold bind, connectDB, attempt. rewrite Hconn. cbn [fst snd].
  rewrite same_world.
  rewrite (progress_helper_success _ _ _ w (Hauth w)).
  rewrite Hjson, Hschema, Hfind.
  unfold GoalModel_findOne. rewrite Hnot. cbn. split; reflexivity.
Qed.

Lemma POST_owned (env : Env) (request : Request) (w : World)
    (userId : ObjectId) (rawBody : Json) (validatedData : LogProgressData) (date : Date) :
  throws env ConnectDB = None ->
  throws env GoalFindOne = None ->
  throws env ProgressCreate = None ->
  authenticated_for_progress env request userId ->
  json request = Some rawBody ->
  logProgressSchema rawBody = Some validatedData ->
  Date_parse (log_date validatedData) = Some date ->
  owns (db w) userId (log_goalId validatedData) ->
  response_of (POST env request) w
  = success_data 201 (DataProgressEntry (new_entry env userId validatedData date))
  /\ progress (db (world_after (POST env request) w))
     = (progress (db w) ++ [new_entry env userId validatedData date])%list.
Proof.
  intros Hconn Hfind Hcreate Hauth Hjson Hschema Hdate Howns.
  destruct (owns_found _ _ _ Howns) as [g Hg].
  unfold response_of, world_after, run, POST.
  unfold bind, connectDB, attempt. rewrite Hconn. cbn [fst snd].
  rewrite same_world.
  rewrite (progress_helper_success _ _ _ w (Hauth w)).
  rewrite Hjson, Hschema, Hfind.
  unfold GoalModel_findOne. rewrite Hg. cbn -[String.append new_entry].
  rewrite Hdate, Hcreate. cbn -[String.append new_entry]. split; reflexivity.
Qed.

(** Whenever the handler has added to the progress collection, the request
    was authenticated and valid, the referenced goal is the caller's, and
    the answer is 201. *)
Lemma POST_persists_only_for_owner (env : Env) (request : Request) (w : World) :
  progress (db (world_after (POST env request) w)) <> progress (db w) ->
  exists userId rawBody validatedData,
    authenticated_for_progress env request userId
    /\ json request = Some rawBody
    /\ logProgressSchema rawBody = Some validatedData
    /\ owns (db w) userId (log_goalId validatedData)
    /\ status (response_of (POST env request) w) = 201%Z.
Proof.
  unfold response_of, world_after, run, POST.
  unfold bind, connectDB, attempt.
  destruct (throws env ConnectDB) as [e | ];
    [cbn; intros H; exfalso; apply H; reflexivity |].
  cbn [fst snd]. rewrite same_world.
  destruct (verification_result Progress.getVerifiedUserId env request w)
    as [r | userId] eqn:Hauth.
  - pose proof (getVerifiedUserId_progress_db env request w) as Hdb.
    unfold verification_result in Hauth.
    destruct (Progress.getVerifiedUserId env request w) as [res w1].
    cbn in Hauth, Hdb. subst res. cbn. rewrite Hdb.
    intros H; exfalso; apply H; reflexivity.
  - rewrite (progress_helper_success _ _ _ w Hauth).
    destruct (json request) as [rawBody | ] eqn:Hjson;
      [| cbn; intros H; exfalso; apply H; reflexivity].
    destruct (logProgressSchema rawBody) as [validatedData | ] eqn:Hschema;
      [| cbn; intros H; exfalso; apply H; reflexivity].
    destruct (throws env GoalFindOne) as [e | ] eqn:Hfind.
    { destruct e; cbn; intros H; exfalso; apply H; reflexivity. }
    unfold GoalModel_findOne.
    destruct (find (goal_matches (log_goalId validatedData) userId) (goals (db w)))
      as [g | ] eqn:Hg;
      [| cbn; intros H; exfalso; apply H; reflexivity].
    cbn -[String.append new_entry].
    destruct (Date_parse (log_date validatedData)) as [date | ] eqn:Hdate;
      [| cbn; intros H; exfalso; apply H; reflexivity].
    destruct (throws env ProgressCreate) as [e | ] eqn:Hcreate.
    { destruct e; cbn; intros H; exfalso; apply H; reflexivity. }
    cbn -[String.append new_entry]. intros _.
    exists userId, rawBody, validatedData.
    split.
    { intros w'. rewrite (getVerifiedUserId_progress_result env request w' w). exact Hauth. }
    split; [first [reflexivity | assumption] |].
    split; [first [reflexivity | assumption] |].
    split; [| reflexivity].
    apply find_some in Hg. destruct Hg as [Hin Hm].
    apply goal_matches_spec in Hm. exists g. tauto.
Qed.

(** C5. An authenticated, schema-valid progress-creation request for a goal
    the caller does not own (none with that id, or another user's) is
    answered 404 with the message of the goal endpoints and creates no
    record.  A progress entry is persisted only when the referenced goal
    exists and is the caller's, and then the answer is 201; for such a goal
    the entry is stored and returned with 201 when the storage operations
    go through. *)
Theorem progress_only_for_owned_goal (env : Env) (request : Request) (w : World) :
  (forall userId rawBody validatedData,
      throws env ConnectDB = None ->
      throws env GoalFindOne = None ->
      authenticated_for_progress env request userId ->
      json request = Some rawBody ->
      logProgressSchema rawBody = Some validatedData ->
      ~ owns (db w) userId (log_goalId validatedData) ->
      response_of (POST env request) w = GoalItem.not_found
      /\ status (response_of (POST env request) w) = 404%Z
      /\ db (world_after (POST env request) w) = db w)
  /\ (progress (db (world_after (POST env request) w)) <> progress (db w) ->
      exists userId rawBody validatedData,
        authenticated_for_progress env request userId
        /\ json request = Some rawBody
        /\ logProgressSchema rawBody = Some validatedData
        /\ owns (db w) userId (log_goalId validatedData)
        /\ status (response_of (POST env request) w) = 201%Z)
  /\ (forall userId rawBody validatedData date,
        (forall op, throws env op = None) ->
        authenticated_for_progress env request userId ->
        json request = Some rawBody ->
        logProgressSchema rawBody = Some validatedData ->
        Date_parse (log_date validatedData) = Some date ->
        owns (db w) userId (log_goalId validatedData) ->
        status (response_of (POST env request) w) = 201%Z
        /\ progress (db (world_after (POST env request) w))
           = (progress (db w) ++ [new_entry env userId validatedData date])%list).
Proof.
  split; [| split].
  - intros userId rawBody validatedData Hconn Hfind Hauth Hjson Hschema Hnot.
    destruct (POST_not_owned env request w userId rawBody validatedData) as [Hr Hdb]; auto.
    rewrite Hr. repeat split; auto.
  - apply POST_persists_only_for_owner.
  - intros userId rawBody validatedData date Hok Hauth Hjson Hschema Hdate Howns.
    destruct (POST_owned env request w userId rawBody validatedData date) as [Hr Hp]; auto.
    rewrite Hr. split; [reflexivity | exact Hp].
Qed.

End ProgressFacts.

(** ** Numbers that are at least one *)

Section NumberFacts.

Local Open Scope Z_scope.

Lemma digits2_log2 (m : positive) : Zpos (digits2_pos m) = Z.log2 (Zpos m) + 1.
Proof.
  induction m as [m IH | m IH | ]; cbn [digits2_pos].
  - rewrite Pos2Z.inj_succ, IH.
    change (Z.log2 (Zpos m~1)) with (Zpos (Pos.size m)).
    destruct m; cbn in *; lia.
  - rewrite Pos2Z.inj_succ, IH.
    change (Z.log2 (Zpos m~0)) with (Zpos (Pos.size m)).
    destruct m; cbn in *; lia.
  - reflexivity.
Qed.

Lemma shr_1_m (r : shr_record) :
  0 <= shr_m r -> shr_m (shr_1 r) = shr_m r / 2.
Proof.
  destruct r as [m r s]. cbn [shr_m]. intros Hm.
  destruct m as [ | [p | p | ] | p]; cbn [shr_1 shr_m];
    first [reflexivity
          | apply Z.div_unique with 1; lia
          | apply Z.div_unique with 0; lia
          | lia].
Qed.

Lemma pow2_xO (p : positive) : 2 ^ Zpos p~0 = 2 ^ Zpos p * 2 ^ Zpos p.
Proof.
  replace (Zpos p~0) with (Zpos p + Zpos p) by lia.
  apply Z.pow_add_r; lia.
Qed.

Lemma pow2_xI (p : positive) : 2 ^ Zpos p~1 = 2 * (2 ^ Zpos p * 2 ^ Zpos p).
Proof.
  replace (Zpos p~1) with (1 + (Zpos p + Zpos p)) by lia.
  rewrite Z.pow_add_r by lia. rewrite (Z.pow_add_r 2 (Zpos p)) by lia. reflexivity.
Qed.

Lemma iter_shr_m (p : positive) (r : shr_record) :
  0 <= shr_m r -> shr_m (iter_pos shr_1 p r) = shr_m r / 2 ^ Zpos p.
Proof.
  revert r. induction p as [p IH | p IH | ]; intros r Hr; cbn [iter_pos].
  - assert (H1 : 0 <= shr_m (shr_1 r)) by (rewrite shr_1_m by exact Hr; apply Z.div_pos; lia).
    assert (H2 : 0 <= shr_m (iter_pos shr_1 p (shr_1 r)))
      by (rewrite IH by exact H1; apply Z.div_pos; lia).
    rewrite IH by exact H2. rewrite IH by exact H1. rewrite shr_1_m by exact Hr.
    rewrite !Z.div_div by lia. rewrite pow2_xI. reflexivity.
  - assert (H2 : 0 <= shr_m (iter_pos shr_1 p r))
      by (rewrite IH by exact Hr; apply Z.div_pos; lia).
    rewrite IH by exact H2. rewrite IH by exact Hr.
    rewrite Z.div_div by lia. rewrite pow2_xO. reflexivity.
  - rewrite shr_1_m by exact Hr. reflexivity.
Qed.

Lemma fexp_normal (k : Z) : 1 <= k -> fexp prec emax k = k - prec.
Proof.
  intros Hk. unfold fexp, emin, prec, emax. lia.
Qed.

(** One alignment step on a positive mantissa of a number that is at
    least one: the mantissa stays positive and the leading bit keeps its
    weight. *)
Lemma shr_fexp_keeps (m e : Z) :
  0 < m -> 0 <= Z.log2 m + e ->
  0 < shr_m (fst (shr_fexp prec emax m e loc_Exact))
  /\ Z.log2 (shr_m (fst (shr_fexp prec emax m e loc_Exact)))
     + snd (shr_fexp prec emax m e loc_Exact)
     = Z.log2 m + e.
Proof.
  intros Hm Hv. unfold shr_fexp.
  destruct m as [ | p | p]; try lia.
  cbn [Zdigits2]. rewrite digits2_log2.
  rewrite fexp_normal by lia.
  cbn [shr_record_of_loc].
  remember (Z.log2 (Zpos p) + 1 + e - prec - e) as n eqn:Hn.
  unfold shr. destruct n as [ | k | k]; cbn [fst snd shr_m]; try (split; [lia | reflexivity]).
  rewrite iter_shr_m by (cbn; lia). cbn [shr_m].
  unfold prec in Hn.
  assert (Hk : Zpos k = Z.log2 (Zpos p) - 52) by lia.
  rewrite <- Z.shiftr_div_pow2 by lia.
  assert (Hlog : Z.log2 (Z.shiftr (Zpos p) (Zpos k)) = 52).
  { rewrite Z.log2_shiftr by lia. lia. }
  split.
  - destruct (Z.shiftr (Zpos p) (Zpos k)) as [ | q | q] eqn:Hq; cbn in Hlog; lia.
  - rewrite Hlog. lia.
Qed.

Lemma round_nearest_even_bounds (r : shr_record) :
  0 < shr_m r ->
  shr_m r <= round_nearest_even (shr_m r) (loc_of_shr_record r)
  /\ round_nearest_even (shr_m r) (loc_of_shr_record r) <= shr_m r + 1.
Proof.
  destruct r as [m [ | ] [ | ]]; cbn [shr_m loc_of_shr_record round_nearest_even]; try lia.
  destruct (Z.even m); lia.
Qed.

(** Rounding a positive mantissa of a number that is at least one gives a
    number that is at least one. *)
Lemma binary_round_aux_at_least_one (m : positive) (e : Z) :
  0 <= Z.log2 (Zpos m) + e ->
  at_least_one (binary_round_aux prec emax false (Zpos m) e loc_Exact).
Proof.
  intros Hv. unfold binary_round_aux.
  destruct (shr_fexp_keeps (Zpos m) e) as [Hpos1 Hlog1]; [lia | exact Hv |].
  destruct (shr_fexp prec emax (Zpos m) e loc_Exact) as [mrs' e'].
  cbn [fst snd] in Hpos1, Hlog1.
  destruct (round_nearest_even_bounds mrs' Hpos1) as [Hlo Hhi].
  set (m' := round_nearest_even (shr_m mrs') (loc_of_shr_record mrs')) in *.
  assert (Hlog' : Z.log2 (shr_m mrs') <= Z.log2 m') by (apply Z.log2_le_mono; exact Hlo).
  destruct (shr_fexp_keeps m' e') as [Hpos2 Hlog2]; [lia | lia |].
  destruct (shr_fexp prec emax m' e' loc_Exact) as [mrs'' e''].
  cbn [fst snd] in Hpos2, Hlog2.
  destruct (shr_m mrs'') as [ | q | q]; try lia.
  destruct (e'' <=? emax - prec); cbn [at_least_one]; [lia | exact I].
Qed.

Lemma iter_xO (d m : positive) : Zpos (Pos.iter xO m d) = Zpos m * 2 ^ Zpos d.
Proof.
  revert m. induction d as [d IH | d IH | ]; intros m; cbn [Pos.iter].
  - rewrite Pos2Z.inj_xO, !IH, pow2_xI. lia.
  - rewrite !IH, pow2_xO. lia.
  - rewrite Pos2Z.inj_xO. lia.
Qed.

Lemma of_Z_at_least_one (z : Z) : 1 <= z -> at_least_one (of_Z z).
Proof.
  intros Hz. destruct z as [ | m | m]; try lia.
  unfold of_Z, binary_normalize, binary_round, shl_align.
  rewrite digits2_log2. rewrite fexp_normal by (pose proof (Z.log2_nonneg (Zpos m)); lia).
  destruct (Z.log2 (Zpos m) + 1 + 0 - prec - 0) as [ | d | d] eqn:Hd.
  - apply binary_round_aux_at_least_one. pose proof (Z.log2_nonneg (Zpos m)). lia.
  - apply binary_round_aux_at_least_one. pose proof (Z.log2_nonneg (Zpos m)). lia.
  - apply binary_round_aux_at_least_one.
    rewrite iter_xO, Z.log2_mul_pow2 by lia.
    unfold prec in *. pose proof (Z.log2_nonneg (Zpos m)). lia.
Qed.

Lemma mul_at_least_one (x y : number) :
  at_least_one x -> at_least_one y -> at_least_one (mul x y).
Proof.
  intros Hx Hy.
  destruct x as [ | [ | ] | | [ | ] mx ex]; cbn [at_least_one] in Hx; try contradiction;
    destruct y as [ | [ | ] | | [ | ] my ey]; cbn [at_least_one] in Hy; try contradiction;
    unfold mul; cbn [SFmul xorb at_least_one]; try exact I.
  apply binary_round_aux_at_least_one.
  rewrite Pos2Z.inj_mul.
  pose proof (Z.log2_mul_below (Zpos mx) (Zpos my) ltac:(lia) ltac:(lia)). lia.
Qed.

Lemma at_least_one_positive (x : number) :
  at_least_one x -> ltb zero x = true /\ leb x zero = false /\ isNaN x = false.
Proof.
  destruct x as [ | [ | ] | | [ | ] m e]; try contradiction; intros _; repeat split.
Qed.

Lemma of_Z_zero_not_positive : leb (of_Z 0) zero = true.
Proof. reflexivity. Qed.

(** *** Exact products *)

Lemma iter_shr_exact (p M : positive) :
  iter_pos shr_1 p {| shr_m := Zpos (Pos.iter xO M p); shr_r := false; shr_s := false |}
  = {| shr_m := Zpos M; shr_r := false; shr_s := false |}.
Proof.
  revert M. induction p as [p IH | p IH | ]; intros M; cbn [iter_pos Pos.iter].
  - cbn [shr_1 orb]. rewrite !IH. reflexivity.
  - rewrite !IH. reflexivity.
  - reflexivity.
Qed.

(** A mantissa that is a 53-bit mantissa followed by zero bits is rounded
    to that mantissa. *)
Lemma binary_round_aux_exact (X M : positive) (n e : Z) :
  Z.log2 (Zpos M) = 52 ->
  0 <= n ->
  Zpos X = Zpos M * 2 ^ n ->
  -52 <= n + e ->
  n + e <= emax - prec ->
  binary_round_aux prec emax false (Zpos X) e loc_Exact = S754_finite false M (n + e).
Proof.
  intros HM Hn HX Hlow Hhigh.
  assert (HlogX : Z.log2 (Zpos X) = n + 52).
  { rewrite HX, Z.log2_mul_pow2 by lia. lia. }
  assert (Hstage2 : shr_fexp prec emax (Zpos M) (n + e) loc_Exact
                    = ({| shr_m := Zpos M; shr_r := false; shr_s := false |}, n + e)).
  { unfold shr_fexp. cbn [Zdigits2]. rewrite digits2_log2, HM.
    rewrite fexp_normal by lia. unfold prec.
    replace (52 + 1 + (n + e) - 53 - (n + e)) with 0 by lia. reflexivity. }
  unfold binary_round_aux.
  assert (Hstage1 : shr_fexp prec emax (Zpos X) e loc_Exact
                    = ({| shr_m := Zpos M; shr_r := false; shr_s := false |}, n + e)).
  { unfold shr_fexp. cbn [Zdigits2]. rewrite digits2_log2, HlogX.
    rewrite fexp_normal by lia. unfold prec.
    replace (n + 52 + 1 + e - 53 - e) with n by lia.
    cbn [shr_record_of_loc]. unfold shr.
    destruct n as [ | p | p]; try lia.
    - rewrite Z.pow_0_r, Z.mul_1_r in HX. injection HX as ->. reflexivity.
    - rewrite <- iter_xO in HX. injection HX as ->.
      rewrite iter_shr_exact. f_equal. lia. }
  rewrite Hstage1. cbn [shr_m loc_of_shr_record round_nearest_even].
  rewrite Hstage2. cbn [shr_m].
  apply Z.leb_le in Hhigh. rewrite Hhigh. reflexivity.
Qed.

Lemma normal_spec (m : positive) :
  Z.log2 (Zpos m) <= 52 ->
  Zpos (normal m) = Zpos m * 2 ^ (52 - Z.log2 (Zpos m))
  /\ Z.log2 (Zpos (normal m)) = 52.
Proof.
  intros Hm. unfold normal.
  destruct (52 - Z.log2 (Zpos m)) as [ | d | d] eqn:Hd; try lia.
  rewrite iter_xO. split; [reflexivity |].
  rewrite Z.log2_mul_pow2 by lia. lia.
Qed.

Lemma of_Z_small (m : positive) :
  Z.log2 (Zpos m) <= 52 ->
  of_Z (Zpos m) = S754_finite false (normal m) (Z.log2 (Zpos m) - 52).
Proof.
  intros Hm. destruct (normal_spec m Hm) as [Hn Hlog].
  pose proof (Z.log2_nonneg (Zpos m)) as H0.
  unfold of_Z, binary_normalize, binary_round, shl_align.
  rewrite digits2_log2. rewrite fexp_normal by lia. unfold prec at 1 2.
  replace (Z.log2 (Zpos m) + 1 + 0 - 53 - 0) with (Z.log2 (Zpos m) - 52) by lia.
  unfold normal in *.
  destruct (Z.log2 (Zpos m) - 52) as [ | d | d] eqn:Hd; try lia.
  - replace (52 - Z.log2 (Zpos m)) with 0 in * by lia.
    rewrite (binary_round_aux_exact m m 0 0); unfold emax, prec; try lia.
    reflexivity.
  - replace (52 - Z.log2 (Zpos m)) with (Zpos d) in * by lia.
    replace (Z.log2 (Zpos m) + 1 + 0 - 53) with (Zneg d) by lia.
    rewrite (binary_round_aux_exact (Pos.iter xO m d) (Pos.iter xO m d) 0 (Zneg d));
      unfold emax, prec; try lia.
    reflexivity.
Qed.

(** The product of two integers is computed exactly when it is below
    2^53. *)
Lemma mul_exact (a b : Z) :
  1 <= a -> 1 <= b -> a * b < 2 ^ 53 ->
  mul (of_Z a) (of_Z b) = of_Z (a * b).
Proof.
  intros Ha Hb Hab.
  destruct a as [ | a | a]; try lia. destruct b as [ | b | b]; try lia.
  assert (Hlc : Z.log2 (Zpos a * Zpos b) <= 52).
  { assert (Z.log2 (Zpos a * Zpos b) < 53) by (apply Z.log2_lt_pow2; lia). lia. }
  pose proof (Z.log2_mul_below (Zpos a) (Zpos b) ltac:(lia) ltac:(lia)) as Hbelow.
  pose proof (Z.log2_nonneg (Zpos a)) as Ha0.
  pose proof (Z.log2_nonneg (Zpos b)) as Hb0.
  assert (Hla : Z.log2 (Zpos a) <= 52) by lia.
  assert (Hlb : Z.log2 (Zpos b) <= 52) by lia.
  rewrite (of_Z_small a Hla), (of_Z_small b Hlb).
  change (Zpos a * Zpos b) with (Zpos (a * b)) in *.
  rewrite (of_Z_small (a * b) Hlc).
  destruct (normal_spec a Hla) as [Hna _].
  destruct (normal_spec b Hlb) as [Hnb _].
  destruct (normal_spec (a * b) Hlc) as [Hnc Hlogc].
  unfold mul. cbn [SFmul xorb].
  rewrite (binary_round_aux_exact (normal a * normal b) (normal (a * b))
             (52 + Z.log2 (Zpos (a * b)) - Z.log2 (Zpos a) - Z.log2 (Zpos b))
             (Z.log2 (Zpos a) - 52 + (Z.log2 (Zpos b) - 52)));
    unfold emax, prec; try lia.
  - f_equal. lia.
  - rewrite Pos2Z.inj_mul, Hna, Hnb, Hnc, Pos2Z.inj_mul.
    replace (52 + Z.log2 (Zpos a * Zpos b) - Z.log2 (Zpos a) - Z.log2 (Zpos b))
      with ((52 - Z.log2 (Zpos a)) + (52 - Z.log2 (Zpos b)) - (52 - Z.log2 (Zpos a * Zpos b)))
      by lia.
    rewrite <- Pos2Z.inj_mul.
    set (la := 52 - Z.log2 (Zpos a)) in *.
    set (lb := 52 - Z.log2 (Zpos b)) in *.
    set (lc := 52 - Z.log2 (Zpos (a * b))) in *.
    assert (H : 2 ^ la * 2 ^ lb = 2 ^ lc * 2 ^ (la + lb - lc)).
    { rewrite <- !Z.pow_add_r by lia. f_equal. lia. }
    rewrite Pos2Z.inj_mul. nia.
Qed.

End NumberFacts.

(** ** The auth endpoint *)

Section DurationFacts.

Import Auth.

Lemma span_digits_sound (s : string) :
  s = fst (span_digits s) ++ snd (span_digits s)
  /\ all_digits (fst (span_digits s)) = true.
Proof.
  induction s as [ | c rest IH]; cbn; [split; reflexivity |].
  destruct (is_digit c) eqn:Hc; [| split; reflexivity].
  destruct (span_digits rest) as [ds tl]. cbn in *.
  destruct IH as [IH1 IH2]. rewrite Hc, IH2. split; [f_equal; exact IH1 | reflexivity].
Qed.

Lemma span_digits_complete (ds : string) (c : ascii) (rest : string) :
  all_digits ds = true -> is_digit c = false ->
  span_digits (ds ++ String c rest) = (ds, String c rest).
Proof.
  intros Hds Hc. induction ds as [ | d ds IH]; cbn.
  - rewrite Hc. reflexivity.
  - cbn in Hds. apply andb_true_iff in Hds. destruct Hds as [Hd Hds].
    rewrite Hd, (IH Hds). reflexivity.
Qed.

Lemma unit_not_digit (unit : ascii) (k : Z) :
  unit_seconds unit = Some k -> is_digit unit = false.
Proof.
  destruct unit as [[] [] [] [] [] [] [] []]; cbn; intros H;
    first [discriminate H | reflexivity].
Qed.

Lemma unit_positive (unit : ascii) (k : Z) :
  unit_seconds unit = Some k -> (0 < k)%Z.
Proof.
  destruct unit as [[] [] [] [] [] [] [] []]; cbn; intros H;
    first [discriminate H | injection H as <-; reflexivity].
Qed.

(** The regular expression matches exactly the strings made of at least one
    digit followed by one unit letter. *)
Lemma match_duration_spec (t digits : string) (unit : ascii) :
  match_duration t = Some (digits, unit)
  <-> t = digits ++ String unit EmptyString
      /\ digits <> EmptyString
      /\ all_digits digits = true
      /\ exists k, unit_seconds unit = Some k.
Proof.
  unfold match_duration. split.
  - pose proof (span_digits_sound t) as [Hsplit Hall].
    destruct (span_digits t) as [ds tl]. cbn in Hsplit, Hall.
    destruct ds as [ | d ds]; [discriminate |].
    destruct tl as [ | u [ | ? ?]]; try discriminate.
    destruct u as [[] [] [] [] [] [] [] []]; try discriminate;
      intros H; injection H as <- <-;
      (split; [exact Hsplit | split; [discriminate | split; [exact Hall | cbn; eauto]]]).
  - intros [-> [Hne [Hall [k Hk]]]].
    rewrite (span_digits_complete digits unit EmptyString Hall (unit_not_digit _ _ Hk)).
    destruct digits as [ | d ds]; [contradiction Hne; reflexivity |].
    destruct unit as [[] [] [] [] [] [] [] []]; cbn in Hk; try discriminate Hk; reflexivity.
Qed.

Lemma unit_factors_seconds (unit : ascii) (k : Z) :
  unit_seconds unit = Some k ->
  exists factors,
    unit_factors unit = Some factors
    /\ fold_left Z.mul factors 1%Z = k
    /\ Forall (fun factor => (1 <= factor)%Z) factors.
Proof.
  destruct unit as [[] [] [] [] [] [] [] []]; cbn; intros H;
    first [discriminate H
          | injection H as <-; eexists; split; [reflexivity |];
            split; [reflexivity | repeat constructor; lia]].
Qed.

Lemma unit_factors_unit (unit : ascii) (factors : list Z) :
  unit_factors unit = Some factors ->
  Forall (fun factor => (1 <= factor)%Z) factors
  /\ exists k, unit_seconds unit = Some k.
Proof.
  destruct unit as [[] [] [] [] [] [] [] []]; cbn; intros H;
    first [discriminate H
          | injection H as <-; split; [repeat constructor; lia | eexists; reflexivity]].
Qed.

(** The [switch] on the unit multiplies by the unit's factors. *)
Lemma switch_unit (unit : ascii) (factors : list Z) (v : Z) :
  unit_factors unit = Some factors ->
  match unit with
  | "d"%char =>
      Some (Number.mul (Number.mul (Number.mul (of_Z v) (of_Z 24)) (of_Z 60)) (of_Z 60))
  | "h"%char => Some (Number.mul (Number.mul (of_Z v) (of_Z 60)) (of_Z 60))
  | "m"%char => Some (Number.mul (of_Z v) (of_Z 60))
  | "s"%char => Some (of_Z v)
  | _ => None
  end = Some (in_seconds v factors).
Proof.
  destruct unit as [[] [] [] [] [] [] [] []]; cbn [unit_factors]; intros H;
    first [discriminate H | injection H as <-; reflexivity].
Qed.

Lemma parse_digits_nonneg (ds : string) (acc : Z) :
  (0 <= acc)%Z -> (0 <= parse_digits acc ds)%Z.
Proof.
  revert acc. induction ds as [ | c ds IH]; intros acc Hacc; cbn [parse_digits].
  - exact Hacc.
  - apply IH. unfold digit_value. lia.
Qed.

(** The test [isNaN(value) || value <= 0] on the parsed integer. *)
Lemma value_test (digits : string) :
  digits <> EmptyString ->
  Number.isNaN (parseInt10 digits) || Number.leb (parseInt10 digits) Number.zero
  = (parse_digits 0 digits <=? 0)%Z.
Proof.
  intros Hne. unfold parseInt10.
  destruct digits as [ | c ds]; [contradiction Hne; reflexivity |].
  pose proof (parse_digits_nonneg (String c ds) 0%Z ltac:(lia)) as Hnn.
  destruct (parse_digits 0 (String c ds) <=? 0)%Z eqn:Hv.
  - apply Z.leb_le in Hv.
    replace (parse_digits 0 (String c ds)) with 0%Z by lia. reflexivity.
  - apply Z.leb_gt in Hv.
    destruct (at_least_one_positive (of_Z (parse_digits 0 (String c ds)))) as [_ [Hleb Hnan]];
      [apply of_Z_at_least_one; lia |].
    rewrite Hleb, Hnan. reflexivity.
Qed.

Lemma in_seconds_at_least_one (factors : list Z) (v : Z) :
  (1 <= v)%Z ->
  Forall (fun factor => (1 <= factor)%Z) factors ->
  at_least_one (in_seconds v factors).
Proof.
  intros Hv Hall. unfold in_seconds.
  assert (H : at_least_one (of_Z v)) by (apply of_Z_at_least_one; exact Hv).
  revert H. generalize (of_Z v). induction Hall as [ | factor factors Hf Hall IH];
    intros x Hx; cbn [fold_left].
  - exact Hx.
  - apply IH. apply mul_at_least_one; [exact Hx | apply of_Z_at_least_one; exact Hf].
Qed.

Lemma fold_mul_from (factors : list Z) (v : Z) :
  fold_left Z.mul factors v = (v * fold_left Z.mul factors 1)%Z.
Proof.
  revert v. induction factors as [ | factor factors IH]; intros v; cbn [fold_left].
  - lia.
  - rewrite IH, (IH (1 * factor)%Z). lia.
Qed.

Lemma fold_mul_at_least_one (factors : list Z) :
  Forall (fun factor => (1 <= factor)%Z) factors ->
  (1 <= fold_left Z.mul factors 1)%Z.
Proof.
  induction 1 as [ | factor factors Hf Hall IH]; cbn [fold_left]; [lia |].
  rewrite fold_mul_from. nia.
Qed.

(** Below 2^53 no product is rounded: the result is the number of
    seconds. *)
Lemma in_seconds_exact (factors : list Z) (v : Z) :
  (1 <= v)%Z ->
  Forall (fun factor => (1 <= factor)%Z) factors ->
  (v * fold_left Z.mul factors 1 < 2 ^ 53)%Z ->
  in_seconds v factors = of_Z (v * fold_left Z.mul factors 1)%Z.
Proof.
  intros Hv Hall. unfold in_seconds. revert v Hv.
  induction Hall as [ | factor factors Hf Hall IH]; intros v Hv Hsmall;
    cbn [fold_left] in Hsmall |- *.
  - rewrite Z.mul_1_r. reflexivity.
  - rewrite (fold_mul_from factors (1 * factor)%Z) in Hsmall |- *.
    pose proof (fold_mul_at_least_one factors Hall) as Hrest.
    rewrite mul_exact; [| exact Hv | exact Hf | nia].
    rewrite IH; [f_equal; lia | nia | ].
    replace (v * factor * fold_left Z.mul factors 1)%Z
      with (v * (1 * factor * fold_left Z.mul factors 1))%Z by lia.
    exact Hsmall.
Qed.

Lemma append_unit_injective (d1 d2 : string) (u1 u2 : ascii) :
  d1 ++ String u1 EmptyString = d2 ++ String u2 EmptyString -> d1 = d2 /\ u1 = u2.
Proof.
  revert d2. induction d1 as [ | c d1 IH]; intros [ | c2 d2]; cbn; intros H.
  - injection H as ->. split; reflexivity.
  - injection H as _ H. destruct d2; discriminate H.
  - injection H as _ H. destruct d1; discriminate H.
  - injection H as -> H. destruct (IH _ H) as [-> ->]. split; reflexivity.
Qed.

(** [parseJwtExpiresIn] succeeds exactly on the strings that, once their
    surrounding white space is trimmed, have the form [<integer><unit>]
    with a positive integer; the result is the integer in seconds, as
    numbers are multiplied. *)
Lemma parseJwtExpiresIn_spec (s : string) (n : number) :
  parseJwtExpiresIn s = Some n <-> duration_seconds (trim s) n.
Proof.
  unfold parseJwtExpiresIn, duration_seconds. split.
  - destruct (match_duration (trim s)) as [[digits unit] | ] eqn:Hm; [| discriminate].
    apply match_duration_spec in Hm. destruct Hm as [Ht [Hne [Hall [k Hk]]]].
    destruct (unit_factors_seconds unit k Hk) as [factors [Hf _]].
    rewrite (value_test digits Hne).
    destruct (parse_digits 0 digits <=? 0)%Z eqn:Hv; [discriminate |].
    unfold parseInt10. destruct digits as [ | c ds]; [contradiction Hne; reflexivity |].
    rewrite (switch_unit unit factors _ Hf). intros H. injection H as <-.
    apply Z.leb_gt in Hv.
    exists (String c ds), unit, factors. tauto.
  - intros [digits [unit [factors [Ht [Hne [Hall [Hf [Hpos Hn]]]]]]]].
    assert (Hm : match_duration (trim s) = Some (digits, unit)).
    { apply match_duration_spec.
      destruct (unit_factors_unit unit factors Hf) as [_ Hk]. auto. }
    rewrite Hm, (value_test digits Hne).
    apply Z.leb_gt in Hpos. rewrite Hpos.
    unfold parseInt10. destruct digits as [ | c ds]; [contradiction Hne; reflexivity |].
    rewrite (switch_unit unit factors _ Hf). subst n. reflexivity.
Qed.

Lemma parseJwtExpiresIn_at_least_one (s : string) (n : number) :
  parseJwtExpiresIn s = Some n -> at_least_one n.
Proof.
  intros H. apply parseJwtExpiresIn_spec in H.
  destruct H as [digits [unit [factors [_ [_ [_ [Hf [Hpos ->]]]]]]]].
  destruct (unit_factors_unit unit factors Hf) as [Hall _].
  apply in_seconds_at_least_one; [lia | exact Hall].
Qed.

Lemma parseJwtExpiresIn_positive (s : string) (n : number) :
  parseJwtExpiresIn s = Some n -> Number.ltb Number.zero n = true.
Proof.
  intros H. apply parseJwtExpiresIn_at_least_one in H.
  exact (proj1 (at_least_one_positive n H)).
Qed.

(** Up to 2^53 seconds the result is exact. *)
Lemma parseJwtExpiresIn_exact (s digits : string) (unit : ascii) (k : Z) :
  trim s = digits ++ String unit EmptyString ->
  digits <> EmptyString ->
  all_digits digits = true ->
  unit_seconds unit = Some k ->
  (0 < parse_digits 0 digits)%Z ->
  (parse_digits 0 digits * k < 2 ^ 53)%Z ->
  parseJwtExpiresIn s = Some (of_Z (parse_digits 0 digits * k)).
Proof.
  intros Ht Hne Hall Hk Hpos Hsmall.
  destruct (unit_factors_seconds unit k Hk) as [factors [Hf [Hprod Hge]]].
  apply parseJwtExpiresIn_spec.
  exists digits, unit, factors.
  split; [exact Ht |]. split; [exact Hne |]. split; [exact Hall |].
  split; [exact Hf |]. split; [exact Hpos |].
  symmetry. rewrite <- Hprod in Hsmall |- *.
  apply in_seconds_exact; [lia | exact Hge | exact Hsmall].
Qed.

(** Beyond 2^53 the result is a rounded one: 13343998895913 days are
    1152921504606883200 seconds, which no number holds, and the integer
    9007199254740993 is read as 9007199254740992. *)
Lemma long_durations_are_rounded :
  parseJwtExpiresIn "13343998895913d" = Some (of_Z 1152921504606883328)
  /\ parseJwtExpiresIn "9007199254740993s" = Some (of_Z 9007199254740992).
Proof.
  split; vm_compute; reflexivity.
Qed.

End DurationFacts.

Section LoginFacts.

Context {L : Libraries}.

Import Store Schema Auth.

(** A body the login schema accepts carries the action [login]. *)
Lemma loginSchema_action (rawBody : Json) (credentials : LoginData) :
  loginSchema rawBody = Some credentials -> actionSchema rawBody = Some Login.
Proof.
  unfold loginSchema, actionSchema.
  destruct rawBody as [ | b | x | s | items | fields]; try discriminate.
  destruct (field fields "action") as [[ | b | x | action | items | fs] | ]; try discriminate.
  destruct (email_field (field fields "email")); try discriminate.
  destruct (password_field 1 (field fields "password")); try discriminate.
  destruct (String.eqb action "login") eqn:Hlogin; [| discriminate].
  apply String.eqb_eq in Hlogin. subst action. reflexivity.
Qed.

Lemma no_account_not_found (d : Db) (email : string) :
  no_account d email -> fst (UserModel_findOne email d) = None.
Proof.
  intros Hno. unfold UserModel_findOne. cbn [fst].
  destruct (find (fun u => String.eqb (user_email u) email) (users d)) as [u | ] eqn:Hfind;
    [| reflexivity].
  apply find_some in Hfind. destruct Hfind as [Hin Heq].
  apply String.eqb_eq in Heq. exfalso. exact (Hno u Hin Heq).
Qed.

(** C8. A schema-valid login request is answered
    401 "Invalid email or password." both when no account has the
    lower-cased address and when the account's password comparison fails;
    the storage operations are assumed not to fail. *)
Theorem login_failure_is_generic
    (env : Env) (request : Request) (w : World)
    (rawBody : Json) (credentials : LoginData) :
  throws env ConnectDB = None ->
  throws env UserFindOne = None ->
  json request = Some rawBody ->
  loginSchema rawBody = Some credentials ->
  no_account (db w) (toLowerCase (login_email credentials))
  \/ wrong_password (db w) (toLowerCase (login_email credentials))
                    (login_password credentials) ->
  response_of (POST env request) w = failure 401 "Invalid email or password.".
Proof.
  intros Hconn Hfind Hjson Hschema Hcause.
  unfold response_of, run, POST.
  unfold bind, connectDB, attempt. rewrite Hconn. cbn [fst snd].
  rewrite same_world, Hjson, (loginSchema_action _ _ Hschema).
  unfold login. rewrite Hschema.
  unfold bind, attempt. rewrite Hfind.
  destruct Hcause as [Hno | [user [Huser Hcmp]]].
  - apply no_account_not_found in Hno.
    destruct (UserModel_findOne (toLowerCase (login_email credentials)) (db w))
      as [found d] eqn:Hrun.
    cbn in Hno. subst found. reflexivity.
  - destruct (UserModel_findOne (toLowerCase (login_email credentials)) (db w))
      as [found d] eqn:Hrun.
    cbn in Huser. subst found. cbn -[String.append comparePassword].
    rewrite Hcmp. reflexivity.
Qed.

Lemma login_after_password (env : Env) (request : Request) (w : World)
    (user : UserDoc) (jwtSecret jwtExpiresIn : string) :
  password_accepted env request (db w) user jwtSecret jwtExpiresIn ->
  response_of (POST env request) w
  = match parseJwtExpiresIn jwtExpiresIn with
    | None => failure 500 "Internal Server Error: Invalid JWT expiration format."
    | Some maxAgeSeconds =>
        match jwt_sign (user_id user) jwtSecret jwtExpiresIn (now env) with
        | None => failure 500 "Internal Server Error: Could not create session."
        | Some token =>
            {| status := 200;
               body := JsonBody {| success := true; message := None;
                                   data := Some (DataUser (public_profile user));
                                   error := None; validationErrors := false |};
               set_cookie := Some (session_cookie env token maxAgeSeconds) |}
        end
    end.
Proof.
  intros [rawBody [credentials [Hconn [Hfind [Hjson [Hschema [Huser [Hcmp
           [Hsecret [Hs [Hexpires He]]]]]]]]]]].
  unfold response_of, run, POST.
  unfold bind, connectDB, attempt. rewrite Hconn. cbn [fst snd].
  rewrite same_world, Hjson, (loginSchema_action _ _ Hschema).
  unfold login. rewrite Hschema.
  unfold bind, attempt. rewrite Hfind.
  destruct (UserModel_findOne (toLowerCase (login_email credentials)) (db w))
    as [found d] eqn:Hrun.
  cbn in Huser. subst found. cbn -[String.append comparePassword parseJwtExpiresIn].
  rewrite Hcmp, Hsecret, Hexpires.
  destruct jwtSecret as [ | c1 jwtSecret]; [discriminate Hs |].
  destruct jwtExpiresIn as [ | c2 jwtExpiresIn]; [discriminate He |].
  cbn -[String.append parseJwtExpiresIn].
  destruct (parseJwtExpiresIn (String c2 jwtExpiresIn)) as [maxAgeSeconds | ]; [| reflexivity].
  destruct (jwt_sign (user_id user) (String c1 jwtSecret) (String c2 jwtExpiresIn) (now env));
    reflexivity.
Qed.

(** C7, as the code has it.  The cookie lifetime is parsed from the
    expiration-duration string after trimming its surrounding white space:
    the parse succeeds exactly when the trimmed string is
    [<integer><unit>] with a positive integer and a unit among d, h, m, s,
    and yields the integer multiplied by 24, 60 and 60, by 60 and 60, by
    60, or by nothing, in the arithmetic of numbers; as long as the number
    of seconds is below 2^53 this is exactly the integer times 86400,
    3600, 60 or 1; the result is never non-positive.  In a login that got
    past the password check, a failed parse is answered 500, and
    otherwise, the token being signed, the answer is 200 and sets the
    cookie [access_token] with MaxAge equal to the parsed seconds,
    HttpOnly, SameSite=Lax, Path=/, and Secure exactly in production. *)
Theorem cookie_lifetime_from_trimmed_duration :
  (forall s n, parseJwtExpiresIn s = Some n <-> duration_seconds (trim s) n)
  /\ (forall s digits unit k,
         trim s = digits ++ String unit EmptyString ->
         digits <> EmptyString ->
         all_digits digits = true ->
         unit_seconds unit = Some k ->
         (0 < parse_digits 0 digits)%Z ->
         (parse_digits 0 digits * k < 2 ^ 53)%Z ->
         parseJwtExpiresIn s = Some (of_Z (parse_digits 0 digits * k)))
  /\ (forall s n, parseJwtExpiresIn s = Some n -> Number.ltb Number.zero n = true)
  /\ (forall env request w user jwtSecret jwtExpiresIn,
         password_accepted env request (db w) user jwtSecret jwtExpiresIn ->
         (parseJwtExpiresIn jwtExpiresIn = None ->
          status (response_of (POST env request) w) = 500%Z
          /\ set_cookie (response_of (POST env request) w) = None)
         /\ (forall n token,
                parseJwtExpiresIn jwtExpiresIn = Some n ->
                jwt_sign (user_id user) jwtSecret jwtExpiresIn (now env) = Some token ->
                status (response_of (POST env request) w) = 200%Z
                /\ set_cookie (response_of (POST env request) w)
                   = Some {| cookie_name := "access_token";
                             cookie_token := token;
                             httpOnly := true;
                             secure := match NODE_ENV env with
                                       | Some mode => String.eqb mode "production"
                                       | None => false
                                       end;
                             sameSite := "lax";
                             path := "/";
                             maxAge := n |})).
Proof.
  split; [exact parseJwtExpiresIn_spec |].
  split; [exact parseJwtExpiresIn_exact |].
  split; [exact parseJwtExpiresIn_positive |].
  intros env request w user jwtSecret jwtExpiresIn Hacc.
  rewrite (login_after_password env request w user jwtSecret jwtExpiresIn Hacc).
  split.
  - intros ->. split; reflexivity.
  - intros n token -> ->. split; reflexivity.
Qed.

End LoginFacts.

(** ** The properties on the concrete deployment *)

Section OnTheScenario.

Import Scenario Middleware.

(** A token signed for the empty user id is accepted by the
    goals-collection copy of the helper and refused by the other two. *)
Lemma collection_helper_accepts_empty_userId_witness :
  verification_result Goals.getVerifiedUserId env (goals_api "token-empty-userId") world
  = inr ""
  /\ verification_result GoalItem.getVerifiedUserId env (goals_api "token-empty-userId") world
     = inl (failure 401 "Invalid token payload.")
  /\ verification_result Progress.getVerifiedUserId env (goals_api "token-empty-userId") world
     = inl (failure 401 "Invalid token payload.").
Proof.
  apply (collection_helper_accepts_empty_userId env (goals_api "token-empty-userId") world
           "token-empty-userId" secret); reflexivity.
Defined.

(** A request for the profile without any cookie reaches the handler. *)
Lemma profile_path_not_protected_witness :
  runs_on (pathname profile_request) = false
  /\ route env profile_request = Reaches_handler.
Proof.
  apply (profile_path_not_protected env profile_request). reflexivity.
Defined.

Lemma middleware_four_cases_witness :
  rejected (goals_api "") (fst (middleware env (goals_api "")))
  /\ rejected (dashboard []) (fst (middleware env (dashboard [])))
  /\ json_failure 500 (fst (middleware env_without_secret (dashboard [("access_token", "token-alice")])))
  /\ rejected (goals_api "token-expired") (fst (middleware env (goals_api "token-expired")))
  /\ fst (middleware env (goals_api "token-alice")) = Next.
Proof.
  split; [| split; [| split; [| split]]].
  - exact (proj1 (middleware_four_cases env (goals_api "")) eq_refl).
  - exact (proj1 (middleware_four_cases env (dashboard [])) eq_refl).
  - exact (proj1 (proj2 (middleware_four_cases env_without_secret
                           (dashboard [("access_token", "token-alice")])))
                 eq_refl eq_refl).
  - exact (proj1 (proj2 (proj2 (middleware_four_cases env (goals_api "token-expired"))))
                 "token-expired" secret
                 {| Jwt.error_class := Jwt.TokenExpiredError; Jwt.error_message := "jwt expired" |}
                 eq_refl eq_refl eq_refl eq_refl eq_refl).
  - exact (proj2 (proj2 (proj2 (middleware_four_cases env (goals_api "token-alice"))))
                 "token-alice" secret (Jwt.DecodedObject (Some (JsStr alice)))
                 eq_refl eq_refl eq_refl eq_refl eq_refl).
Defined.

Lemma unusable_payload_passes_middleware_only_witness :
  fst (middleware env (goals_api "token-without-userId")) = Next
  /\ verification_result GoalItem.getVerifiedUserId env (goals_api "token-without-userId") world
     = inl (failure 401 "Invalid token payload.")
  /\ verification_result Progress.getVerifiedUserId env (goals_api "token-without-userId") world
     = inl (failure 401 "Invalid token payload.").
Proof.
  apply (unusable_payload_passes_middleware_only env (goals_api "token-without-userId") world
           "token-without-userId" secret (Jwt.DecodedObject None));
    first [reflexivity | exact I].
Defined.

(** *** Goal item *)

Lemma alice_is_authenticated (body : option Json) :
  authenticated_for_goal env (goal_request body) alice.
Proof. intros w. reflexivity. Qed.

Lemma alice_does_not_own_swim : ~ owns database alice swim.
Proof. apply findOne_none. reflexivity. Qed.


Lemma alice_owns_run5k : owns database alice run5k.
Proof. exists goal_run5k. repeat split. left. reflexivity. Qed.




Lemma alice_is_authenticated_when_cascade_fails :
  authenticated_for_goal env_cascade_fails (goal_request None) alice.
Proof. intros w. reflexivity. Qed.

Lemma delete_cascade_is_best_effort_witness :
  response_of (GoalItem.DELETE env_cascade_fails (goal_request None) run5k) world
  = {| status := 204; body := NoBody; set_cookie := None |}
  /\ goals (db (world_after (GoalItem.DELETE env_cascade_fails (goal_request None) run5k) world))
     = [goal_swim]
  /\ progress (db (world_after (GoalItem.DELETE env_cascade_fails (goal_request None) run5k) world))
     = [entry_run5k].
Proof.
  pose proof (delete_cascade_is_best_effort env_cascade_fails (goal_request None) run5k alice
                world eq_refl eq_refl eq_refl
                alice_is_authenticated_when_cascade_fails alice_owns_run5k) as H.
  cbv zeta in H.
  destruct H as [Hresponse [Hgoals [_ [_ Hfail]]]].
  split; [exact Hresponse |].
  split; [exact Hgoals |].
  exact (proj1 (Hfail OtherDbError eq_refl)).
Defined.

(** *** Progress *)

Lemma alice_is_authenticated_for_progress (goalId : string) :
  authenticated_for_progress env (progress_request goalId) alice.
Proof. intros w. reflexivity. Qed.

Lemma progress_only_for_owned_goal_witness :
  (response_of (Progress.POST env (progress_request swim)) world = GoalItem.not_found
   /\ status (response_of (Progress.POST env (progress_request swim)) world) = 404%Z
   /\ db (world_after (Progress.POST env (progress_request swim)) world) = database)
  /\ status (response_of (Progress.POST env (progress_request run5k)) world) = 201%Z.
Proof.
  split.
  - exact (proj1 (progress_only_for_owned_goal env (progress_request swim) world)
                 alice (progress_body swim)
                 {| Schema.log_goalId := swim; Schema.log_value := of_Z 4;
                    Schema.log_date := "2024-07-26T10:00:00.000Z";
                    Schema.log_notes := None |}
                 eq_refl eq_refl (alice_is_authenticated_for_progress swim)
                 eq_refl eq_refl alice_does_not_own_swim).
  - exact (proj1 (proj2 (proj2 (progress_only_for_owned_goal env (progress_request run5k) world))
                        alice (progress_body run5k)
                        {| Schema.log_goalId := run5k; Schema.log_value := of_Z 4;
                           Schema.log_date := "2024-07-26T10:00:00.000Z";
                           Schema.log_notes := None |}
                        1721988000000%Z
                        (fun op => eq_refl) (alice_is_authenticated_for_progress run5k)
                        eq_refl eq_refl eq_refl alice_owns_run5k)).
Defined.

(** *** Login *)

Lemma nobody_is_carol : no_account database "carol@example.com".
Proof.
  intros u [<- | []]. discriminate.
Qed.

Lemma alice_has_another_password :
  wrong_password database "alice@example.com" "looking-glass".
Proof. exists user_alice. split; reflexivity. Qed.

Lemma login_failure_is_generic_witness :
  response_of (Auth.POST env (login_request "Carol@Example.com" "wonderland")) world
  = failure 401 "Invalid email or password."
  /\ response_of (Auth.POST env (login_request "Alice@Example.com" "looking-glass")) world
     = failure 401 "Invalid email or password.".
Proof.
  split.
  - exact (login_failure_is_generic env (login_request "Carol@Example.com" "wonderland") world
             (login_body "Carol@Example.com" "wonderland")
             {| Auth.login_email := "Carol@Example.com"; Auth.login_password := "wonderland" |}
             eq_refl eq_refl eq_refl eq_refl (or_introl nobody_is_carol)).
  - exact (login_failure_is_generic env (login_request "Alice@Example.com" "looking-glass") world
             (login_body "Alice@Example.com" "looking-glass")
             {| Auth.login_email := "Alice@Example.com"; Auth.login_password := "looking-glass" |}
             eq_refl eq_refl eq_refl eq_refl (or_intror alice_has_another_password)).
Defined.

(** C7 as stated fails on a padded duration: [" 1d"] is not of the form
    [<integer><unit>], and is parsed as one day. *)
Lemma padded_duration_is_parsed :
  Auth.parseJwtExpiresIn " 1d" = Some (of_Z 86400)
  /\ ~ (exists n, duration_seconds " 1d" n).
Proof.
  split; [reflexivity |].
  intros [n [digits [unit [k [Hform [Hne [Hall _]]]]]]].
  destruct digits as [ | c digits]; [contradiction Hne; reflexivity |].
  cbn in Hform. injection Hform as <- _.
  discriminate Hall.
Qed.

Lemma alice_password_accepted :
  password_accepted env (login_request "Alice@Example.com" "wonderland") database
                    user_alice secret "1d".
Proof.
  exists (login_body "Alice@Example.com" "wonderland"),
    {| Auth.login_email := "Alice@Example.com"; Auth.login_password := "wonderland" |}.
  repeat split.
Qed.

Lemma cookie_lifetime_from_trimmed_duration_witness :
  status (response_of (Auth.POST env (login_request "Alice@Example.com" "wonderland")) world)
  = 200%Z
  /\ set_cookie (response_of (Auth.POST env (login_request "Alice@Example.com" "wonderland")) world)
     = Some {| cookie_name := "access_token";
               cookie_token := "token-for-64b000000000000000000001";
               httpOnly := true; secure := true; sameSite := "lax"; path := "/";
               maxAge := of_Z 86400 |}.
Proof.
  exact (proj2 (proj2 (proj2 (proj2 cookie_lifetime_from_trimmed_duration)) env
                      (login_request "Alice@Example.com" "wonderland") world user_alice
                      secret "1d" alice_password_accepted)
               (of_Z 86400) "token-for-64b000000000000000000001" eq_refl eq_refl).
Defined.

End OnTheScenario.

(** ** Further properties of the goal endpoints *)

Section GoalEndpointFacts.

Context {L : Libraries}.

Import Store Schema.

Lemma goals_helper_success (env : Env) (request : Request) (userId : ObjectId) (w0 : World) :
  verification_result Goals.getVerifiedUserId env request w0 = inr userId ->
  forall w, Goals.getVerifiedUserId env request w = (inr userId, w).
Proof.
  unfold verification_result, Goals.getVerifiedUserId.
  destruct (cookie_value (cookies request) "access_token") as [[ | c token] | ];
    try discriminate.
  destruct (JWT_SECRET env) as [[ | c' jwtSecret] | ]; try discriminate.
  destruct (jwt_verify (String c token) (String c' jwtSecret)) as [[payload | [[ | | b | x | uid | ] | ]] | e];
    try discriminate.
  intros H w. cbn in H. injection H as ->. reflexivity.
Qed.

Lemma goals_helper_db (env : Env) (request : Request) (w : World) :
  db (snd (Goals.getVerifiedUserId env request w)) = db w.
Proof.
  unfold Goals.getVerifiedUserId.
  destruct (cookie_value (cookies request) "access_token") as [[ | c token] | ]; try reflexivity.
  destruct (JWT_SECRET env) as [[ | c' jwtSecret] | ]; try reflexivity.
  destruct (jwt_verify (String c token) (String c' jwtSecret)) as [[payload | [[ | | b | x | userId | ] | ]] | e];
    reflexivity.
Qed.

Lemma goals_helper_result (env : Env) (request : Request) (w w' : World) :
  verification_result Goals.getVerifiedUserId env request w
  = verification_result Goals.getVerifiedUserId env request w'.
Proof.
  unfold verification_result, Goals.getVerifiedUserId.
  destruct (cookie_value (cookies request) "access_token") as [[ | c token] | ]; try reflexivity.
  destruct (JWT_SECRET env) as [[ | c' jwtSecret] | ]; try reflexivity.
  destruct (jwt_verify (String c token) (String c' jwtSecret)) as [[payload | [[ | | b | x | userId | ] | ]] | e];
    reflexivity.
Qed.

(** How a helper runs: it hands over a user id and leaves the world as it
    is, or it answers and leaves the database as it is. *)
Lemma goal_helper_cases (env : Env) (request : Request) (w : World) :
  (exists userId, authenticated_for_goal env request userId
                  /\ GoalItem.getVerifiedUserId env request w = (inr userId, w))
  \/ (exists r w', GoalItem.getVerifiedUserId env request w = (inl r, w') /\ db w' = db w).
Proof.
  destruct (verification_result GoalItem.getVerifiedUserId env request w) as [r | userId] eqn:H.
  - right. pose proof (getVerifiedUserId_goal_db env request w) as Hdb.
    unfold verification_result in H.
    destruct (GoalItem.getVerifiedUserId env request w) as [res w'].
    cbn in H, Hdb. subst res. eauto.
  - left. exists userId. split.
    + intros w'. rewrite (getVerifiedUserId_goal_result env request w' w). exact H.
    + apply (goal_helper_success _ _ _ w H).
Qed.

Lemma progress_helper_cases (env : Env) (request : Request) (w : World) :
  (exists userId, authenticated_for_progress env request userId
                  /\ Progress.getVerifiedUserId env request w = (inr userId, w))
  \/ (exists r w', Progress.getVerifiedUserId env request w = (inl r, w') /\ db w' = db w).
Proof.
  destruct (verification_result Progress.getVerifiedUserId env request w) as [r | userId] eqn:H.
  - right. pose proof (getVerifiedUserId_progress_db env request w) as Hdb.
    unfold verification_result in H.
    destruct (Progress.getVerifiedUserId env request w) as [res w'].
    cbn in H, Hdb. subst res. eauto.
  - left. exists userId. split.
    + intros w'. rewrite (getVerifiedUserId_progress_result env request w' w). exact H.
    + apply (progress_helper_success _ _ _ w H).
Qed.

Lemma goals_helper_cases (env : Env) (request : Request) (w : World) :
  (exists userId, authenticated_for_goals env request userId
                  /\ Goals.getVerifiedUserId env request w = (inr userId, w))
  \/ (exists r w', Goals.getVerifiedUserId env request w = (inl r, w') /\ db w' = db w).
Proof.
  destruct (verification_result Goals.getVerifiedUserId env request w) as [r | userId] eqn:H.
  - right. pose proof (goals_helper_db env request w) as Hdb.
    unfold verification_result in H.
    destruct (Goals.getVerifiedUserId env request w) as [res w'].
    cbn in H, Hdb. subst res. eauto.
  - left. exists userId. split.
    + intros w'. rewrite (goals_helper_result env request w' w). exact H.
    + apply (goals_helper_success _ _ _ w H).
Qed.

(** X1. The goal-item handlers check in a fixed order: a malformed goal id
    is answered 400 before anything else happens, also without a session
    and with the database down; with a well-formed id, a failing database
    connection is answered 500 before the session is looked at.  In both
    cases the database is left as it was. *)
Theorem goal_item_checks_in_order (env : Env) (request : Request) (goalId : string) (w : World) :
  (GoalItem.invalid_goalId goalId = true ->
   run (GoalItem.GET env request goalId) w = (failure 400 "Invalid Goal ID format.", w)
   /\ run (GoalItem.PUT env request goalId) w = (failure 400 "Invalid Goal ID format.", w)
   /\ run (GoalItem.DELETE env request goalId) w = (failure 400 "Invalid Goal ID format.", w))
  /\ (forall e, GoalItem.invalid_goalId goalId = false ->
                throws env ConnectDB = Some e ->
                let answer := failure 500 "Internal Server Error: Could not connect to database." in
                response_of (GoalItem.GET env request goalId) w = answer
                /\ response_of (GoalItem.PUT env request goalId) w = answer
                /\ response_of (GoalItem.DELETE env request goalId) w = answer
                /\ db (world_after (GoalItem.GET env request goalId) w) = db w
                /\ db (world_after (GoalItem.PUT env request goalId) w) = db w
                /\ db (world_after (GoalItem.DELETE env request goalId) w) = db w).
Proof.
  split.
  - intros Hbad. unfold run, GoalItem.GET, GoalItem.PUT, GoalItem.DELETE.
    rewrite Hbad. repeat split.
  - intros e Hok Hdown. cbv zeta.
    unfold response_of, world_after, run, GoalItem.GET, GoalItem.PUT, GoalItem.DELETE.
    rewrite Hok. unfold bind, connectDB, attempt. rewrite Hdown. repeat split.
Qed.


(** *** What the writing handlers do to the database *)

Lemma PUT_db (env : Env) (request : Request) (goalId : string) (w : World) :
  db (world_after (GoalItem.PUT env request goalId) w) = db w
  \/ exists userId update,
      authenticated_for_goal env request userId
      /\ db (world_after (GoalItem.PUT env request goalId) w)
         = snd (GoalModel_findOneAndUpdate (now env) goalId userId update (db w)).
Proof.
  unfold world_after, run, GoalItem.PUT.
  destruct (GoalItem.invalid_goalId goalId); [left; reflexivity |].
  unfold bind, connectDB, attempt.
  destruct (throws env ConnectDB); [left; reflexivity |].
  cbn [fst snd]. rewrite same_world.
  destruct (goal_helper_cases env request w) as [[userId [Hauth Hrun]] | [r [w' [Hrun Hdb]]]];
    rewrite Hrun; [| left; exact Hdb].
  destruct (json request) as [rawBody | ]; [| left; reflexivity].
  destruct (updateGoalSchema rawBody) as [validated | ]; [| left; reflexivity].
  destruct (GoalItem.keys_length (GoalItem.prepare_update validated) =? 0)%nat;
    [left; reflexivity |].
  destruct (throws env GoalFindOneAndUpdate) as [[msg | | ] | ]; try (left; reflexivity).
  right. exists userId, (GoalItem.prepare_update validated). split; [exact Hauth |].
  destruct (GoalModel_findOneAndUpdate (now env) goalId userId
              (GoalItem.prepare_update validated) (db w)) as [[updated | ] d'];
    reflexivity.
Qed.

Lemma remove_first_cases (p : Goal -> bool) (l : list Goal) :
  remove_first p l = (0%Z, l) \/ fst (remove_first p l) = 1%Z.
Proof.
  destruct (find p l) as [g | ] eqn:Hfind.
  - right. exact (remove_first_some p l g Hfind).
  - left. exact (remove_first_none p l Hfind).
Qed.

Lemma DELETE_db (env : Env) (request : Request) (goalId : string) (w : World) :
  db (world_after (GoalItem.DELETE env request goalId) w) = db w
  \/ exists userId,
      authenticated_for_goal env request userId
      /\ fst (GoalModel_deleteOne goalId userId (db w)) = 1%Z
      /\ (db (world_after (GoalItem.DELETE env request goalId) w)
          = snd (GoalModel_deleteOne goalId userId (db w))
          \/ db (world_after (GoalItem.DELETE env request goalId) w)
             = snd (ProgressModel_deleteMany goalId
                      (snd (GoalModel_deleteOne goalId userId (db w))))).
Proof.
  unfold world_after, run, GoalItem.DELETE.
  destruct (GoalItem.invalid_goalId goalId); [left; reflexivity |].
  unfold bind, connectDB, attempt.
  destruct (throws env ConnectDB); [left; reflexivity |].
  cbn [fst snd]. rewrite same_world.
  destruct (goal_helper_cases env request w) as [[userId [Hauth Hrun]] | [r [w' [Hrun Hdb]]]];
    rewrite Hrun; [| left; exact Hdb].
  destruct (throws env GoalDeleteOne); [left; reflexivity |].
  unfold GoalModel_deleteOne.
  destruct (remove_first_cases (goal_matches goalId userId) (goals (db w))) as [Hnone | Hone].
  - left. rewrite Hnone. cbn. destruct w as [[gs ps us] c]. reflexivity.
  - right. exists userId. split; [exact Hauth |].
    destruct (remove_first (goal_matches goalId userId) (goals (db w))) as [n rest].
    cbn [fst] in Hone. subst n. split; [reflexivity |].
    cbn -[String.append].
    destruct (throws env ProgressDeleteMany); [left | right]; reflexivity.
Qed.

Lemma progress_POST_db (env : Env) (request : Request) (w : World) :
  db (world_after (Progress.POST env request) w) = db w
  \/ exists userId entry,
      authenticated_for_progress env request userId
      /\ progress_userId entry = castObjectId userId
      /\ owns (db w) userId (progress_goalId entry)
      /\ db (world_after (Progress.POST env request) w)
         = snd (ProgressModel_create entry (db w)).
Proof.
  unfold world_after, run, Progress.POST.
  unfold bind, connectDB, attempt.
  destruct (throws env ConnectDB); [left; reflexivity |].
  cbn [fst snd]. rewrite same_world.
  destruct (progress_helper_cases env request w) as [[userId [Hauth Hrun]] | [r [w' [Hrun Hdb]]]];
    rewrite Hrun; [| left; exact Hdb].
  destruct (json request) as [rawBody | ]; [| left; reflexivity].
  destruct (logProgressSchema rawBody) as [validatedData | ]; [| left; reflexivity].
  destruct (throws env GoalFindOne) as [[msg | | ] | ]; try (left; reflexivity).
  unfold GoalModel_findOne.
  destruct (find (goal_matches (log_goalId validatedData) userId) (goals (db w)))
    as [g | ] eqn:Hg; [| left; reflexivity].
  cbn -[String.append Progress.new_entry].
  destruct (Date_parse (log_date validatedData)) as [date | ]; [| left; reflexivity].
  destruct (throws env ProgressCreate) as [[msg | | ] | ]; try (left; reflexivity).
  right. exists userId, (Progress.new_entry env userId validatedData date).
  split; [exact Hauth |]. split; [reflexivity |]. split; [| reflexivity].
  apply find_some in Hg. destruct Hg as [Hin Hm].
  apply goal_matches_spec in Hm. destruct Hm as [Hid Hown].
  exists g. split; [exact Hin |].
  split; [apply same_id_cast; exact Hid | exact Hown].
Qed.

Lemma goals_POST_db (env : Env) (faults : GoalsCollection.Faults) (request : Request) (w : World) :
  db (world_after (GoalsCollection.POST env faults request) w) = db w
  \/ exists userId validated deadline,
      authenticated_for_goals env request userId
      /\ response_of (GoalsCollection.POST env faults request) w
         = success_data 201 (DataGoal (GoalsCollection.new_goal env userId validated deadline))
      /\ db (world_after (GoalsCollection.POST env faults request) w)
         = snd (GoalsCollection.GoalModel_create
                  (GoalsCollection.new_goal env userId validated deadline) (db w)).
Proof.
  unfold response_of, world_after, run, GoalsCollection.POST.
  unfold bind, connectDB, attempt.
  destruct (throws env ConnectDB); [left; reflexivity |].
  cbn [fst snd]. rewrite same_world.
  destruct (goals_helper_cases env request w) as [[userId [Hauth Hrun]] | [r [w' [Hrun Hdb]]]];
    rewrite Hrun; [| left; exact Hdb].
  destruct (json request) as [rawBody | ]; [| left; reflexivity].
  destruct (GoalsCollection.createGoalSchema rawBody) as [validated | ]; [| left; reflexivity].
  destruct (GoalsCollection.deadline_to_store (GoalsCollection.new_deadline validated))
    as [deadline | ]; [| left; reflexivity].
  unfold GoalsCollection.attempt_or.
  destruct (GoalsCollection.create_throws faults) as [[msg | | ] | ]; try (left; reflexivity).
  right. exists userId, validated, deadline. split; [exact Hauth |]. split; reflexivity.
Qed.

(** X2. No handler writes to the database for a request it has not
    authenticated: whenever the update or deletion of a goal, the creation
    of a progress entry or the creation of a goal has changed the database,
    the session token of the request verified and carried a user id. *)
Theorem writes_require_authentication
    (env : Env) (faults : GoalsCollection.Faults) (request : Request) (goalId : string)
    (w : World) :
  (db (world_after (GoalItem.PUT env request goalId) w) <> db w ->
   exists userId, authenticated_for_goal env request userId)
  /\ (db (world_after (GoalItem.DELETE env request goalId) w) <> db w ->
      exists userId, authenticated_for_goal env request userId)
  /\ (db (world_after (Progress.POST env request) w) <> db w ->
      exists userId, authenticated_for_progress env request userId)
  /\ (db (world_after (GoalsCollection.POST env faults request) w) <> db w ->
      exists userId, authenticated_for_goals env request userId).
Proof.
  split; [| split; [| split]]; intros Hchanged.
  - destruct (PUT_db env request goalId w) as [Hsame | [userId [u [Hauth _]]]];
      [contradiction | eauto].
  - destruct (DELETE_db env request goalId w) as [Hsame | [userId [Hauth _]]];
      [contradiction | eauto].
  - destruct (progress_POST_db env request w) as [Hsame | [userId [e [Hauth _]]]];
      [contradiction | eauto].
  - destruct (goals_POST_db env faults request w) as [Hsame | [userId [v [dl [Hauth _]]]]];
      [contradiction | eauto].
Qed.


(** *** Isolation between users *)

Lemma update_first_map {A : Type} (key : Goal -> A) (p : Goal -> bool) (f : Goal -> Goal)
    (l : list Goal) :
  (forall g, key (f g) = key g) ->
  map key (snd (update_first p f l)) = map key l.
Proof.
  intros Hkey. induction l as [ | g rest IH]; cbn; [reflexivity |].
  destruct (p g); cbn.
  - rewrite Hkey. reflexivity.
  - destruct (update_first p f rest) as [found rest']. cbn in *. rewrite IH. reflexivity.
Qed.

Lemma update_first_keeps (p : Goal -> bool) (f : Goal -> Goal) (l : list Goal) (g : Goal) :
  In g l -> In g (snd (update_first p f l)) \/ p g = true.
Proof.
  induction l as [ | h rest IH]; cbn; [contradiction |].
  intros [-> | Hin].
  - destruct (p g) eqn:Hp; [right; reflexivity |].
    left. destruct (update_first p f rest). left. reflexivity.
  - destruct (p h).
    + left. right. exact Hin.
    + destruct (IH Hin) as [Hk | Hp]; [| right; exact Hp].
      left. destruct (update_first p f rest). right. exact Hk.
Qed.

(** X3. An update never touches what it should not: whatever the request,
    after [PUT] every goal has the identifier, the owner and the creation
    time it had, progress entries and users are as before, and any goal
    that is no longer in the collection unchanged is the one the
    requested id spells and belongs to the authenticated caller. *)
Theorem put_changes_only_the_callers_goal
    (env : Env) (request : Request) (goalId : string) (w : World) :
  let after := db (world_after (GoalItem.PUT env request goalId) w) in
  map goal_id (goals after) = map goal_id (goals (db w))
  /\ map goal_userId (goals after) = map goal_userId (goals (db w))
  /\ map goal_createdAt (goals after) = map goal_createdAt (goals (db w))
  /\ progress after = progress (db w)
  /\ users after = users (db w)
  /\ (forall g, In g (goals (db w)) ->
                In g (goals after)
                \/ (same_id (goal_id g) goalId
                    /\ exists userId, authenticated_for_goal env request userId
                                      /\ same_id (goal_userId g) userId)).
Proof.
  cbv zeta.
  destruct (PUT_db env request goalId w) as [Hsame | [userId [u [Hauth Hdb]]]].
  - rewrite Hsame. repeat split; auto.
  - rewrite Hdb. unfold GoalModel_findOneAndUpdate.
    pose proof (update_first_map goal_id (goal_matches goalId userId)
                  (apply_update (now env) u) (goals (db w)) (fun g => eq_refl)) as Hid.
    pose proof (update_first_map goal_userId (goal_matches goalId userId)
                  (apply_update (now env) u) (goals (db w)) (fun g => eq_refl)) as Hown.
    pose proof (update_first_map goal_createdAt (goal_matches goalId userId)
                  (apply_update (now env) u) (goals (db w)) (fun g => eq_refl)) as Hcre.
    pose proof (update_first_keeps (goal_matches goalId userId)
                  (apply_update (now env) u) (goals (db w))) as Hkeep.
    destruct (update_first (goal_matches goalId userId) (apply_update (now env) u)
                (goals (db w))) as [found goals'].
    cbn in *. repeat split; auto.
    intros g Hin. destruct (Hkeep g Hin) as [Hk | Hm]; [left; exact Hk |].
    right. apply goal_matches_spec in Hm. destruct Hm as [Hid' Hu].
    split; [exact Hid' |]. exists userId. split; [exact Hauth | exact Hu].
Qed.

Lemma remove_first_keeps (p : Goal -> bool) (l : list Goal) (g : Goal) :
  In g l -> In g (snd (remove_first p l)) \/ p g = true.
Proof.
  induction l as [ | h rest IH]; cbn; [contradiction |].
  intros [-> | Hin].
  - destruct (p g) eqn:Hp; [right; reflexivity |].
    left. destruct (remove_first p rest). left. reflexivity.
  - destruct (p h).
    + left. exact Hin.
    + destruct (IH Hin) as [Hk | Hp]; [| right; exact Hp].
      left. destruct (remove_first p rest). right. exact Hk.
Qed.

Lemma remove_first_incl (p : Goal -> bool) (l : list Goal) :
  incl (snd (remove_first p l)) l.
Proof.
  induction l as [ | h rest IH]; cbn; [intros x Hx; exact Hx |].
  destruct (p h).
  - intros x Hx. right. exact Hx.
  - destruct (remove_first p rest) as [n rest']. cbn in *.
    intros x [-> | Hx]; [left; reflexivity | right; exact (IH x Hx)].
Qed.

Lemma remove_first_shrinks (p : Goal -> bool) (l : list Goal) :
  List.length l <= S (List.length (snd (remove_first p l))).
Proof.
  induction l as [ | h rest IH]; cbn; [lia |].
  destruct (p h); cbn; [lia |].
  destruct (remove_first p rest) as [n rest']. cbn in *. lia.
Qed.

Lemma find_owned (d : Db) (goalId userId : ObjectId) :
  fst (GoalModel_deleteOne goalId userId d) = 1%Z -> owns d userId goalId.
Proof.
  unfold GoalModel_deleteOne. intros Hone.
  destruct (find (goal_matches goalId userId) (goals d)) as [g | ] eqn:Hfind.
  - apply find_some in Hfind. destruct Hfind as [Hin Hm].
    apply goal_matches_spec in Hm. exists g. tauto.
  - rewrite (remove_first_none _ _ Hfind) in Hone. discriminate Hone.
Qed.

(** X4. A deletion never reaches beyond the caller's goal: whatever the
    request, [DELETE] removes at most one goal, and a goal it removes is
    the one the requested id spells and belongs to the authenticated
    caller; it adds nothing; a progress entry it removes refers to that
    goal, and then the caller owned it; users are as before. *)
Theorem delete_removes_only_the_callers_goal
    (env : Env) (request : Request) (goalId : string) (w : World) :
  let after := db (world_after (GoalItem.DELETE env request goalId) w) in
  (forall g, In g (goals (db w)) ->
             In g (goals after)
             \/ (same_id (goal_id g) goalId
                 /\ exists userId, authenticated_for_goal env request userId
                                   /\ same_id (goal_userId g) userId))
  /\ incl (goals after) (goals (db w))
  /\ List.length (goals (db w)) <= S (List.length (goals after))
  /\ (forall p, In p (progress (db w)) ->
                In p (progress after)
                \/ (same_id (progress_goalId p) goalId
                    /\ exists userId, authenticated_for_goal env request userId
                                      /\ owns (db w) userId goalId))
  /\ incl (progress after) (progress (db w))
  /\ users after = users (db w).
Proof.
  cbv zeta.
  destruct (DELETE_db env request goalId w) as [Hsame | [userId [Hauth [Hone Hdb]]]].
  - rewrite Hsame. repeat split; auto using incl_refl.
  - pose proof (find_owned _ _ _ Hone) as Howns.
    assert (Hgoals : goals (db (world_after (GoalItem.DELETE env request goalId) w))
                     = snd (remove_first (goal_matches goalId userId) (goals (db w)))).
    { destruct Hdb as [-> | ->]; unfold GoalModel_deleteOne;
        destruct (remove_first (goal_matches goalId userId) (goals (db w))); reflexivity. }
    assert (Husers : users (db (world_after (GoalItem.DELETE env request goalId) w))
                     = users (db w)).
    { destruct Hdb as [-> | ->]; unfold GoalModel_deleteOne;
        destruct (remove_first (goal_matches goalId userId) (goals (db w))); reflexivity. }
    assert (Hprogress : progress (db (world_after (GoalItem.DELETE env request goalId) w))
                        = progress (db w)
                        \/ progress (db (world_after (GoalItem.DELETE env request goalId) w))
                           = filter (fun p => negb (of_goal goalId p)) (progress (db w))).
    { destruct Hdb as [-> | ->]; [left | right]; unfold GoalModel_deleteOne;
        destruct (remove_first (goal_matches goalId userId) (goals (db w))); reflexivity. }
    rewrite Hgoals, Husers.
    split; [| split; [apply remove_first_incl | split; [apply remove_first_shrinks | split; [| split]]]].
    + intros g Hin.
      destruct (remove_first_keeps (goal_matches goalId userId) _ g Hin) as [Hk | Hm];
        [left; exact Hk |].
      right. apply goal_matches_spec in Hm. destruct Hm as [Hid Hu].
      split; [exact Hid |]. exists userId. split; [exact Hauth | exact Hu].
    + intros p Hin. destruct Hprogress as [-> | ->]; [left; exact Hin |].
      destruct (of_goal goalId p) eqn:Hof.
      * right. split; [apply of_goal_spec; exact Hof | eauto].
      * left. apply filter_In. split; [exact Hin |]. rewrite Hof. reflexivity.
    + destruct Hprogress as [-> | ->]; [apply incl_refl |].
      intros p Hp. apply filter_In in Hp. tauto.
    + reflexivity.
Qed.

End GoalEndpointFacts.

(** ** Reading back what was written *)

Section RoundTrips.

Context {L : Libraries}.

Import Store Schema.

Lemma insert_by_date_perm (p : ProgressEntry) (l : list ProgressEntry) :
  Permutation (insert_by_date p l) (p :: l).
Proof.
  induction l as [ | q rest IH]; cbn; [apply Permutation_refl |].
  destruct (progress_date q <? progress_date p)%Z; [apply Permutation_refl |].
  apply perm_trans with (q :: p :: rest); [apply perm_skip; exact IH | apply perm_swap].
Qed.

Lemma sort_newest_first_perm (l : list ProgressEntry) :
  Permutation (sort_newest_first l) l.
Proof.
  induction l as [ | p rest IH]; cbn; [apply Permutation_refl |].
  apply perm_trans with (p :: sort_newest_first rest);
    [apply insert_by_date_perm | apply perm_skip; exact IH].
Qed.

Lemma insert_by_date_sorted (p : ProgressEntry) (l : list ProgressEntry) :
  newest_first l -> newest_first (insert_by_date p l).
Proof.
  unfold newest_first. induction l as [ | q rest IH]; cbn; intros Hs.
  - constructor; [constructor | constructor].
  - apply StronglySorted_inv in Hs. destruct Hs as [Hrest Hq].
    destruct (progress_date q <? progress_date p)%Z eqn:Hlt.
    + apply Z.ltb_lt in Hlt. constructor.
      * constructor; assumption.
      * constructor; [lia |].
        apply Forall_forall. intros a Ha.
        pose proof (proj1 (Forall_forall _ _) Hq a Ha) as Hle. cbn in Hle. lia.
    + apply Z.ltb_ge in Hlt. constructor; [exact (IH Hrest) |].
      apply Forall_forall. intros x Hx.
      apply (Permutation_in _ (insert_by_date_perm p rest)) in Hx.
      destruct Hx as [<- | Hx]; [exact Hlt |].
      exact (proj1 (Forall_forall _ _) Hq x Hx).
Qed.

Lemma sort_newest_first_sorted (l : list ProgressEntry) :
  newest_first (sort_newest_first l).
Proof.
  induction l as [ | p rest IH]; cbn; [constructor | apply insert_by_date_sorted; exact IH].
Qed.

(** [GET] in full: what was found, or why not. *)
Lemma GET_cases (env : Env) (request : Request) (goalId : string) (w : World) :
  db (world_after (GoalItem.GET env request goalId) w) = db w
  /\ ((exists code msg, response_of (GoalItem.GET env request goalId) w = failure code msg)
      \/ exists userId g,
          authenticated_for_goal env request userId
          /\ GoalItem.invalid_goalId goalId = false
          /\ find (goal_matches goalId userId) (goals (db w)) = Some g
          /\ response_of (GoalItem.GET env request goalId) w
             = success_data 200
                 (DataGoalDetail g (sort_newest_first (filter (of_goal goalId) (progress (db w)))))).
Proof.
  unfold response_of, world_after, run, GoalItem.GET.
  destruct (GoalItem.invalid_goalId goalId) eqn:Hvalid; [split; [reflexivity | left; do 2 eexists; reflexivity] |].
  unfold bind, connectDB, attempt.
  destruct (throws env ConnectDB); [split; [reflexivity | left; do 2 eexists; reflexivity] |].
  cbn [fst snd]. rewrite same_world.
  destruct (goal_helper_cases env request w) as [[userId [Hauth Hrun]] | [r [w' [Hrun Hdb]]]];
    rewrite Hrun.
  - destruct (throws env GoalFindOne); [split; [reflexivity | left; do 2 eexists; reflexivity] |].
    unfold GoalModel_findOne.
    destruct (find (goal_matches goalId userId) (goals (db w))) as [g | ] eqn:Hg;
      [| split; [reflexivity | left; do 2 eexists; reflexivity]].
    cbn -[String.append sort_newest_first].
    destruct (throws env ProgressFind); [split; [reflexivity | left; do 2 eexists; reflexivity] |].
    cbn -[String.append sort_newest_first].
    split; [reflexivity |]. right. exists userId, g. repeat split; auto.
  - split; [exact Hdb |]. left.
    pose proof (eq_refl (verification_result GoalItem.getVerifiedUserId env request w)) as E.
    unfold verification_result at 2 in E. rewrite Hrun in E. cbn in E.
    revert E. clear.
    unfold verification_result, GoalItem.getVerifiedUserId.
    destruct (cookie_value (cookies request) "access_token") as [[ | c token] | ];
      try (cbn; intros E; injection E as <-; do 2 eexists; reflexivity).
    destruct (JWT_SECRET env) as [[ | c' jwtSecret] | ];
      try (cbn; intros E; injection E as <-; do 2 eexists; reflexivity).
    destruct (jwt_verify (String c token) (String c' jwtSecret)) as [[payload | [[ | | b | x | uid | ] | ]] | e];
      try (cbn; intros E; injection E as <-; do 2 eexists; reflexivity).
    destruct (0 <? String.length uid)%nat; cbn; intros E;
      [discriminate E | injection E as <-; do 2 eexists; reflexivity].
Qed.

(** X5. A successful [GET] of a goal returns a goal of the collection that
    the requested id spells, owned by the authenticated caller, together
    with exactly the progress entries that refer to that goal, newest date
    first.  Identifiers are compared as the store compares them.  [GET]
    never changes the database. *)
Theorem get_returns_the_goal_and_its_history
    (env : Env) (request : Request) (goalId : string) (w : World) :
  db (world_after (GoalItem.GET env request goalId) w) = db w
  /\ (forall g entries,
         response_of (GoalItem.GET env request goalId) w
         = success_data 200 (DataGoalDetail g entries) ->
         In g (goals (db w))
         /\ same_id (goal_id g) goalId
         /\ (exists userId, authenticated_for_goal env request userId
                            /\ same_id (goal_userId g) userId)
         /\ Permutation entries (filter (of_goal goalId) (progress (db w)))
         /\ (forall p, In p entries
                       <-> In p (progress (db w)) /\ same_id (progress_goalId p) goalId)
         /\ newest_first entries).
Proof.
  destruct (GET_cases env request goalId w) as [Hdb Hcases].
  split; [exact Hdb |].
  intros g entries Hok.
  destruct Hcases as [[code [msg Hfail]] | [userId [g0 [Hauth [Hvalid [Hfind Hresp]]]]]].
  - rewrite Hfail in Hok. discriminate Hok.
  - rewrite Hresp in Hok. injection Hok as <- <-.
    apply find_some in Hfind. destruct Hfind as [Hin Hm].
    apply goal_matches_spec in Hm. destruct Hm as [Hid Hu].
    split; [exact Hin |]. split; [exact Hid |].
    split; [exists userId; split; [exact Hauth | exact Hu] |].
    split; [apply sort_newest_first_perm |].
    split; [| apply sort_newest_first_sorted].
    intros p. split.
    + intros Hp. apply (Permutation_in _ (sort_newest_first_perm _)) in Hp.
      apply filter_In in Hp. destruct Hp as [Hp Hof].
      split; [exact Hp | apply of_goal_spec; exact Hof].
    + intros [Hp Hof].
      apply (Permutation_in _ (Permutation_sym (sort_newest_first_perm _))).
      apply filter_In. split; [exact Hp | apply of_goal_spec; exact Hof].
Qed.


Lemma goal_helper_failure (env : Env) (request : Request) (w w' : World) (r : Response) :
  GoalItem.getVerifiedUserId env request w = (inl r, w') ->
  exists code msg, r = failure code msg /\ (code = 401 \/ code = 500)%Z.
Proof.
  unfold GoalItem.getVerifiedUserId.
  destruct (cookie_value (cookies request) "access_token") as [[ | c token] | ];
    try (cbn; intros E; injection E as <- _; do 2 eexists; split; [reflexivity | auto]).
  destruct (JWT_SECRET env) as [[ | c' jwtSecret] | ];
    try (cbn; intros E; injection E as <- _; do 2 eexists; split; [reflexivity | auto]).
  destruct (jwt_verify (String c token) (String c' jwtSecret)) as [[payload | [[ | | b | x | uid | ] | ]] | e];
    try (cbn; intros E; injection E as <- _; do 2 eexists; split; [reflexivity | auto]).
  destruct (0 <? String.length uid)%nat; cbn; intros E;
    [discriminate E | injection E as <- _; do 2 eexists; split; [reflexivity | auto]].
Qed.

Lemma update_first_found (p : Goal -> bool) (f : Goal -> Goal) (l l' : list Goal) (g' : Goal) :
  (forall x, p (f x) = p x) ->
  update_first p f l = (Some g', l') ->
  find p l' = Some g'.
Proof.
  intros Hp. revert l'. induction l as [ | h rest IH]; cbn; intros l' H; [discriminate H |].
  destruct (p h) eqn:Hh.
  - injection H as <- <-. cbn. rewrite Hp, Hh. reflexivity.
  - destruct (update_first p f rest) as [found rest'].
    injection H as -> <-. cbn. rewrite Hh. apply IH. reflexivity.
Qed.

(** [PUT] in full. *)
Lemma PUT_cases (env : Env) (request : Request) (goalId : string) (w : World) :
  (forall g, response_of (GoalItem.PUT env request goalId) w <> success_data 200 (DataGoal g))
  \/ exists userId update g,
      authenticated_for_goal env request userId
      /\ GoalItem.invalid_goalId goalId = false
      /\ GoalModel_findOneAndUpdate (now env) goalId userId update (db w)
         = (Some g, db (world_after (GoalItem.PUT env request goalId) w))
      /\ response_of (GoalItem.PUT env request goalId) w = success_data 200 (DataGoal g).
Proof.
  unfold response_of, world_after, run, GoalItem.PUT.
  destruct (GoalItem.invalid_goalId goalId) eqn:Hvalid;
    [left; intros g H; discriminate H |].
  unfold bind, connectDB, attempt.
  destruct (throws env ConnectDB); [left; intros g H; discriminate H |].
  cbn [fst snd]. rewrite same_world.
  destruct (goal_helper_cases env request w) as [[userId [Hauth Hrun]] | [r [w' [Hrun Hdb]]]];
    rewrite Hrun.
  2: { left. destruct (goal_helper_failure _ _ _ _ _ Hrun) as [code [msg [-> _]]].
       intros g H; discriminate H. }
  destruct (json request) as [rawBody | ]; [| left; intros g H; discriminate H].
  destruct (updateGoalSchema rawBody) as [validated | ]; [| left; intros g H; discriminate H].
  destruct (GoalItem.keys_length (GoalItem.prepare_update validated) =? 0)%nat;
    [left; intros g H; discriminate H |].
  destruct (throws env GoalFindOneAndUpdate) as [[msg | | ] | ];
    try (left; intros g H; discriminate H).
  destruct (GoalModel_findOneAndUpdate (now env) goalId userId
              (GoalItem.prepare_update validated) (db w)) as [[updated | ] d'] eqn:Hupd;
    [| left; intros g H; discriminate H].
  right. exists userId, (GoalItem.prepare_update validated), updated.
  split; [exact Hauth |]. split; [reflexivity |]. split; [exact Hupd | reflexivity].
Qed.

Lemma goal_matches_same_user (goalId userId userId' : string) (g : Goal) :
  same_id userId userId' ->
  goal_matches goalId userId g = goal_matches goalId userId' g.
Proof.
  unfold goal_matches, same_id. intros ->. reflexivity.
Qed.

Lemma find_goal_same_user (goalId userId userId' : string) (l : list Goal) :
  same_id userId userId' ->
  find (goal_matches goalId userId) l = find (goal_matches goalId userId') l.
Proof.
  intros Hsame. induction l as [ | h rest IH]; cbn; [reflexivity |].
  rewrite (goal_matches_same_user goalId _ _ h Hsame), IH. reflexivity.
Qed.

(** X6. What [PUT] answers is what [GET] then finds: after an update that
    was answered 200 with a goal, a [GET] of the same id by a caller whose
    identifier is the goal's owner, the storage operations going through,
    is answered 200 with that same goal.  The goal is the one the id
    spells, and it belongs to the caller who updated it. *)
Theorem put_then_get_returns_the_update
    (env env' : Env) (request request' : Request) (goalId : string) (w : World) (g : Goal)
    (reader : string) :
  response_of (GoalItem.PUT env request goalId) w = success_data 200 (DataGoal g) ->
  authenticated_for_goal env' request' reader ->
  same_id reader (goal_userId g) ->
  throws env' ConnectDB = None ->
  throws env' GoalFindOne = None ->
  throws env' ProgressFind = None ->
  same_id (goal_id g) goalId
  /\ (exists userId, authenticated_for_goal env request userId
                     /\ same_id (goal_userId g) userId)
  /\ exists entries,
      response_of (GoalItem.GET env' request' goalId)
                  (world_after (GoalItem.PUT env request goalId) w)
      = success_data 200 (DataGoalDetail g entries).
Proof.
  intros Hput Hreader Hsame Hconn Hfind Hprog.
  destruct (PUT_cases env request goalId w)
    as [Hno | [userId [u [g0 [Hauth [Hvalid [Hupd Hresp]]]]]]];
    [exfalso; exact (Hno g Hput) |].
  rewrite Hresp in Hput. injection Hput as ->.
  set (w1 := world_after (GoalItem.PUT env request goalId) w) in *.
  unfold GoalModel_findOneAndUpdate in Hupd.
  destruct (update_first (goal_matches goalId userId) (apply_update (now env) u) (goals (db w)))
    as [found goals'] eqn:Hfirst.
  injection Hupd as -> Hdb.
  pose proof (update_first_found (goal_matches goalId userId) (apply_update (now env) u)
                _ _ _ (fun x => eq_refl) Hfirst) as Hfound.
  pose proof (find_some _ _ Hfound) as [_ Hm].
  apply goal_matches_spec in Hm. destruct Hm as [Hid Hu].
  split; [exact Hid |]. split; [exists userId; split; [exact Hauth | exact Hu] |].
  exists (sort_newest_first (filter (of_goal goalId) (progress (db w1)))).
  unfold response_of, run, GoalItem.GET. rewrite Hvalid.
  unfold bind, connectDB, attempt. rewrite Hconn. cbn [fst snd].
  rewrite same_world.
  rewrite (goal_helper_success _ _ _ w1 (Hreader w1)).
  rewrite Hfind. unfold GoalModel_findOne.
  rewrite <- Hdb. cbn [goals].
  rewrite (find_goal_same_user goalId reader userId goals'
             (same_id_trans _ _ _ Hsame Hu)), Hfound.
  cbn -[String.append sort_newest_first]. rewrite Hprog.
  cbn -[String.append sort_newest_first]. reflexivity.
Qed.


(** [DELETE] in full. *)
Lemma DELETE_cases (env : Env) (request : Request) (goalId : string) (w : World) :
  (db (world_after (GoalItem.DELETE env request goalId) w) = db w
   /\ status (response_of (GoalItem.DELETE env request goalId) w) <> 204%Z)
  \/ exists userId,
      authenticated_for_goal env request userId
      /\ GoalItem.invalid_goalId goalId = false
      /\ fst (remove_first (goal_matches goalId userId) (goals (db w))) = 1%Z
      /\ response_of (GoalItem.DELETE env request goalId) w = GoalItem.no_content
      /\ db (world_after (GoalItem.DELETE env request goalId) w)
         = match throws env ProgressDeleteMany with
           | Some _ => snd (GoalModel_deleteOne goalId userId (db w))
           | None => snd (ProgressModel_deleteMany goalId
                            (snd (GoalModel_deleteOne goalId userId (db w))))
           end.
Proof.
  unfold response_of, world_after, run, GoalItem.DELETE.
  destruct (GoalItem.invalid_goalId goalId) eqn:Hvalid;
    [left; split; [reflexivity | discriminate] |].
  unfold bind, connectDB, attempt.
  destruct (throws env ConnectDB); [left; split; [reflexivity | discriminate] |].
  cbn [fst snd]. rewrite same_world.
  destruct (goal_helper_cases env request w) as [[userId [Hauth Hrun]] | [r [w' [Hrun Hdb]]]];
    rewrite Hrun.
  2: { left. destruct (goal_helper_failure _ _ _ _ _ Hrun) as [code [msg [-> Hcode]]].
       split; [exact Hdb |]. cbn. lia. }
  destruct (throws env GoalDeleteOne); [left; split; [reflexivity | discriminate] |].
  unfold GoalModel_deleteOne.
  destruct (remove_first_cases (goal_matches goalId userId) (goals (db w))) as [Hnone | Hone].
  - left. rewrite Hnone. cbn. split; [| discriminate].
    destruct w as [[gs ps us] c]. reflexivity.
  - right. exists userId. split; [exact Hauth |]. split; [reflexivity |].
    split; [exact Hone |].
    destruct (remove_first (goal_matches goalId userId) (goals (db w))) as [n rest].
    cbn [fst] in Hone. subst n.
    cbn -[String.append].
    destruct (throws env ProgressDeleteMany); split; reflexivity.
Qed.

Lemma removed_one_has_id (goalId userId : ObjectId) (l : list Goal) :
  fst (remove_first (goal_matches goalId userId) l) = 1%Z ->
  In (castObjectId goalId) (map (fun g => castObjectId (goal_id g)) l).
Proof.
  intros Hone.
  destruct (find (goal_matches goalId userId) l) as [g | ] eqn:Hfind.
  - apply find_some in Hfind. destruct Hfind as [Hin Hm].
    apply goal_matches_spec in Hm. destruct Hm as [Hid _].
    rewrite <- Hid. apply (in_map (fun g => castObjectId (goal_id g))). exact Hin.
  - rewrite (remove_first_none _ _ Hfind) in Hone. discriminate Hone.
Qed.

(** With unique identifiers, the goal removed was the only one with its
    id. *)
Lemma removed_id_is_gone (goalId userId : ObjectId) (l : list Goal) :
  NoDup (map (fun g => castObjectId (goal_id g)) l) ->
  fst (remove_first (goal_matches goalId userId) l) = 1%Z ->
  ~ In (castObjectId goalId)
       (map (fun g => castObjectId (goal_id g))
            (snd (remove_first (goal_matches goalId userId) l))).
Proof.
  induction l as [ | h rest IH]; cbn; intros Hnd Hone; [discriminate Hone |].
  apply NoDup_cons_iff in Hnd. destruct Hnd as [Hh Hnd].
  destruct (goal_matches goalId userId h) eqn:Hm.
  - apply goal_matches_spec in Hm. destruct Hm as [Hid _]. rewrite <- Hid. exact Hh.
  - assert (Hone' : fst (remove_first (goal_matches goalId userId) rest) = 1%Z).
    { destruct (remove_first (goal_matches goalId userId) rest). exact Hone. }
    specialize (IH Hnd Hone').
    pose proof (removed_one_has_id _ _ _ Hone') as Hin.
    destruct (remove_first (goal_matches goalId userId) rest) as [n rest'].
    cbn in *. intros [Heq | Hrest]; [| exact (IH Hrest)].
    apply Hh. rewrite Heq. exact Hin.
Qed.

(** X7. A deleted goal is gone for everybody: with unique goal ids, after
    a [DELETE] answered 204 no goal left is the one the id spells, a [GET]
    of that id by any authenticated user, the storage operations going
    through, is answered 404, and so is a second [DELETE]. *)
Theorem delete_then_get_is_not_found
    (env env' : Env) (request request' : Request) (goalId : string) (w : World)
    (reader : ObjectId) :
  unique_goal_ids (db w) ->
  status (response_of (GoalItem.DELETE env request goalId) w) = 204%Z ->
  authenticated_for_goal env' request' reader ->
  throws env' ConnectDB = None ->
  throws env' GoalFindOne = None ->
  throws env' GoalDeleteOne = None ->
  let after := world_after (GoalItem.DELETE env request goalId) w in
  (forall g, In g (goals (db after)) -> ~ same_id (goal_id g) goalId)
  /\ response_of (GoalItem.GET env' request' goalId) after = GoalItem.not_found
  /\ response_of (GoalItem.DELETE env' request' goalId) after = GoalItem.not_found.
Proof.
  intros Huniq Hdel Hreader Hconn Hfind Hdelete. cbv zeta.
  destruct (DELETE_cases env request goalId w)
    as [[_ Hno] | [userId [Hauth [Hvalid [Hone [Hresp Hdb]]]]]];
    [contradiction |].
  set (w1 := world_after (GoalItem.DELETE env request goalId) w) in *.
  assert (Hgoals : goals (db w1)
                   = snd (remove_first (goal_matches goalId userId) (goals (db w)))).
  { rewrite Hdb. unfold GoalModel_deleteOne.
    destruct (throws env ProgressDeleteMany);
      destruct (remove_first (goal_matches goalId userId) (goals (db w))); reflexivity. }
  pose proof (removed_id_is_gone goalId userId (goals (db w)) Huniq Hone) as Hgone.
  rewrite <- Hgoals in Hgone.
  assert (Hnone : forall g, In g (goals (db w1)) -> ~ same_id (goal_id g) goalId).
  { intros g Hin Hid. apply Hgone. rewrite <- Hid.
    apply (in_map (fun g => castObjectId (goal_id g))). exact Hin. }
  assert (Hnot : ~ owns (db w1) reader goalId).
  { intros [g [Hin [Hid _]]]. exact (Hnone g Hin Hid). }
  split; [exact Hnone |]. split.
  - apply (GET_not_owned env' request' goalId reader w1); auto.
  - apply (DELETE_not_owned env' request' goalId reader w1); auto.
Qed.

(** [POST /api/progress] in full. *)
Lemma progress_POST_cases (env : Env) (request : Request) (w : World) :
  (forall entry, response_of (Progress.POST env request) w
                 <> success_data 201 (DataProgressEntry entry))
  \/ exists userId validatedData date,
      authenticated_for_progress env request userId
      /\ ObjectId_isValid (log_goalId validatedData) = true
      /\ owns (db w) userId (log_goalId validatedData)
      /\ response_of (Progress.POST env request) w
         = success_data 201
             (DataProgressEntry (Progress.new_entry env userId validatedData date))
      /\ db (world_after (Progress.POST env request) w)
         = snd (ProgressModel_create (Progress.new_entry env userId validatedData date) (db w)).
Proof.
  unfold response_of, world_after, run, Progress.POST.
  unfold bind, connectDB, attempt.
  destruct (throws env ConnectDB); [left; intros g H; discriminate H |].
  cbn [fst snd]. rewrite same_world.
  destruct (progress_helper_cases env request w) as [[userId [Hauth Hrun]] | [r [w' [Hrun Hdb]]]];
    rewrite Hrun.
  2: { left. intros entry.
       pose proof (goal_and_progress_helpers_agree env request w) as Hagree.
       unfold verification_result in Hagree. rewrite Hrun in Hagree. cbn in Hagree.
       destruct (GoalItem.getVerifiedUserId env request w) as [res w2] eqn:Hgoal.
       cbn in Hagree. subst res.
       destruct (goal_helper_failure _ _ _ _ _ Hgoal) as [code [msg [-> _]]].
       intros H; discriminate H. }
  destruct (json request) as [rawBody | ]; [| left; intros g H; discriminate H].
  destruct (logProgressSchema rawBody) as [validatedData | ] eqn:Hschema;
    [| left; intros g H; discriminate H].
  destruct (throws env GoalFindOne) as [[msg | | ] | ];
    try (left; intros g H; discriminate H).
  unfold GoalModel_findOne.
  destruct (find (goal_matches (log_goalId validatedData) userId) (goals (db w)))
    as [g | ] eqn:Hg; [| left; intros e H; discriminate H].
  cbn -[String.append Progress.new_entry].
  destruct (Date_parse (log_date validatedData)) as [date | ];
    [| left; intros e H; discriminate H].
  destruct (throws env ProgressCreate) as [[msg | | ] | ];
    try (left; intros e H; discriminate H).
  right. exists userId, validatedData, date.
  split; [exact Hauth |].
  split.
  { revert Hschema. unfold logProgressSchema.
    destruct rawBody as [ | b | x | s | items | fields]; try discriminate.
    destruct (field fields "goalId") as [[ | b | x | gid | items | fs] | ]; try discriminate.
    destruct (field fields "value") as [[ | b | x | s | items | fs] | ]; try discriminate.
    destruct (field fields "date") as [[ | b | x' | dt | items | fs] | ]; try discriminate.
    destruct (optional_trimmed (field fields "notes")); try discriminate.
    destruct (ObjectId_isValid gid) eqn:Hgid; cbn; [| discriminate].
    destruct (is_finite x && zod_datetime_offset dt
              && only_keys ["goalId"; "value"; "date"; "notes"] fields); [| discriminate].
    intros H. injection H as <-. exact Hgid. }
  split.
  { apply find_some in Hg. destruct Hg as [Hin Hm].
    apply goal_matches_spec in Hm. exists g. tauto. }
  split; reflexivity.
Qed.

(** X8. A logged entry shows up in the goal's history: after a progress
    creation answered 201 with an entry, a [GET] of the entry's goal by the
    entry's user, the storage operations going through, is answered 200
    with a history that contains the entry.  The entry is recorded under
    the identifier of the authenticated caller and for a goal the caller
    owns. *)
Theorem logged_progress_is_in_the_history
    (env env' : Env) (request request' : Request) (w : World) (entry : ProgressEntry) :
  response_of (Progress.POST env request) w = success_data 201 (DataProgressEntry entry) ->
  GoalItem.invalid_goalId (progress_goalId entry) = false ->
  authenticated_for_goal env' request' (progress_userId entry) ->
  throws env' ConnectDB = None ->
  throws env' GoalFindOne = None ->
  throws env' ProgressFind = None ->
  (exists userId, authenticated_for_progress env request userId
                  /\ progress_userId entry = castObjectId userId)
  /\ owns (db w) (progress_userId entry) (progress_goalId entry)
  /\ exists g entries,
      response_of (GoalItem.GET env' request' (progress_goalId entry))
                  (world_after (Progress.POST env request) w)
      = success_data 200 (DataGoalDetail g entries)
      /\ In entry entries.
Proof.
  intros Hpost Hok Hreader Hconn Hfind Hprog.
  destruct (progress_POST_cases env request w)
    as [Hno | [userId [validatedData [date [Hauth [Hvalid [Howns [Hresp Hdb]]]]]]]];
    [exfalso; exact (Hno entry Hpost) |].
  rewrite Hresp in Hpost. injection Hpost as <-.
  set (entry := Progress.new_entry env userId validatedData date) in *.
  set (w1 := world_after (Progress.POST env request) w) in *.
  change (progress_userId entry) with (castObjectId userId) in *.
  change (progress_goalId entry) with (castObjectId (log_goalId validatedData)) in *.
  assert (Howns' : owns (db w) (castObjectId userId)
                        (castObjectId (log_goalId validatedData))).
  { apply (owns_same_id _ userId _ (log_goalId validatedData));
      [apply same_id_sym, same_id_of_cast | apply same_id_sym, same_id_of_cast | exact Howns]. }
  split; [exists userId; split; [exact Hauth | reflexivity] |].
  split; [exact Howns' |].
  destruct (owns_found _ _ _ Howns') as [g Hg].
  exists g, (sort_newest_first
               (filter (of_goal (castObjectId (log_goalId validatedData))) (progress (db w1)))).
  split.
  - unfold response_of, run, GoalItem.GET. rewrite Hok.
    unfold bind, connectDB, attempt. rewrite Hconn. cbn [fst snd].
    rewrite same_world.
    rewrite (goal_helper_success _ _ _ w1 (Hreader w1)).
    rewrite Hfind. unfold GoalModel_findOne.
    rewrite Hdb. cbn [goals snd ProgressModel_create]. rewrite Hg.
    cbn -[String.append sort_newest_first]. rewrite Hprog.
    cbn -[String.append sort_newest_first]. reflexivity.
  - apply (Permutation_in _ (Permutation_sym (sort_newest_first_perm _))).
    apply filter_In. split.
    + rewrite Hdb. cbn. apply in_or_app. right. left. reflexivity.
    + apply of_goal_spec. apply same_id_refl.
Qed.

End RoundTrips.

(** ** Referential integrity of progress entries *)

Section Integrity.

Context {L : Libraries}.

Import Store Schema.

Lemma update_first_counterpart (p : Goal -> bool) (f : Goal -> Goal) (l : list Goal) (g : Goal) :
  In g l -> In g (snd (update_first p f l)) \/ In (f g) (snd (update_first p f l)).
Proof.
  induction l as [ | h rest IH]; cbn; [contradiction |].
  intros [-> | Hin].
  - destruct (p g); [right; left; reflexivity |].
    destruct (update_first p f rest). left. left. reflexivity.
  - destruct (p h); [left; right; exact Hin |].
    destruct (IH Hin) as [Hk | Hk]; destruct (update_first p f rest);
      [left | right]; right; exact Hk.
Qed.

(** X9. The handlers keep progress entries attached to goals: if every
    progress entry belongs to a goal of the user it is recorded for, this
    still holds after a progress creation, after a goal update and after a
    goal creation, whatever the request, and after a goal deletion whose
    cascade went through. *)
Theorem entries_keep_their_goals
    (env : Env) (faults : GoalsCollection.Faults) (request : Request) (goalId : string)
    (w : World) :
  entries_have_goals (db w) ->
  entries_have_goals (db (world_after (Progress.POST env request) w))
  /\ entries_have_goals (db (world_after (GoalItem.PUT env request goalId) w))
  /\ entries_have_goals (db (world_after (GoalsCollection.POST env faults request) w))
  /\ (throws env ProgressDeleteMany = None ->
      entries_have_goals (db (world_after (GoalItem.DELETE env request goalId) w))).
Proof.
  intros Hinv. split; [| split; [| split]].
  - destruct (progress_POST_db env request w)
      as [-> | [userId [entry [Hauth [Huser [Howns ->]]]]]]; [exact Hinv |].
    intros p Hp. cbn in Hp. apply in_app_or in Hp.
    destruct Hp as [Hp | [<- | []]].
    + destruct (Hinv p Hp) as [g Hg]. exists g. exact Hg.
    + rewrite Huser. destruct Howns as [g [Hin [Hid Hu]]]. exists g.
      split; [exact Hin |]. split; [exact Hid | apply same_id_cast; exact Hu].
  - destruct (PUT_db env request goalId w) as [-> | [userId [u [Hauth ->]]]]; [exact Hinv |].
    intros p Hp.
    assert (Hp' : In p (progress (db w))).
    { revert Hp. unfold GoalModel_findOneAndUpdate.
      destruct (update_first (goal_matches goalId userId) (apply_update (now env) u)
                  (goals (db w))). exact (fun H => H). }
    destruct (Hinv p Hp') as [g [Hin [Hid Hu]]].
    pose proof (update_first_counterpart (goal_matches goalId userId)
                  (apply_update (now env) u) (goals (db w)) g Hin) as Hc.
    unfold GoalModel_findOneAndUpdate.
    destruct (update_first (goal_matches goalId userId) (apply_update (now env) u)
                (goals (db w))) as [found goals'].
    cbn in *. destruct Hc as [Hc | Hc].
    + exists g. tauto.
    + exists (apply_update (now env) u g). split; [exact Hc |]. split; assumption.
  - destruct (goals_POST_db env faults request w)
      as [-> | [userId [v [dl [Hauth [_ ->]]]]]]; [exact Hinv |].
    intros p Hp. cbn in Hp. destruct (Hinv p Hp) as [g [Hin Hg]].
    exists g. split; [cbn; apply in_or_app; left; exact Hin | exact Hg].
  - intros Hcascade.
    destruct (DELETE_cases env request goalId w)
      as [[-> _] | [userId [Hauth [Hvalid [Hone [Hresp ->]]]]]]; [exact Hinv |].
    rewrite Hcascade. unfold GoalModel_deleteOne.
    pose proof (remove_first_keeps (goal_matches goalId userId) (goals (db w))) as Hkeep.
    destruct (remove_first (goal_matches goalId userId) (goals (db w))) as [n rest].
    cbn in *. intros p Hp. apply filter_In in Hp. destruct Hp as [Hp Hof].
    destruct (Hinv p Hp) as [g [Hin [Hid Hu]]].
    exists g. split; [| split; assumption].
    destruct (Hkeep g Hin) as [Hk | Hm]; [exact Hk |].
    apply goal_matches_spec in Hm. destruct Hm as [Hgid _].
    assert (Ht : of_goal goalId p = true).
    { apply of_goal_spec.
      apply same_id_trans with (goal_id g); [apply same_id_sym; exact Hid | exact Hgid]. }
    rewrite Ht in Hof. discriminate Hof.
Qed.

(** X10. A failed cascade leaves orphans: with unique goal ids, when a
    [DELETE] is answered 204 but the deletion of the progress entries
    failed, every progress entry of the deleted goal is still stored and
    refers to a goal that no longer exists. *)
Theorem failed_cascade_leaves_orphans
    (env : Env) (request : Request) (goalId : string) (w : World) (e : DbError) :
  unique_goal_ids (db w) ->
  status (response_of (GoalItem.DELETE env request goalId) w) = 204%Z ->
  throws env ProgressDeleteMany = Some e ->
  let after := db (world_after (GoalItem.DELETE env request goalId) w) in
  progress after = progress (db w)
  /\ (forall p, In p (progress (db w)) -> same_id (progress_goalId p) goalId ->
                In p (progress after)
                /\ forall userId, ~ owns after userId (progress_goalId p))
  /\ (has_entries (db w) goalId -> ~ entries_have_goals after).
Proof.
  intros Huniq Hdel Hfail. cbv zeta.
  destruct (DELETE_cases env request goalId w)
    as [[_ Hno] | [userId [Hauth [Hvalid [Hone [Hresp Hdb]]]]]];
    [contradiction |].
  rewrite Hfail in Hdb.
  pose proof (removed_id_is_gone goalId userId (goals (db w)) Huniq Hone) as Hgone.
  rewrite Hdb. unfold GoalModel_deleteOne.
  destruct (remove_first (goal_matches goalId userId) (goals (db w))) as [n rest].
  cbn in *.
  assert (Horphan : forall p, In p (progress (db w)) -> same_id (progress_goalId p) goalId ->
                              In p (progress (db w))
                              /\ forall u, ~ owns {| goals := rest; progress := progress (db w);
                                                     users := users (db w) |}
                                                  u (progress_goalId p)).
  { intros p Hp Hid. split; [exact Hp |].
    intros u [g [Hin [Hg _]]]. cbn in Hin. apply Hgone.
    rewrite <- Hid, <- Hg. apply (in_map (fun g => castObjectId (goal_id g))). exact Hin. }
  split; [reflexivity |]. split; [exact Horphan |].
  intros [p [Hp Hid]] Hinv.
  destruct (Horphan p Hp Hid) as [_ Hnone].
  exact (Hnone _ (Hinv p Hp)).
Qed.

End Integrity.

(** ** Trimming *)

Section TrimFacts.

Lemma trimStart_fixed (s : string) : trimStart (trimStart s) = trimStart s.
Proof.
  induction s as [ | c rest IH]; cbn; [reflexivity |].
  destruct (is_whitespace c) eqn:Hc; [exact IH |].
  cbn. rewrite Hc. reflexivity.
Qed.

Lemma trimEnd_fixed (s : string) : trimEnd (trimEnd s) = trimEnd s.
Proof.
  induction s as [ | c rest IH]; cbn; [reflexivity |].
  destruct (trimEnd rest) as [ | d kept] eqn:Hrest.
  - destruct (is_whitespace c) eqn:Hc; cbn; [reflexivity |].
    rewrite Hc. reflexivity.
  - remember (String d kept) as r eqn:Hr.
    cbn [trimEnd]. rewrite IH. subst r. reflexivity.
Qed.

Lemma trimStart_of_trimEnd (s : string) :
  trimStart s = s -> trimStart (trimEnd s) = trimEnd s.
Proof.
  destruct s as [ | c rest]; [reflexivity |].
  cbn [trimStart]. destruct (is_whitespace c) eqn:Hc.
  - intros H. exfalso.
    assert (Hlen : String.length (trimStart rest) <= String.length rest).
    { clear. induction rest as [ | d r IH]; cbn; [lia |].
      destruct (is_whitespace d); cbn; lia. }
    rewrite H in Hlen. cbn in Hlen. lia.
  - intros _. cbn [trimEnd].
    destruct (trimEnd rest); [rewrite Hc |]; cbn; rewrite Hc; reflexivity.
Qed.

(** Trimming twice is trimming once. *)
Lemma trim_idempotent (s : string) : trim (trim s) = trim s.
Proof.
  unfold trim.
  rewrite (trimStart_of_trimEnd (trimStart s) (trimStart_fixed s)).
  apply trimEnd_fixed.
Qed.

End TrimFacts.

(** ** The goals collection *)

Section GoalsCollectionFacts.

Context {L : Libraries}.

Import Store Schema GoalsCollection.

Lemma insert_by_createdAt_perm (g : Goal) (l : list Goal) :
  Permutation (insert_by_createdAt g l) (g :: l).
Proof.
  induction l as [ | h rest IH]; cbn; [apply Permutation_refl |].
  destruct (goal_createdAt h <? goal_createdAt g)%Z; [apply Permutation_refl |].
  apply perm_trans with (h :: g :: rest); [apply perm_skip; exact IH | apply perm_swap].
Qed.

Lemma sort_newest_created_first_perm (l : list Goal) :
  Permutation (sort_newest_created_first l) l.
Proof.
  induction l as [ | g rest IH]; cbn; [apply Permutation_refl |].
  apply perm_trans with (g :: sort_newest_created_first rest);
    [apply insert_by_createdAt_perm | apply perm_skip; exact IH].
Qed.

Lemma insert_by_createdAt_sorted (g : Goal) (l : list Goal) :
  newest_created_first l -> newest_created_first (insert_by_createdAt g l).
Proof.
  unfold newest_created_first. induction l as [ | h rest IH]; cbn; intros Hs.
  - constructor; [constructor | constructor].
  - apply StronglySorted_inv in Hs. destruct Hs as [Hrest Hh].
    destruct (goal_createdAt h <? goal_createdAt g)%Z eqn:Hlt.
    + apply Z.ltb_lt in Hlt. constructor.
      * constructor; assumption.
      * constructor; [lia |].
        apply Forall_forall. intros a Ha.
        pose proof (proj1 (Forall_forall _ _) Hh a Ha) as Hle. cbn in Hle. lia.
    + apply Z.ltb_ge in Hlt. constructor; [exact (IH Hrest) |].
      apply Forall_forall. intros x Hx.
      apply (Permutation_in _ (insert_by_createdAt_perm g rest)) in Hx.
      destruct Hx as [<- | Hx]; [exact Hlt |].
      exact (proj1 (Forall_forall _ _) Hh x Hx).
Qed.

Lemma sort_newest_created_first_sorted (l : list Goal) :
  newest_created_first (sort_newest_created_first l).
Proof.
  induction l as [ | g rest IH]; cbn;
    [constructor | apply insert_by_createdAt_sorted; exact IH].
Qed.

Lemma goals_GET_cases (env : Env) (faults : Faults) (request : Request) (w : World) :
  db (world_after_reply (GET env faults request) w) = db w
  /\ ((exists r, reply_of (GET env faults request) w = Envelope_reply r)
      \/ exists userId,
          authenticated_for_goals env request userId
          /\ reply_of (GET env faults request) w
             = Goals_reply 200
                 (sort_newest_created_first (filter (owned_by userId) (goals (db w))))).
Proof.
  unfold reply_of, world_after_reply, GET.
  unfold bind, connectDB, attempt.
  destruct (throws env ConnectDB); [split; [reflexivity | left; eexists; reflexivity] |].
  cbn [fst snd]. rewrite same_world.
  destruct (goals_helper_cases env request w) as [[userId [Hauth Hrun]] | [r [w' [Hrun Hdb]]]];
    rewrite Hrun;
    [| split; [exact Hdb | left; eexists; reflexivity]].
  unfold attempt_or.
  destruct (find_throws faults); [split; [reflexivity | left; eexists; reflexivity] |].
  cbn -[String.append sort_newest_created_first].
  split; [reflexivity |]. right. exists userId. split; [exact Hauth | reflexivity].
Qed.

Lemma owned_by_spec (userId : string) (g : Goal) :
  owned_by userId g = true <-> same_id (goal_userId g) userId.
Proof.
  unfold owned_by, same_id. apply String.eqb_eq.
Qed.

(** X11. The listing is the caller's own: whenever [GET /api/goals]
    answers with a list, the status is 200 and the list holds exactly the
    goals stored under the identifier of the authenticated caller, each
    once, newest creation first; it is empty exactly when the caller has
    no goals.  The listing never changes the database. *)
Theorem goals_list_is_the_callers
    (env : Env) (faults : Faults) (request : Request) (w : World) :
  db (world_after_reply (GET env faults request) w) = db w
  /\ (forall code listed,
         reply_of (GET env faults request) w = Goals_reply code listed ->
         code = 200%Z
         /\ exists userId,
             authenticated_for_goals env request userId
             /\ Permutation listed (filter (owned_by userId) (goals (db w)))
             /\ (forall g, In g listed
                           <-> In g (goals (db w)) /\ same_id (goal_userId g) userId)
             /\ newest_created_first listed).
Proof.
  destruct (goals_GET_cases env faults request w) as [Hdb Hcases].
  split; [exact Hdb |].
  intros code listed Hreply.
  destruct Hcases as [[r Hfail] | [userId [Hauth Hok]]].
  - rewrite Hfail in Hreply. discriminate Hreply.
  - rewrite Hok in Hreply. injection Hreply as <- <-.
    split; [reflexivity |]. exists userId.
    split; [exact Hauth |].
    split; [apply sort_newest_created_first_perm |].
    split; [| apply sort_newest_created_first_sorted].
    intros g. split.
    + intros Hg. apply (Permutation_in _ (sort_newest_created_first_perm _)) in Hg.
      apply filter_In in Hg. destruct Hg as [Hin Ho].
      split; [exact Hin | apply owned_by_spec; exact Ho].
    + intros [Hin Ho].
      apply (Permutation_in _ (Permutation_sym (sort_newest_created_first_perm _))).
      apply filter_In. split; [exact Hin | apply owned_by_spec; exact Ho].
Qed.

Lemma createGoalSchema_name (rawBody : Json) (validated : CreateGoalData) :
  createGoalSchema rawBody = Some validated ->
  exists s, new_name validated = trim s /\ trim s <> EmptyString.
Proof.
  unfold createGoalSchema.
  destruct rawBody as [ | b | x | s | items | fields]; try discriminate.
  unfold required_trimmed.
  destruct (field fields "name") as [[ | b | x | name | items | fs] | ]; try discriminate.
  destruct (trim name) as [ | c t] eqn:Hname; [discriminate |].
  destruct (optional_trimmed (field fields "description")); try discriminate.
  destruct (optional_trimmed (field fields "targetMetric")); try discriminate.
  destruct (optional_trimmed (field fields "targetUnit")); try discriminate.
  destruct (optional_datetime (field fields "deadline")); try discriminate.
  intros H. injection H as <-. cbn. exists name. rewrite Hname. split; [reflexivity | discriminate].
Qed.

(** [POST /api/goals] in full. *)
Lemma goals_POST_cases (env : Env) (faults : Faults) (request : Request) (w : World) :
  (db (world_after (POST env faults request) w) = db w
   /\ forall g, response_of (POST env faults request) w <> success_data 201 (DataGoal g))
  \/ exists userId rawBody validated deadline,
      authenticated_for_goals env request userId
      /\ json request = Some rawBody
      /\ createGoalSchema rawBody = Some validated
      /\ response_of (POST env faults request) w
         = success_data 201 (DataGoal (new_goal env userId validated deadline))
      /\ db (world_after (POST env faults request) w)
         = snd (GoalModel_create (new_goal env userId validated deadline) (db w)).
Proof.
  unfold response_of, world_after, run, POST.
  unfold bind, connectDB, attempt.
  destruct (throws env ConnectDB);
    [left; split; [reflexivity | intros g H; discriminate H] |].
  cbn [fst snd]. rewrite same_world.
  destruct (goals_helper_cases env request w) as [[userId [Hauth Hrun]] | [r [w' [Hrun Hdb]]]];
    rewrite Hrun.
  2: { left. split; [exact Hdb |].
       revert Hrun. clear. unfold Goals.getVerifiedUserId.
       destruct (cookie_value (cookies request) "access_token") as [[ | c token] | ];
         try (cbn; intros E; injection E as <- _; intros g H; discriminate H).
       destruct (JWT_SECRET env) as [[ | c' jwtSecret] | ];
         try (cbn; intros E; injection E as <- _; intros g H; discriminate H).
       destruct (jwt_verify (String c token) (String c' jwtSecret)) as [[payload | [[ | | b | x | uid | ] | ]] | e];
         try (cbn; intros E; injection E as <- _; intros g H; discriminate H).
       cbn. intros E. discriminate E. }
  destruct (json request) as [rawBody | ];
    [| left; split; [reflexivity | intros g H; discriminate H]].
  destruct (createGoalSchema rawBody) as [validated | ] eqn:Hschema;
    [| left; split; [reflexivity | intros g H; discriminate H]].
  destruct (deadline_to_store (new_deadline validated)) as [deadline | ];
    [| left; split; [reflexivity | intros g H; discriminate H]].
  unfold attempt_or.
  destruct (create_throws faults) as [[msg | | ] | ];
    try (left; split; [reflexivity | intros g H; discriminate H]).
  right. exists userId, rawBody, validated, deadline.
  split; [exact Hauth |]. repeat split. exact Hschema.
Qed.

(** X12. A created goal belongs to the caller and is listed: when
    [POST /api/goals] answers 201 with a goal, that goal is stored under
    the identifier of the authenticated caller whatever the body says, has
    a non-empty trimmed name and the creation time of the request, is the
    one document added to the collection, and appears in the next listing
    of its owner. *)
Theorem created_goal_is_the_callers_and_listed
    (env env' : Env) (faults faults' : Faults) (request request' : Request)
    (w : World) (g : Goal) :
  response_of (POST env faults request) w = success_data 201 (DataGoal g) ->
  authenticated_for_goals env' request' (goal_userId g) ->
  throws env' ConnectDB = None ->
  find_throws faults' = None ->
  let after := world_after (POST env faults request) w in
  (exists userId, authenticated_for_goals env request userId
                  /\ goal_userId g = castObjectId userId)
  /\ goal_name g <> EmptyString
  /\ trim (goal_name g) = goal_name g
  /\ goal_createdAt g = now env
  /\ goals (db after) = (goals (db w) ++ [g])%list
  /\ progress (db after) = progress (db w)
  /\ users (db after) = users (db w)
  /\ exists listed,
      reply_of (GET env' faults' request') after = Goals_reply 200 listed
      /\ In g listed.
Proof.
  intros Hpost Hreader Hconn Hfind. cbv zeta.
  destruct (goals_POST_cases env faults request w)
    as [[_ Hno] | [userId [rawBody [validated [deadline [Hauth [Hjson [Hschema [Hresp Hdb]]]]]]]]];
    [exfalso; exact (Hno g Hpost) |].
  rewrite Hresp in Hpost. injection Hpost as <-.
  set (w1 := world_after (POST env faults request) w) in *.
  destruct (createGoalSchema_name _ _ Hschema) as [s [Hname Hne]].
  split; [exists userId; split; [exact Hauth | reflexivity] |].
  change (goal_name (new_goal env userId validated deadline))
    with (trim (new_name validated)).
  rewrite Hname, !trim_idempotent.
  split; [exact Hne |].
  split; [reflexivity |].
  split; [reflexivity |].
  rewrite Hdb. cbn [snd GoalModel_create goals progress users].
  split; [reflexivity |]. split; [reflexivity |]. split; [reflexivity |].
  exists (sort_newest_created_first
            (filter (owned_by (castObjectId userId)) (goals (db w1)))).
  split.
  - unfold reply_of, GET.
    unfold bind, connectDB, attempt. rewrite Hconn. cbn [fst snd].
    rewrite same_world.
    rewrite (goals_helper_success _ _ _ w1 (Hreader w1)).
    unfold attempt_or. rewrite Hfind.
    cbn -[String.append sort_newest_created_first]. reflexivity.
  - apply (Permutation_in _ (Permutation_sym (sort_newest_created_first_perm _))).
    apply filter_In. split.
    + rewrite Hdb. cbn. apply in_or_app. right. left. reflexivity.
    + apply owned_by_spec. apply same_id_refl.
Qed.

End GoalsCollectionFacts.

(** ** Accounts and sessions *)

Section AccountFacts.

Context {L : Libraries}.

Import Store Schema Auth.

(** The document a successful signup inserts. *)
Lemma signupSchema_action (rawBody : Json) (details : SignupData) :
  signupSchema rawBody = Some details -> actionSchema rawBody = Some Signup.
Proof.
  unfold signupSchema, actionSchema.
  destruct rawBody as [ | b | x | s | items | fields]; try discriminate.
  destruct (field fields "action") as [[ | b | x | action | items | fs] | ]; try discriminate.
  destruct (required_trimmed (field fields "name")); try discriminate.
  destruct (email_field (field fields "email")); try discriminate.
  destruct (password_field 6 (field fields "password")); try discriminate.
  destruct (String.eqb action "signup") eqn:Hs; [reflexivity | discriminate].
Qed.

Lemma email_field_trimmed (v : option Json) (email : string) :
  email_field v = Some email -> trim email = email /\ zod_email email = true.
Proof.
  unfold email_field.
  destruct v as [[ | b | x | s | items | fs] | ]; try discriminate.
  destruct (zod_email (trim s)) eqn:Hz; [| discriminate].
  intros H. injection H as <-. split; [apply trim_idempotent | exact Hz].
Qed.

Lemma signupSchema_fields (rawBody : Json) (details : SignupData) :
  signupSchema rawBody = Some details ->
  trim (signup_email details) = signup_email details
  /\ zod_email (signup_email details) = true
  /\ signup_name details <> EmptyString
  /\ 6 <= String.length (signup_password details).
Proof.
  unfold signupSchema.
  destruct rawBody as [ | b | x | s | items | fields]; try discriminate.
  destruct (field fields "action") as [[ | b | x | action | items | fs] | ]; try discriminate.
  destruct (required_trimmed (field fields "name")) as [name | ] eqn:Hname; try discriminate.
  destruct (email_field (field fields "email")) as [email | ] eqn:Hemail; try discriminate.
  destruct (password_field 6 (field fields "password")) as [password | ] eqn:Hpw;
    try discriminate.
  destruct (String.eqb action "signup"); [| discriminate].
  intros H. injection H as <-. cbn.
  destruct (email_field_trimmed _ _ Hemail) as [Ht Hz].
  split; [exact Ht |]. split; [exact Hz |]. split.
  - unfold required_trimmed in Hname.
    destruct (field fields "name") as [[ | b | x | s | items | fs] | ]; try discriminate.
    destruct (trim s); [discriminate |]. injection Hname as <-. discriminate.
  - unfold password_field in Hpw.
    destruct (field fields "password") as [[ | b | x | s | items | fs] | ]; try discriminate.
    destruct (6 <=? String.length s)%nat eqn:Hlen; [| discriminate].
    injection Hpw as <-. apply Nat.leb_le. exact Hlen.
Qed.

Lemma loginSchema_fields (rawBody : Json) (credentials : LoginData) :
  loginSchema rawBody = Some credentials ->
  trim (login_email credentials) = login_email credentials
  /\ zod_email (login_email credentials) = true
  /\ login_password credentials <> EmptyString.
Proof.
  unfold loginSchema.
  destruct rawBody as [ | b | x | s | items | fields]; try discriminate.
  destruct (field fields "action") as [[ | b | x | action | items | fs] | ]; try discriminate.
  destruct (email_field (field fields "email")) as [email | ] eqn:Hemail; try discriminate.
  destruct (password_field 1 (field fields "password")) as [password | ] eqn:Hpw;
    try discriminate.
  destruct (String.eqb action "login"); [| discriminate].
  intros H. injection H as <-. cbn.
  destruct (email_field_trimmed _ _ Hemail) as [Ht Hz].
  split; [exact Ht |]. split; [exact Hz |].
  unfold password_field in Hpw.
  destruct (field fields "password") as [[ | b | x | s | items | fs] | ]; try discriminate.
  destruct s; [discriminate |]. injection Hpw as <-. discriminate.
Qed.

Ltac quiet :=
  left; split; [reflexivity | split; [cbn; discriminate | reflexivity]].

(** [POST /api/auth] in full: nothing written and no cookie; or an account
    inserted; or a session opened. *)
Lemma auth_POST_cases (env : Env) (request : Request) (w : World) :
  (set_cookie (response_of (POST env request) w) = None
   /\ status (response_of (POST env request) w) <> 201%Z
   /\ db (world_after (POST env request) w) = db w)
  \/ (exists rawBody details hashed,
         json request = Some rawBody
         /\ signupSchema rawBody = Some details
         /\ fst (UserModel_findOne (toLowerCase (signup_email details)) (db w)) = None
         /\ email_path_match (toLowerCase (trim (signup_email details))) = true
         /\ bcrypt_hash (signup_password details) = Some hashed
         /\ response_of (POST env request) w
            = success_message 201 "Signup successful. Please login."
         /\ db (world_after (POST env request) w)
            = snd (UserModel_create
                     {| user_id := fresh_id env;
                        user_name := trim (signup_name details);
                        user_email := toLowerCase (trim (signup_email details));
                        user_password := hashed;
                        user_createdAt := now env;
                        user_updatedAt := now env |} (db w)))
  \/ (exists user jwtSecret jwtExpiresIn maxAgeSeconds token,
         password_accepted env request (db w) user jwtSecret jwtExpiresIn
         /\ parseJwtExpiresIn jwtExpiresIn = Some maxAgeSeconds
         /\ jwt_sign (user_id user) jwtSecret jwtExpiresIn (now env) = Some token
         /\ response_of (POST env request) w
            = {| status := 200;
                 body := JsonBody {| success := true; message := None;
                                     data := Some (DataUser (public_profile user));
                                     error := None; validationErrors := false |};
                 set_cookie := Some (session_cookie env token maxAgeSeconds) |}
         /\ db (world_after (POST env request) w) = db w).
Proof.
  unfold response_of, world_after, run, POST.
  unfold bind, connectDB, attempt.
  destruct (throws env ConnectDB) eqn:Hconn;
    [quiet |].
  cbn [fst snd]. rewrite same_world.
  destruct (json request) as [rawBody | ] eqn:Hjson;
    [| quiet].
  destruct (actionSchema rawBody) as [[ | ] | ] eqn:Haction;
    [| | quiet].
  - (* signup *)
    unfold signup.
    destruct (signupSchema rawBody) as [details | ] eqn:Hschema;
      [| quiet].
    unfold bind, attempt.
    destruct (throws env UserFindOne) as [[msg | | ] | ];
      try (quiet).
    unfold UserModel_findOne.
    destruct (find (fun u => String.eqb (user_email u) (toLowerCase (signup_email details)))
                (users (db w))) as [existing | ] eqn:Hfind;
      [quiet |].
    cbn -[String.append create_user toLowerCase trim].
    unfold create_user.
    destruct (email_path_match (toLowerCase (trim (signup_email details)))) eqn:Hmatch;
      [| quiet].
    cbn -[String.append toLowerCase trim].
    destruct (bcrypt_hash (signup_password details)) as [hashed | ] eqn:Hhash;
      [| quiet].
    unfold attempt.
    destruct (throws env UserCreate) as [[msg | | ] | ];
      try (quiet).
    right. left. exists rawBody, details, hashed.
    split; [reflexivity |]. split; [exact Hschema |].
    split; [cbn [fst]; exact Hfind |].
    split; [exact Hmatch |]. split; [exact Hhash |].
    split; reflexivity.
  - (* login *)
    unfold login.
    destruct (loginSchema rawBody) as [credentials | ] eqn:Hschema;
      [| quiet].
    unfold bind, attempt.
    destruct (throws env UserFindOne) as [e | ] eqn:Hfindop;
      [quiet |].
    unfold UserModel_findOne.
    destruct (find (fun u => String.eqb (user_email u) (toLowerCase (login_email credentials)))
                (users (db w))) as [user | ] eqn:Hfind;
      [| quiet].
    cbn -[String.append comparePassword parseJwtExpiresIn toLowerCase].
    destruct (comparePassword user (login_password credentials)) eqn:Hcmp;
      [| quiet].
    cbn -[String.append parseJwtExpiresIn toLowerCase].
    destruct (JWT_SECRET env) as [[ | c1 jwtSecret] | ] eqn:Hsecret;
      try (quiet).
    destruct (JWT_EXPIRES_IN env) as [[ | c2 jwtExpiresIn] | ] eqn:Hexpires;
      try (quiet).
    destruct (parseJwtExpiresIn (String c2 jwtExpiresIn)) as [maxAgeSeconds | ] eqn:Hparse;
      [| quiet].
    destruct (jwt_sign (user_id user) (String c1 jwtSecret) (String c2 jwtExpiresIn) (now env))
      as [token | ] eqn:Hsign;
      [| quiet].
    right. right.
    exists user, (String c1 jwtSecret), (String c2 jwtExpiresIn), maxAgeSeconds, token.
    split.
    { exists rawBody, credentials.
      repeat split; auto. }
    repeat split; auto.
Qed.

Lemma findOne_in (email : string) (d : Db) (user : UserDoc) :
  fst (UserModel_findOne email d) = Some user ->
  In user (users d) /\ user_email user = email.
Proof.
  unfold UserModel_findOne. cbn [fst]. intros H.
  apply find_some in H. destruct H as [Hin Heq].
  apply String.eqb_eq in Heq. split; assumption.
Qed.

Lemma findOne_unused (email : string) (d : Db) :
  fst (UserModel_findOne email d) = None ->
  ~ In email (map user_email (users d)).
Proof.
  unfold UserModel_findOne. cbn [fst]. intros H Hin.
  apply in_map_iff in Hin. destruct Hin as [u [Hu Hin]].
  pose proof (find_none _ _ H u Hin) as Hno. cbn in Hno.
  rewrite Hu, String.eqb_refl in Hno. discriminate Hno.
Qed.

(** X13.  A response of the authentication endpoint carries a cookie only
    when it is the 200 of a login whose address belongs to a stored
    account and whose password the stored hash accepted; the cookie is
    then the HTTP-only [access_token] holding the token signed for that
    account, with a positive lifetime, and nothing was written. *)
Theorem session_cookie_only_after_password_check
    (env : Env) (request : Request) (w : World) (cookie : Cookie) :
  set_cookie (response_of (POST env request) w) = Some cookie ->
  status (response_of (POST env request) w) = 200%Z
  /\ db (world_after (POST env request) w) = db w
  /\ cookie_name cookie = "access_token"
  /\ httpOnly cookie = true
  /\ Number.ltb Number.zero (maxAge cookie) = true
  /\ exists rawBody credentials user jwtSecret jwtExpiresIn,
       json request = Some rawBody
       /\ loginSchema rawBody = Some credentials
       /\ In user (users (db w))
       /\ user_email user = toLowerCase (login_email credentials)
       /\ bcrypt_compare (login_password credentials) (user_password user) = Some true
       /\ JWT_SECRET env = Some jwtSecret
       /\ JWT_EXPIRES_IN env = Some jwtExpiresIn
       /\ jwt_sign (user_id user) jwtSecret jwtExpiresIn (now env)
          = Some (cookie_token cookie).
Proof.
  intros Hcookie.
  destruct (auth_POST_cases env request w)
    as [[Hnone _] | [[rawBody [details [hashed [_ [_ [_ [_ [_ [Hr _]]]]]]]]]
                    | [user [jwtSecret [jwtExpiresIn [n [token
                         [Hacc [Hparse [Hsign [Hr Hdb]]]]]]]]]]].
  - rewrite Hnone in Hcookie. discriminate Hcookie.
  - rewrite Hr in Hcookie. discriminate Hcookie.
  - rewrite Hr in Hcookie |- *. cbn in Hcookie. injection Hcookie as <-.
    split; [reflexivity |]. split; [exact Hdb |].
    split; [reflexivity |]. split; [reflexivity |].
    split; [exact (parseJwtExpiresIn_positive _ _ Hparse) |].
    destruct Hacc as [rawBody [credentials [_ [_ [Hjson [Hschema [Huser [Hcmp
                        [Hsecret [_ [Hexpires _]]]]]]]]]]].
    destruct (findOne_in _ _ _ Huser) as [Hin Hemail].
    exists rawBody, credentials, user, jwtSecret, jwtExpiresIn.
    repeat split; try assumption.
    unfold comparePassword in Hcmp.
    destruct (bcrypt_compare (login_password credentials) (user_password user))
      as [[ | ] | ]; [reflexivity | discriminate Hcmp | discriminate Hcmp].
Qed.

(** X14.  The authentication endpoint never touches goals or progress
    entries, and the only change it makes to the accounts is to append
    one: that happens exactly with the 201 of a signup, the new account's
    address is the lower-cased submitted one and belonged to no stored
    account, and its stored password is the hash of the submitted one.
    Addresses that were pairwise distinct stay so. *)
Theorem auth_only_adds_an_unused_address
    (env : Env) (request : Request) (w : World) :
  let d' := db (world_after (POST env request) w) in
  goals d' = goals (db w)
  /\ progress d' = progress (db w)
  /\ ((status (response_of (POST env request) w) <> 201%Z /\ d' = db w)
      \/ (status (response_of (POST env request) w) = 201%Z
          /\ exists rawBody details doc,
               json request = Some rawBody
               /\ signupSchema rawBody = Some details
               /\ users d' = (users (db w) ++ [doc])%list
               /\ user_email doc = toLowerCase (signup_email details)
               /\ ~ In (user_email doc) (map user_email (users (db w)))
               /\ bcrypt_hash (signup_password details) = Some (user_password doc)))
  /\ (NoDup (map user_email (users (db w))) -> NoDup (map user_email (users d'))).
Proof.
  cbv zeta.
  destruct (auth_POST_cases env request w)
    as [[_ [Hstatus Hdb]] | [[rawBody [details [hashed
                                [Hjson [Hschema [Hfind [_ [Hhash [Hr Hdb]]]]]]]]]
                    | [user [jwtSecret [jwtExpiresIn [n [token
                         [_ [_ [_ [Hr Hdb]]]]]]]]]]].
  - rewrite Hdb. split; [reflexivity |]. split; [reflexivity |].
    split; [left; split; [exact Hstatus | reflexivity] |]. intros H. exact H.
  - destruct (signupSchema_fields _ _ Hschema) as [Htrim _].
    rewrite Hdb, Hr, Htrim. cbn -[toLowerCase].
    split; [reflexivity |]. split; [reflexivity |].
    pose proof (findOne_unused _ _ Hfind) as Hunused.
    split.
    + right. split; [reflexivity |].
      eexists rawBody, details, _.
      split; [exact Hjson |]. split; [exact Hschema |].
      split; [reflexivity |]. cbn -[toLowerCase].
      split; [reflexivity |]. split; [exact Hunused | exact Hhash].
    + intros Hnodup. rewrite map_app. cbn -[toLowerCase].
      apply NoDup_app.
      * exact Hnodup.
      * apply NoDup_cons; [intros [] | apply NoDup_nil].
      * intros email Hin [Heq | []]. subst email. exact (Hunused Hin).
  - rewrite Hdb, Hr. split; [reflexivity |]. split; [reflexivity |].
    split; [left; split; [cbn; discriminate | reflexivity] |]. intros H. exact H.
Qed.

(** X15.  A signup whose address, lower-cased, is already that of a stored
    account is answered 409 "Email already in use." and writes nothing. *)
Theorem taken_address_is_refused
    (env : Env) (request : Request) (w : World)
    (rawBody : Json) (details : SignupData) (existing : UserDoc) :
  throws env ConnectDB = None ->
  throws env UserFindOne = None ->
  json request = Some rawBody ->
  signupSchema rawBody = Some details ->
  In existing (users (db w)) ->
  user_email existing = toLowerCase (signup_email details) ->
  response_of (POST env request) w = failure 409 "Email already in use."
  /\ db (world_after (POST env request) w) = db w.
Proof.
  intros Hconn Hop Hjson Hschema Hin Hemail.
  unfold response_of, world_after, run, POST.
  unfold bind, connectDB, attempt. rewrite Hconn. cbn [fst snd].
  rewrite same_world, Hjson, (signupSchema_action _ _ Hschema).
  unfold signup. rewrite Hschema.
  unfold bind, attempt. rewrite Hop. unfold UserModel_findOne.
  destruct (find (fun u => String.eqb (user_email u) (toLowerCase (signup_email details)))
              (users (db w))) as [found | ] eqn:Hfind.
  - split; reflexivity.
  - pose proof (find_none _ _ Hfind existing Hin) as Hno. cbn in Hno.
    rewrite Hemail, String.eqb_refl in Hno. discriminate Hno.
Qed.

Lemma find_after_append (f : UserDoc -> bool) (l : list UserDoc) (doc : UserDoc) :
  find f l = None -> f doc = true -> find f (l ++ [doc])%list = Some doc.
Proof.
  intros Hnone Hdoc. induction l as [ | u l IH]; cbn in *.
  - rewrite Hdoc. reflexivity.
  - destruct (f u); [discriminate Hnone |]. exact (IH Hnone).
Qed.

(** X16.  Signing up and then logging in.  After a signup answered 201, a
    login with the same address up to letter case and the same password
    is answered 200 with the new account's public profile and a session
    cookie, provided the hash accepts the password it was made from, the
    token can be signed, the token settings are in place and the lookup
    does not fail. *)
Theorem signup_then_login
    (env env' : Env) (request request' : Request) (w : World)
    (signupBody loginBody : Json) (details : SignupData) (credentials : LoginData)
    (jwtSecret jwtExpiresIn : string) (maxAgeSeconds : number) (token : string) :
  let w' := world_after (POST env request) w in
  status (response_of (POST env request) w) = 201%Z ->
  json request = Some signupBody ->
  signupSchema signupBody = Some details ->
  json request' = Some loginBody ->
  loginSchema loginBody = Some credentials ->
  toLowerCase (login_email credentials) = toLowerCase (signup_email details) ->
  login_password credentials = signup_password details ->
  (forall hashed, bcrypt_hash (signup_password details) = Some hashed ->
                  bcrypt_compare (signup_password details) hashed = Some true) ->
  throws env' ConnectDB = None ->
  throws env' UserFindOne = None ->
  JWT_SECRET env' = Some jwtSecret -> truthy (Some jwtSecret) = true ->
  JWT_EXPIRES_IN env' = Some jwtExpiresIn ->
  parseJwtExpiresIn jwtExpiresIn = Some maxAgeSeconds ->
  jwt_sign (fresh_id env) jwtSecret jwtExpiresIn (now env') = Some token ->
  exists user,
    users (db w') = (users (db w) ++ [user])%list
    /\ user_email user = toLowerCase (signup_email details)
    /\ user_name user = trim (signup_name details)
    /\ user_id user = fresh_id env
    /\ response_of (POST env' request') w'
       = {| status := 200;
            body := JsonBody {| success := true; message := None;
                                data := Some (DataUser (public_profile user));
                                error := None; validationErrors := false |};
            set_cookie := Some (session_cookie env' token maxAgeSeconds) |}.
Proof.
  cbv zeta.
  intros Hstatus Hjson Hschema Hjson' Hschema' Hsame Hpw Hbcrypt
         Hconn Hop Hsecret Hs Hexpires Hparse Hsign.
  destruct (auth_POST_cases env request w)
    as [[_ [Hno _]] | [[rawBody [details0 [hashed
                                [Hjson0 [Hschema0 [Hfind [_ [Hhash [_ Hdb]]]]]]]]]
                    | [user [s [e [n [t [_ [_ [_ [Hr _]]]]]]]]]]].
  - contradiction.
  - rewrite Hjson in Hjson0. injection Hjson0 as <-.
    rewrite Hschema in Hschema0. injection Hschema0 as <-.
    destruct (signupSchema_fields _ _ Hschema) as [Htrim _].
    rewrite Htrim in Hdb.
    set (user := {| user_id := fresh_id env;
                    user_name := trim (signup_name details);
                    user_email := toLowerCase (signup_email details);
                    user_password := hashed;
                    user_createdAt := now env;
                    user_updatedAt := now env |}) in Hdb.
    exists user.
    split; [rewrite Hdb; reflexivity |].
    split; [reflexivity |]. split; [reflexivity |]. split; [reflexivity |].
    assert (Hacc : password_accepted env' request'
                     (db (world_after (POST env request) w)) user jwtSecret jwtExpiresIn).
    { exists loginBody, credentials.
      split; [exact Hconn |]. split; [exact Hop |].
      split; [exact Hjson' |]. split; [exact Hschema' |].
      split.
      { rewrite Hdb, Hsame. unfold UserModel_create, UserModel_findOne. cbn [fst snd users].
        apply find_after_append.
        - exact Hfind.
        - apply String.eqb_refl. }
      split.
      { unfold comparePassword. rewrite Hpw.
        change (user_password user) with hashed.
        rewrite (Hbcrypt hashed Hhash). reflexivity. }
      split; [exact Hsecret |]. split; [exact Hs |].
      split; [exact Hexpires |].
      destruct jwtExpiresIn as [ | c rest]; [| reflexivity].
      vm_compute in Hparse. discriminate Hparse. }
    rewrite (login_after_password env' request' _ user jwtSecret jwtExpiresIn Hacc).
    change (user_id user) with (fresh_id env).
    rewrite Hparse, Hsign. reflexivity.
  - rewrite Hr in Hstatus. discriminate Hstatus.
Qed.

End AccountFacts.

(** ** The middleware and the handlers' own checks *)

Section DefenceInDepth.

Context {L : Libraries}.

Import Middleware.

(** X17.  The middleware and the three copies of the helper decide on the
    same grounds.  A request that any helper accepts is let through by
    the middleware; a request the middleware stops is refused by every
    helper, with the middleware's own status when it answers in JSON and
    with 401 when it redirects to the login page. *)
Theorem middleware_and_helpers_agree (env : Env) (request : Request) (w : World) :
  (forall userId,
      verification_result Goals.getVerifiedUserId env request w = inr userId
      \/ verification_result GoalItem.getVerifiedUserId env request w = inr userId
      \/ verification_result Progress.getVerifiedUserId env request w = inr userId ->
      fst (middleware env request) = Next)
  /\ (fst (middleware env request) <> Next ->
      exists code,
        (code = 401%Z \/ code = 500%Z)
        /\ refused_with code (verification_result Goals.getVerifiedUserId env request w)
        /\ refused_with code (verification_result GoalItem.getVerifiedUserId env request w)
        /\ refused_with code (verification_result Progress.getVerifiedUserId env request w)
        /\ (forall r, fst (middleware env request) = Respond r -> status r = code)
        /\ (forall url, fst (middleware env request) = Redirect url ->
                        code = 401%Z /\ url = login_page request
                        /\ is_api_path request = false)).
Proof.
  unfold verification_result, middleware, refused_with,
    Goals.getVerifiedUserId, GoalItem.getVerifiedUserId, Progress.getVerifiedUserId,
    login_page, is_api_path.
  destruct (cookie_value (cookies request) "access_token") as [[ | c token] | ].
  1, 3: split; [intros userId [H | [H | H]]; discriminate H |];
        intros _; exists 401%Z; split; [left; reflexivity |];
        split; [eexists; reflexivity |]; split; [eexists; reflexivity |];
        split; [eexists; reflexivity |];
        destruct (startsWith (pathname request) "/api/"); cbn;
        (split; [intros r H; try discriminate H; injection H as <-; reflexivity
                | intros url H; try discriminate H; injection H as <-; auto]).
  destruct (JWT_SECRET env) as [[ | c' jwtSecret] | ].
  1, 3: split; [intros userId [H | [H | H]]; discriminate H |];
        intros _; exists 500%Z; split; [right; reflexivity |];
        split; [eexists; reflexivity |]; split; [eexists; reflexivity |];
        split; [eexists; reflexivity |]; cbn;
        (split; [intros r H; injection H as <-; reflexivity
                | intros url H; discriminate H]).
  destruct (jwt_verify (String c token) (String c' jwtSecret)) as [decoded | e].
  - split; [intros; reflexivity | intros H; contradiction H; reflexivity].
  - split; [intros userId [H | [H | H]]; discriminate H |].
    intros _. exists 401%Z. split; [left; reflexivity |].
    split; [eexists; reflexivity |]. split; [eexists; reflexivity |].
    split; [eexists; reflexivity |].
    destruct (startsWith (pathname request) "/api/"); cbn;
      (split; [intros r H; try discriminate H; injection H as <-; reflexivity
              | intros url H; try discriminate H; injection H as <-; auto]).
Qed.

(** *** The configured matcher *)

Lemma split_on_no_slash (s : string) :
  no_slash s = true -> split_on "/" s = [s].
Proof.
  induction s as [ | c rest IH]; [reflexivity |].
  cbn [no_slash split_on]. intros H. apply andb_prop in H. destruct H as [Hc Hrest].
  destruct (Ascii.eqb c "/"); [discriminate Hc |].
  rewrite (IH Hrest). reflexivity.
Qed.

(** What [split] gives for a string that starts with literal characters
    other than the separator. *)
Lemma split_on_cons (c : ascii) (rest : string) :
  Ascii.eqb c "/" = false ->
  exists seg segs, split_on "/" rest = seg :: segs
                   /\ split_on "/" (String c rest) = String c seg :: segs.
Proof.
  intros Hc. cbn [split_on]. rewrite Hc.
  destruct rest as [ | d rest'].
  - exists EmptyString, []. split; reflexivity.
  - destruct (split_on "/" (String d rest')) as [ | seg segs] eqn:Hs.
    + exfalso. cbn [split_on] in Hs.
      destruct (Ascii.eqb d "/"); [discriminate Hs |].
      destruct (split_on "/" rest'); discriminate Hs.
    + exists seg, segs. split; reflexivity.
Qed.

Lemma split_on_nonempty (s : string) : split_on "/" s <> [].
Proof.
  destruct s as [ | c rest]; cbn [split_on]; [discriminate |].
  destruct (Ascii.eqb c "/"); [discriminate |].
  destruct (split_on "/" rest); discriminate.
Qed.

(** X18.  The pages under [/dashboard] and the goal and progress
    endpoints, with or without one further path segment, are paths the
    middleware runs for. *)
Theorem guarded_paths_run_the_middleware (segment : string) :
  no_slash segment = true ->
  runs_on "/dashboard" = true
  /\ runs_on "/api/goals" = true
  /\ runs_on "/api/progress" = true
  /\ runs_on ("/dashboard/" ++ segment) = true
  /\ runs_on ("/api/goals/" ++ segment) = true
  /\ runs_on ("/api/progress/" ++ segment) = true.
Proof.
  intros Hseg.
  split; [reflexivity |]. split; [reflexivity |]. split; [reflexivity |].
  assert (Hw : wildcard_accepts [segment] = true).
  { destruct segment; reflexivity. }
  unfold runs_on, config_matcher, matches_pattern.
  assert (Hd : split_on "/" ("/dashboard/" ++ segment) = [""; "dashboard"; segment]).
  { cbn. rewrite (split_on_no_slash _ Hseg). reflexivity. }
  assert (Hg : split_on "/" ("/api/goals/" ++ segment) = [""; "api"; "goals"; segment]).
  { cbn. rewrite (split_on_no_slash _ Hseg). reflexivity. }
  assert (Hp : split_on "/" ("/api/progress/" ++ segment) = [""; "api"; "progress"; segment]).
  { cbn. rewrite (split_on_no_slash _ Hseg). reflexivity. }
  rewrite Hd, Hg, Hp.
  split; [| split].
  - cbn -[wildcard_accepts]. rewrite Hw. reflexivity.
  - cbn -[wildcard_accepts]. rewrite Hw. reflexivity.
  - cbn -[wildcard_accepts]. rewrite Hw. reflexivity.
Qed.

(** X19.  No path that starts with [/api/auth] is a path the middleware
    runs for: login, signup, logout and the profile endpoint are reached
    without passing it, whatever follows the prefix. *)
Theorem auth_paths_bypass_the_middleware (env : Env) (request : Request) (rest : string) :
  pathname request = "/api/auth" ++ rest ->
  runs_on (pathname request) = false
  /\ route env request = Reaches_handler.
Proof.
  intros Hpath.
  assert (Hruns : runs_on ("/api/auth" ++ rest) = false).
  { unfold runs_on, config_matcher, matches_pattern.
    assert (Hs : exists seg segs,
               split_on "/" ("/api/auth" ++ rest) = "" :: "api" :: ("auth" ++ seg) :: segs).
    { destruct rest as [ | c rest'].
      - exists EmptyString, []. reflexivity.
      - destruct (Ascii.eqb c "/") eqn:Hc.
        + exists EmptyString, (split_on "/" rest').
          cbn. rewrite Hc. reflexivity.
        + destruct (split_on_cons c rest' Hc) as [seg [segs [_ Hsplit]]].
          exists (String c seg), segs.
          cbn [String.append].
          cbn [split_on Ascii.eqb Bool.eqb].
          cbn [split_on Ascii.eqb Bool.eqb] in Hsplit. rewrite Hsplit. reflexivity. }
    destruct Hs as [seg [segs Hs]]. rewrite Hs. reflexivity. }
  unfold route. rewrite Hpath, Hruns. split; reflexivity.
Qed.

End DefenceInDepth.

(** ** The connection cache *)

Section CacheFacts.

Import MongooseCache.

Lemma replace_nth_length (p : nat) (outcome : PromiseState) (l : list PromiseState) :
  List.length (replace_nth p outcome l) = List.length l.
Proof.
  revert p. induction l as [ | state rest IH]; intros [ | p]; cbn; try reflexivity.
  rewrite IH. reflexivity.
Qed.

Lemma replace_nth_other (p q : nat) (outcome : PromiseState) (l : list PromiseState) :
  p <> q -> nth_error (replace_nth p outcome l) q = nth_error l q.
Proof.
  revert p q. induction l as [ | state rest IH]; intros [ | p] [ | q] Hneq; cbn;
    try reflexivity.
  - contradiction Hneq. reflexivity.
  - apply IH. intros H. apply Hneq. rewrite H. reflexivity.
Qed.

Lemma replace_nth_was_rejected (p : nat) (outcome : PromiseState) (l : list PromiseState) :
  nth_error l p = Some Pending ->
  forallb (fun state => negb (is_rejected state)) (replace_nth p outcome l) = true ->
  forallb (fun state => negb (is_rejected state)) l = true.
Proof.
  revert p. induction l as [ | state rest IH]; intros [ | p] Hp H; cbn in *;
    try reflexivity.
  - injection Hp as ->. apply andb_prop in H. destruct H as [_ H]. exact H.
  - apply andb_prop in H. destruct H as [Hs H].
    rewrite Hs. exact (IH p Hp H).
Qed.

(** A step never settles a promise a second time, never forgets one, and
    never drops a cached connection. *)
Lemma step_keeps_fulfilled (s s' : Server) (q : PromiseRef) (instance : Connection) :
  step s s' ->
  nth_error (promises (runtime s)) q = Some (Fulfilled instance) ->
  nth_error (promises (runtime s')) q = Some (Fulfilled instance).
Proof.
  intros Hstep Hq. destruct Hstep as [s c r' Hcall | s k r' Hcall | s p outcome Hp Hout
                                      | s before after k result r' Hw Hres]; cbn [runtime].
  - unfold connectDB in Hcall.
    destruct (conn (cached (runtime s))); [| destruct (promise (cached (runtime s)));
                                             discriminate Hcall].
    injection Hcall as _ <-. exact Hq.
  - unfold connectDB in Hcall.
    destruct (conn (cached (runtime s))); [discriminate Hcall |].
    destruct (promise (cached (runtime s))).
    + injection Hcall as _ <-. exact Hq.
    + injection Hcall as _ <-. cbn.
      rewrite nth_error_app1; [exact Hq |].
      apply nth_error_Some. rewrite Hq. discriminate.
  - cbn. rewrite replace_nth_other; [exact Hq |].
    intros ->. rewrite Hp in Hq. discriminate Hq.
  - unfold resume in Hres.
    destruct k as [p | p];
      destruct (nth_error (promises (runtime s)) p) as [[ | c | reason] | ];
      try discriminate Hres; injection Hres as _ <-; exact Hq.
Qed.

Lemma step_keeps_connection (s s' : Server) :
  step s s' ->
  conn (cached (runtime s)) <> None ->
  conn (cached (runtime s')) <> None /\ connects s' = connects s.
Proof.
  intros Hstep Hconn. unfold connects.
  destruct Hstep as [s c r' Hcall | s k r' Hcall | s p outcome Hp Hout
                     | s before after k result r' Hw Hres]; cbn [runtime].
  - unfold connectDB in Hcall.
    destruct (conn (cached (runtime s))) eqn:Hc;
      [| destruct (promise (cached (runtime s))); discriminate Hcall].
    injection Hcall as _ <-. cbn. rewrite Hc. split; [discriminate | reflexivity].
  - unfold connectDB in Hcall.
    destruct (conn (cached (runtime s))); [discriminate Hcall | contradiction Hconn; reflexivity].
  - cbn. split; [exact Hconn | apply replace_nth_length].
  - unfold resume in Hres.
    destruct k as [p | p];
      destruct (nth_error (promises (runtime s)) p) as [[ | c | reason] | ];
      try discriminate Hres; injection Hres as _ <-; cbn;
      (split; [first [exact Hconn | discriminate] | reflexivity]).
Qed.

Lemma cached_connection_was_fulfilled (s : Server) (instance : Connection) :
  reachable_from boot s ->
  conn (cached (runtime s)) = Some instance ->
  exists p, nth_error (promises (runtime s)) p = Some (Fulfilled instance).
Proof.
  intros Hreach. revert instance.
  induction Hreach as [ | s1 s2 Hreach IH Hstep]; intros instance Hconn.
  - discriminate Hconn.
  - assert (Hold : conn (cached (runtime s1)) = Some instance ->
                   exists p, nth_error (promises (runtime s2)) p = Some (Fulfilled instance)).
    { intros H. destruct (IH instance H) as [p Hp].
      exists p. exact (step_keeps_fulfilled _ _ _ _ Hstep Hp). }
    destruct Hstep as [s c r' Hcall | s k r' Hcall | s p outcome Hp Hout
                       | s before after k result r' Hw Hres]; cbn [runtime] in *.
    + unfold connectDB in Hcall.
      destruct (conn (cached (runtime s))) eqn:Hc;
        [| destruct (promise (cached (runtime s))); discriminate Hcall].
      injection Hcall as _ <-. cbn in Hconn. rewrite Hc in Hconn. exact (Hold Hconn).
    + unfold connectDB in Hcall.
      destruct (conn (cached (runtime s))) eqn:Hc; [discriminate Hcall |].
      destruct (promise (cached (runtime s)));
        injection Hcall as _ <-; cbn in Hconn; rewrite Hc in Hconn; discriminate Hconn.
    + exact (Hold Hconn).
    + unfold resume in Hres.
      destruct k as [p | p];
        destruct (nth_error (promises (runtime s)) p) as [[ | c | reason] | ] eqn:Hp;
        try discriminate Hres; injection Hres as _ <-; cbn in Hconn;
        try exact (Hold Hconn).
      injection Hconn as <-. exists p. exact Hp.
Qed.

(** X20.  Once a connection is cached it is one that [mongoose.connect]
    resolved to, and from then on, however the calls interleave,
    [connectDB] returns at once with a cached connection and
    [mongoose.connect] is not called again. *)
Theorem cached_connection_stops_connecting (s s' : Server) (instance : Connection) :
  reachable_from boot s ->
  conn (cached (runtime s)) = Some instance ->
  reachable_from s s' ->
  (exists p, nth_error (promises (runtime s)) p = Some (Fulfilled instance))
  /\ connects s' = connects s
  /\ exists instance', fst (connectDB (runtime s')) = Returned instance'.
Proof.
  intros Hboot Hconn Hreach.
  split; [exact (cached_connection_was_fulfilled s instance Hboot Hconn) |].
  assert (H : conn (cached (runtime s')) <> None /\ connects s' = connects s).
  { induction Hreach as [ | s1 s2 Hreach IH Hstep].
    - split; [rewrite Hconn; discriminate | reflexivity].
    - destruct IH as [Hc Hn].
      destruct (step_keeps_connection _ _ Hstep Hc) as [Hc' Hn'].
      split; [exact Hc' | rewrite Hn'; exact Hn]. }
  destruct H as [Hc Hn]. split; [exact Hn |].
  unfold connectDB.
  destruct (conn (cached (runtime s'))) as [instance' | ]; [| contradiction Hc; reflexivity].
  exists instance'. reflexivity.
Qed.

Lemma step_had_no_failure (s s' : Server) :
  step s s' -> no_failure s' -> no_failure s.
Proof.
  unfold no_failure.
  intros Hstep H. destruct Hstep as [s c r' Hcall | s k r' Hcall | s p outcome Hp Hout
                                     | s before after k result r' Hw Hres]; cbn [runtime] in H.
  - unfold connectDB in Hcall.
    destruct (conn (cached (runtime s)));
      [| destruct (promise (cached (runtime s))); discriminate Hcall].
    injection Hcall as _ <-. exact H.
  - unfold connectDB in Hcall.
    destruct (conn (cached (runtime s))); [discriminate Hcall |].
    destruct (promise (cached (runtime s))).
    + injection Hcall as _ <-. exact H.
    + injection Hcall as _ <-. cbn in H.
      rewrite forallb_app in H. apply andb_prop in H. destruct H as [H _]. exact H.
  - cbn in H. exact (replace_nth_was_rejected _ _ _ Hp H).
  - unfold resume in Hres.
    destruct k as [p | p];
      destruct (nth_error (promises (runtime s)) p) as [[ | c | reason] | ];
      try discriminate Hres; injection Hres as _ <-; exact H.
Qed.

(** The shape of the server while no connection attempt has failed. *)
Lemma single_promise_invariant (s : Server) :
  reachable_from boot s ->
  no_failure s ->
  (promises (runtime s) = [] /\ cached (runtime s) = {| conn := None; promise := None |}
   /\ waiting s = [])
  \/ (exists state,
         promises (runtime s) = [state]
         /\ promise (cached (runtime s)) = Some 0
         /\ (conn (cached (runtime s)) = None
             \/ exists instance, conn (cached (runtime s)) = Some instance
                                 /\ state = Fulfilled instance)
         /\ forall k, In k (waiting s) -> k = Existing_promise 0 \/ k = New_promise 0).
Proof.
  intros Hreach. induction Hreach as [ | s1 s2 Hreach IH Hstep]; intros Hok.
  - left. repeat split.
  - specialize (IH (step_had_no_failure _ _ Hstep Hok)).
    destruct Hstep as [s c r' Hcall | s k r' Hcall | s p outcome Hp Hout
                       | s before after k result r' Hw Hres]; cbn [runtime waiting] in *.
    + unfold connectDB in Hcall.
      destruct (conn (cached (runtime s))) eqn:Hc;
        [| destruct (promise (cached (runtime s))); discriminate Hcall].
      injection Hcall as _ <-. cbn.
      destruct IH as [[Hp [Hcache Hw]] | [state [Hp [Hpr [Hconn Hw]]]]].
      * rewrite Hcache in Hc. discriminate Hc.
      * right. exists state.
        split; [exact Hp |]. split; [exact Hpr |].
        split; [rewrite Hc; exact Hconn | exact Hw].
    + unfold connectDB in Hcall.
      destruct (conn (cached (runtime s))) eqn:Hc; [discriminate Hcall |].
      destruct (promise (cached (runtime s))) as [p | ] eqn:Hpr.
      * injection Hcall as <- <-. cbn.
        destruct IH as [[Hp [Hcache Hw]] | [state [Hp [Hpr' [Hconn Hw]]]]].
        -- rewrite Hcache in Hpr. discriminate Hpr.
        -- right. exists state. injection Hpr' as ->.
           split; [exact Hp |]. split; [exact Hpr |]. split; [left; exact Hc |].
           intros k' [<- | Hin]; [left; reflexivity | exact (Hw k' Hin)].
      * injection Hcall as <- <-. cbn.
        destruct IH as [[Hp [Hcache Hw]] | [state [Hp [Hpr' [Hconn Hw]]]]].
        -- right. exists Pending. rewrite Hp, Hw. cbn.
           split; [reflexivity |]. split; [reflexivity |]. split; [left; exact Hc |].
           intros k' [<- | []]. right. reflexivity.
        -- discriminate Hpr'.
    + destruct IH as [[Hpromises [Hcache Hw]] | [state [Hpromises [Hpr [Hconn Hw]]]]].
      * rewrite Hpromises in Hp. destruct p; discriminate Hp.
      * rewrite Hpromises in Hp. destruct p as [ | p]; [| destruct p; discriminate Hp].
        injection Hp as ->. right. exists outcome. cbn. rewrite Hpromises. cbn.
        split; [reflexivity |]. split; [exact Hpr |].
        split; [| exact Hw].
        destruct Hconn as [Hnone | [instance [_ Habs]]]; [left; exact Hnone | discriminate Habs].
    + destruct IH as [[Hpromises [Hcache Hwait]] | [state [Hpromises [Hpr [Hconn Hwait]]]]].
      * rewrite Hw in Hwait. destruct before; discriminate Hwait.
      * assert (Hrest : forall k', In k' (before ++ after)%list ->
                                   k' = Existing_promise 0 \/ k' = New_promise 0).
        { intros k' Hin. apply Hwait. rewrite Hw.
          apply in_app_or in Hin. apply in_or_app.
          destruct Hin as [Hin | Hin]; [left; exact Hin | right; right; exact Hin]. }
        assert (Hk : k = Existing_promise 0 \/ k = New_promise 0).
        { apply Hwait. rewrite Hw. apply in_or_app. right. left. reflexivity. }
        unfold no_failure in Hok. unfold resume in Hres.
        destruct Hk as [-> | ->]; rewrite Hpromises in Hres; cbn in Hres;
          destruct state as [ | instance | reason]; try discriminate Hres;
          injection Hres as _ <-; cbn in Hok |- *.
        -- right. exists (Fulfilled instance). repeat split; assumption.
        -- rewrite Hpromises in Hok. discriminate Hok.
        -- right. exists (Fulfilled instance).
           split; [exact Hpromises |]. split; [exact Hpr |].
           split; [right; exists instance; split; reflexivity | exact Hrest].
        -- rewrite Hpromises in Hok. discriminate Hok.
Qed.

(** X21.  As long as no connection attempt has failed, the calls of all
    requests share one attempt: [mongoose.connect] has been called at
    most once, however many calls are waiting, every waiting call waits
    for that one promise, and a cached connection is the one it resolved
    to. *)
Theorem one_connection_attempt_without_failure (s : Server) :
  reachable_from boot s ->
  no_failure s ->
  connects s <= 1
  /\ (forall k, In k (waiting s) -> k = Existing_promise 0 \/ k = New_promise 0)
  /\ (forall instance, conn (cached (runtime s)) = Some instance ->
                       promises (runtime s) = [Fulfilled instance]).
Proof.
  intros Hreach Hok. unfold connects.
  destruct (single_promise_invariant s Hreach Hok)
    as [[Hp [Hcache Hw]] | [state [Hp [Hpr [Hconn Hw]]]]].
  - rewrite Hp, Hw, Hcache. cbn.
    split; [lia |]. split; [intros k [] | intros instance H; discriminate H].
  - rewrite Hp. cbn. split; [lia |]. split; [exact Hw |].
    intros instance Hc.
    destruct Hconn as [Hnone | [instance' [Hc' ->]]].
    + rewrite Hnone in Hc. discriminate Hc.
    + rewrite Hc' in Hc. injection Hc as ->. reflexivity.
Qed.

End CacheFacts.

(** ** The order of the displayed history *)

Section HistoryOrder.

Import ProgressHistory.

Variable parseISO : string -> option Date.

(** X22.  The comparator of the history is consistent, so that the order
    [sort] produces is determined: an entry compares equal to itself,
    swapping the arguments swaps the sign, and "not after" is transitive.
    Entries without a usable date compare equal to each other and after
    every dated entry. *)
Theorem history_comparator_is_consistent (a b c : Entry) :
  (compare parseISO) a a = 0%Z
  /\ ((compare parseISO a b < 0)%Z <-> (0 < (compare parseISO) b a)%Z)
  /\ (compare parseISO a b = 0%Z <-> (compare parseISO) b a = 0%Z)
  /\ ((compare parseISO a b <= 0)%Z -> (compare parseISO b c <= 0)%Z -> (compare parseISO a c <= 0)%Z)
  /\ (dated parseISO a = false -> dated parseISO b = false -> (compare parseISO) a b = 0%Z)
  /\ (dated parseISO a = true -> dated parseISO b = false -> (compare parseISO a b < 0)%Z).
Proof.
  unfold compare, dated.
  destruct (parseEntryDateForSort parseISO (entry_date a)) as [ta | ];
    destruct (parseEntryDateForSort parseISO (entry_date b)) as [tb | ];
    destruct (parseEntryDateForSort parseISO (entry_date c)) as [tc | ];
    repeat split; intros; try discriminate; lia.
Qed.

Lemma insert_perm (x : Entry) (l : list Entry) :
  Permutation (insert (compare parseISO) x l) (x :: l).
Proof.
  induction l as [ | y rest IH]; cbn [insert]; [apply Permutation_refl |].
  destruct (compare parseISO x y <=? 0)%Z; [apply Permutation_refl |].
  apply Permutation_trans with (y :: x :: rest);
    [apply perm_skip; exact IH | apply perm_swap].
Qed.

Lemma Array_sort_perm (l : list Entry) : Permutation (Array_sort (compare parseISO) l) l.
Proof.
  induction l as [ | x rest IH]; cbn [Array_sort]; [apply Permutation_refl |].
  apply Permutation_trans with (x :: Array_sort (compare parseISO) rest);
    [apply insert_perm | apply perm_skip; exact IH].
Qed.

Lemma compare_undated_undated (x u : Entry) :
  dated parseISO x = false -> dated parseISO u = false -> compare parseISO x u = 0%Z.
Proof.
  unfold compare, dated.
  destruct (parseEntryDateForSort parseISO (entry_date x)); [discriminate |].
  destruct (parseEntryDateForSort parseISO (entry_date u)); [discriminate | reflexivity].
Qed.

Lemma compare_undated_dated (x y : Entry) :
  dated parseISO x = false -> dated parseISO y = true -> compare parseISO x y = 1%Z.
Proof.
  unfold compare, dated.
  destruct (parseEntryDateForSort parseISO (entry_date x)); [discriminate |].
  destruct (parseEntryDateForSort parseISO (entry_date y)); [reflexivity | discriminate].
Qed.

Lemma compare_dated_undated (x u : Entry) :
  dated parseISO x = true -> dated parseISO u = false -> compare parseISO x u = (-1)%Z.
Proof.
  unfold compare, dated.
  destruct (parseEntryDateForSort parseISO (entry_date x)); [| discriminate].
  destruct (parseEntryDateForSort parseISO (entry_date u)); [discriminate | reflexivity].
Qed.

(** Undated entries are passed by, dated ones stop before them. *)
Lemma insert_undated (x : Entry) (front back : list Entry) :
  dated parseISO x = false ->
  forallb (dated parseISO) front = true ->
  forallb (fun e => negb (dated parseISO e)) back = true ->
  insert (compare parseISO) x (front ++ back) = (front ++ x :: back)%list.
Proof.
  intros Hx Hfront Hback. induction front as [ | y front IH]; cbn [app].
  - destruct back as [ | u back]; [reflexivity |].
    cbn in Hback. apply andb_prop in Hback. destruct Hback as [Hu _].
    apply Bool.negb_true_iff in Hu.
    cbn [insert]. rewrite (compare_undated_undated x u Hx Hu). reflexivity.
  - cbn in Hfront. apply andb_prop in Hfront. destruct Hfront as [Hy Hfront].
    cbn [insert]. rewrite (compare_undated_dated x y Hx Hy).
    cbn. rewrite (IH Hfront). reflexivity.
Qed.

Lemma insert_dated (x : Entry) (front back : list Entry) :
  dated parseISO x = true ->
  forallb (fun e => negb (dated parseISO e)) back = true ->
  insert (compare parseISO) x (front ++ back)
  = (insert (compare parseISO) x front ++ back)%list.
Proof.
  intros Hx Hback. induction front as [ | y front IH]; cbn [app].
  - destruct back as [ | u back]; [reflexivity |].
    cbn in Hback. apply andb_prop in Hback. destruct Hback as [Hu _].
    apply Bool.negb_true_iff in Hu.
    cbn [insert app]. rewrite (compare_dated_undated x u Hx Hu). reflexivity.
  - cbn [insert]. destruct (compare parseISO x y <=? 0)%Z; [reflexivity |].
    cbn [app]. rewrite IH. reflexivity.
Qed.

Lemma insert_all_dated (x : Entry) (l : list Entry) :
  dated parseISO x = true ->
  forallb (dated parseISO) l = true ->
  forallb (dated parseISO) (insert (compare parseISO) x l) = true.
Proof.
  intros Hx. induction l as [ | y rest IH]; cbn [insert]; intros Hl.
  - cbn. rewrite Hx. reflexivity.
  - destruct (compare parseISO x y <=? 0)%Z.
    + cbn [forallb]. rewrite Hx. exact Hl.
    + cbn in Hl |- *. apply andb_prop in Hl. destruct Hl as [Hy Hrest].
      rewrite Hy. exact (IH Hrest).
Qed.

Lemma Array_sort_all_dated (l : list Entry) :
  forallb (dated parseISO) (Array_sort (compare parseISO) (filter (dated parseISO) l)) = true.
Proof.
  induction l as [ | x rest IH]; [reflexivity |].
  cbn [filter]. destruct (dated parseISO x) eqn:Hx; [| exact IH].
  cbn [Array_sort]. apply insert_all_dated; assumption.
Qed.

Lemma filter_all_undated (l : list Entry) :
  forallb (fun e => negb (dated parseISO e))
          (filter (fun e => negb (dated parseISO e)) l) = true.
Proof.
  induction l as [ | x rest IH]; [reflexivity |].
  cbn [filter]. destruct (dated parseISO x) eqn:Hx; cbn.
  - exact IH.
  - rewrite Hx. exact IH.
Qed.

(** The sort splits the entries: the dated ones, sorted, then the undated
    ones as they came. *)
Lemma Array_sort_split (l : list Entry) :
  Array_sort (compare parseISO) l
  = (Array_sort (compare parseISO) (filter (dated parseISO) l)
     ++ filter (fun e => negb (dated parseISO e)) l)%list.
Proof.
  induction l as [ | x rest IH]; [reflexivity |].
  cbn [Array_sort filter]. rewrite IH.
  destruct (dated parseISO x) eqn:Hx; cbn [negb Array_sort].
  - apply insert_dated; [exact Hx | apply filter_all_undated].
  - rewrite insert_undated;
      [reflexivity | exact Hx | apply Array_sort_all_dated | apply filter_all_undated].
Qed.

Lemma insert_not_older (x : Entry) (l : list Entry) :
  dated parseISO x = true ->
  forallb (dated parseISO) l = true ->
  StronglySorted (not_older parseISO) l ->
  StronglySorted (not_older parseISO) (insert (compare parseISO) x l).
Proof.
  intros Hx. induction l as [ | y rest IH]; cbn [insert]; intros Hl Hs.
  - apply SSorted_cons; [apply SSorted_nil | apply Forall_nil].
  - cbn in Hl. apply andb_prop in Hl. destruct Hl as [Hy Hrest].
    inversion Hs as [ | y' rest' Hs' Hall]; subst.
    assert (Hxy : (compare parseISO x y <= 0)%Z -> not_older parseISO x y).
    { unfold compare, not_older. unfold dated in Hx, Hy.
      destruct (parseEntryDateForSort parseISO (entry_date x)); [| discriminate Hx].
      destruct (parseEntryDateForSort parseISO (entry_date y)); [| discriminate Hy].
      lia. }
    assert (Hyx : (0 < (compare parseISO) x y)%Z -> not_older parseISO y x).
    { unfold compare, not_older. unfold dated in Hx, Hy.
      destruct (parseEntryDateForSort parseISO (entry_date x)); [| discriminate Hx].
      destruct (parseEntryDateForSort parseISO (entry_date y)); [| discriminate Hy].
      lia. }
    destruct (compare parseISO x y <=? 0)%Z eqn:Hc.
    + apply Z.leb_le in Hc. apply SSorted_cons; [exact Hs |].
      apply Forall_cons; [exact (Hxy Hc) |].
      apply Forall_forall. intros z Hz.
      pose proof (proj1 (Forall_forall _ _) Hall z Hz) as Hyz.
      specialize (Hxy Hc). unfold not_older in *.
      destruct (parseEntryDateForSort parseISO (entry_date x));
        destruct (parseEntryDateForSort parseISO (entry_date y));
        destruct (parseEntryDateForSort parseISO (entry_date z)); try contradiction; lia.
    + apply Z.leb_gt in Hc. apply SSorted_cons; [exact (IH Hrest Hs') |].
      apply Forall_forall. intros z Hz.
      apply (Permutation_in _ (insert_perm x rest)) in Hz.
      destruct Hz as [<- | Hz]; [exact (Hyx Hc) |].
      exact (proj1 (Forall_forall _ _) Hall z Hz).
Qed.

Lemma Array_sort_not_older (l : list Entry) :
  StronglySorted (not_older parseISO) (Array_sort (compare parseISO) (filter (dated parseISO) l)).
Proof.
  induction l as [ | x rest IH]; [apply SSorted_nil |].
  cbn [filter]. destruct (dated parseISO x) eqn:Hx; [| exact IH].
  cbn [Array_sort]. apply insert_not_older;
    [exact Hx | apply Array_sort_all_dated | exact IH].
Qed.

Lemma sortedEntries_sort (l : list Entry) :
  sortedEntries parseISO (Some l) = Array_sort (compare parseISO) l.
Proof. destruct l; reflexivity. Qed.

(** X23.  The displayed history holds the given entries, each as often as
    given: first those with a usable date, newest first, then those
    without one, in the order in which they were given. *)
Theorem history_is_shown_newest_first (entries : list Entry) :
  exists shown_dated,
    sortedEntries parseISO (Some entries)
    = (shown_dated ++ filter (fun e => negb (dated parseISO e)) entries)%list
    /\ Permutation shown_dated (filter (dated parseISO) entries)
    /\ StronglySorted (not_older parseISO) shown_dated
    /\ Permutation (sortedEntries parseISO (Some entries)) entries.
Proof.
  exists (Array_sort (compare parseISO) (filter (dated parseISO) entries)).
  rewrite sortedEntries_sort.
  split; [apply Array_sort_split |].
  split; [apply Array_sort_perm |].
  split; [apply Array_sort_not_older | apply Array_sort_perm].
Qed.

Lemma Array_sort_of_sorted (l : list Entry) :
  StronglySorted (fun a b => (compare parseISO a b <= 0)%Z) l -> Array_sort (compare parseISO) l = l.
Proof.
  induction l as [ | x rest IH]; [reflexivity |].
  intros Hs. inversion Hs as [ | x' rest' Hs' Hall]; subst.
  cbn [Array_sort]. rewrite (IH Hs').
  destruct rest as [ | y rest]; [reflexivity |].
  cbn [insert]. inversion Hall as [ | y' rest' Hxy _]; subst.
  apply Z.leb_le in Hxy. rewrite Hxy. reflexivity.
Qed.

Variable toISOString : Date -> string.

Lemma received_sorted (history : list ProgressEntry) :
  (forall p, In p history ->
             toISOString (progress_date p) <> EmptyString
             /\ parseISO (toISOString (progress_date p)) = Some (progress_date p)) ->
  newest_first history ->
  StronglySorted (fun a b => (compare parseISO a b <= 0)%Z) (map (received toISOString) history).
Proof.
  intros Hiso Hs. induction Hs as [ | p rest Hs IH Hall]; cbn [map].
  - apply SSorted_nil.
  - apply SSorted_cons.
    + apply IH. intros q Hq. apply Hiso. right. exact Hq.
    + apply Forall_forall. intros e He.
      apply in_map_iff in He. destruct He as [q [<- Hq]].
      pose proof (proj1 (Forall_forall _ _) Hall q Hq) as Hpq.
      destruct (Hiso p (or_introl eq_refl)) as [Hp1 Hp2].
      destruct (Hiso q (or_intror Hq)) as [Hq1 Hq2].
      unfold compare, received. cbn [entry_date parseEntryDateForSort].
      destruct (toISOString (progress_date p)) eqn:Ep; [contradiction Hp1; reflexivity |].
      destruct (toISOString (progress_date q)) eqn:Eq; [contradiction Hq1; reflexivity |].
      rewrite Hp2, Hq2. cbn beta in Hpq. lia.
Qed.

(** X24.  The history that a successful [GET] of a goal returns is shown
    in the order in which it arrives: the client's sort leaves it as it
    is, provided the dates survive the passage through their ISO strings. *)
Theorem served_history_is_shown_as_served
    {L : Libraries} (env : Env) (request : Request) (goalId : string) (w : World)
    (g : Goal) (served : list ProgressEntry) :
  (forall p, In p (progress (db w)) ->
             toISOString (progress_date p) <> EmptyString
             /\ parseISO (toISOString (progress_date p)) = Some (progress_date p)) ->
  response_of (GoalItem.GET env request goalId) w
  = success_data 200 (DataGoalDetail g served) ->
  sortedEntries parseISO (Some (map (received toISOString) served))
  = map (received toISOString) served.
Proof.
  intros Hiso Hok.
  destruct (GET_cases env request goalId w) as [_ Hcases].
  destruct Hcases as [[code [msg Hfail]] | [userId [g0 [_ [_ [_ Hresp]]]]]].
  - rewrite Hfail in Hok. discriminate Hok.
  - rewrite Hresp in Hok. injection Hok as _ <-.
    rewrite sortedEntries_sort. apply Array_sort_of_sorted.
    apply received_sorted.
    + intros p Hp. apply Hiso.
      apply (Permutation_in _ (sort_newest_first_perm _)) in Hp.
      apply filter_In in Hp. exact (proj1 Hp).
    + apply sort_newest_first_sorted.
Qed.

End HistoryOrder.

(** ** What the forms send and what the endpoints accept *)

Section FormsAndEndpoints.

Context {L : Libraries}.

Import Store Schema.

(** X25.  What the login and signup forms accept, the authentication
    endpoint's validation accepts as well: the body sent for parsed
    credentials names the matching action and passes the server's schema
    with the same address and password (and name), already trimmed. *)
Theorem auth_forms_pass_the_server_schemas :
  (forall values credentials,
      Forms.loginSchema values = Some credentials ->
      Auth.actionSchema (Forms.login_body credentials) = Some Auth.Login
      /\ Auth.loginSchema (Forms.login_body credentials)
         = Some {| Auth.login_email := trim (Forms.login_email_input values);
                   Auth.login_password := Forms.login_password_input values |})
  /\ (forall values details,
         Forms.signupSchema values = Some details ->
         Auth.actionSchema (Forms.signup_body details) = Some Auth.Signup
         /\ Auth.signupSchema (Forms.signup_body details)
            = Some {| Auth.signup_name := trim (Forms.signup_name_input values);
                      Auth.signup_email := trim (Forms.signup_email_input values);
                      Auth.signup_password := Forms.signup_password_input values |}).
Proof.
  split.
  - intros [email password] credentials. unfold Forms.loginSchema.
    cbn [Forms.login_email_input Forms.login_password_input].
    destruct (zod_email (trim email)) eqn:Hemail; [| discriminate].
    destruct password as [ | c password]; [discriminate |].
    cbn [andb Nat.leb String.length]. intros H. injection H as <-.
    split; [reflexivity |].
    unfold Auth.loginSchema, Forms.login_body. cbn -[trim].
    rewrite trim_idempotent, Hemail. reflexivity.
  - intros [name email password] details. unfold Forms.signupSchema.
    cbn [Forms.signup_name_input Forms.signup_email_input Forms.signup_password_input].
    destruct (6 <=? String.length password)%nat eqn:Hlen;
      [| rewrite Bool.andb_false_r; discriminate].
    destruct (trim name) as [ | c trimmed] eqn:Hname; [discriminate |].
    destruct (zod_email (trim email)) eqn:Hemail; [| discriminate].
    cbn [andb Nat.leb String.length]. intros H. injection H as <-.
    split; [reflexivity |].
    unfold Auth.signupSchema, Forms.signup_body. cbn -[trim Nat.leb].
    assert (Ht : trim (String c trimmed) = String c trimmed).
    { rewrite <- Hname. apply trim_idempotent. }
    rewrite Ht, trim_idempotent, Hemail, Hlen. reflexivity.
Qed.

(** X26.  What the goal form accepts, the goals endpoint's validation
    accepts: the body passes the server's schema with the trimmed name,
    which is not empty, the trimmed optional texts, and no deadline. *)
Theorem goal_form_passes_the_server_schema
    (values : Forms.GoalValues) (formData : Forms.GoalFormData) :
  Forms.goalSchema values = Some formData ->
  Forms.form_name formData <> EmptyString
  /\ GoalsCollection.createGoalSchema (Forms.goal_body formData)
     = Some {| GoalsCollection.new_name := trim (Forms.goal_name_input values);
               GoalsCollection.new_description
               := option_map trim (Forms.goal_description_input values);
               GoalsCollection.new_targetMetric
               := option_map trim (Forms.goal_targetMetric_input values);
               GoalsCollection.new_targetUnit
               := option_map trim (Forms.goal_targetUnit_input values);
               GoalsCollection.new_deadline := None |}.
Proof.
  destruct values as [name description targetMetric targetUnit].
  unfold Forms.goalSchema. cbn -[trim].
  destruct (trim name) as [ | c trimmed] eqn:Hname; [discriminate |].
  cbn -[trim]. intros H. injection H as <-. cbn -[trim].
  split; [discriminate |].
  assert (Ht : trim (String c trimmed) = String c trimmed).
  { rewrite <- Hname. apply trim_idempotent. }
  unfold GoalsCollection.createGoalSchema, Forms.goal_body.
  destruct description as [description | ];
    destruct targetMetric as [targetMetric | ];
    destruct targetUnit as [targetUnit | ];
    cbn -[trim]; rewrite Ht, ?trim_idempotent; reflexivity.
Qed.

(** X27.  The progress form checks less than the progress endpoint.  A
    body made from form data the form accepted passes the server's schema
    exactly when the goal id is a well-formed identifier, the value is
    finite and the form's date is an ISO 8601 date-time with offset; the
    form itself asks only for a non-empty date.  When the date is not of
    that format, an authenticated submission is answered 400 and nothing
    is stored. *)
Theorem progress_form_needs_an_iso_date
    (ToNumber : string -> number)
    (values : Forms.ProgressValues) (formData : Forms.ProgressFormData) (goalId : string) :
  Forms.progressSchema ToNumber values = Some formData ->
  Forms.form_date formData = Forms.date_input values
  /\ Forms.form_date formData <> EmptyString
  /\ logProgressSchema (Forms.progress_body formData goalId)
     = (if ObjectId_isValid goalId && is_finite (Forms.form_value formData)
           && zod_datetime_offset (Forms.form_date formData)
        then Some {| log_goalId := goalId;
                     log_value := Forms.form_value formData;
                     log_date := Forms.form_date formData;
                     log_notes := Forms.form_notes formData |}
        else None)
  /\ (forall env request w userId,
         throws env ConnectDB = None ->
         authenticated_for_progress env request userId ->
         json request = Some (Forms.progress_body formData goalId) ->
         zod_datetime_offset (Forms.date_input values) = false ->
         response_of (Progress.POST env request) w
         = failure_with 400 "Invalid progress data provided." "Validation failed" true
         /\ db (world_after (Progress.POST env request) w) = db w).
Proof.
  destruct values as [value date notes].
  unfold Forms.progressSchema.
  cbn [Forms.value_input Forms.date_input Forms.notes_input]. cbv zeta.
  set (v := if String.eqb value EmptyString then Number.NaN else ToNumber value).
  destruct (negb (Number.isNaN v) && Number.ltb Number.zero v) eqn:Hv;
    [| cbn [andb]; discriminate].
  destruct date as [ | c date]; [cbn [andb Nat.leb String.length]; discriminate |].
  cbn [andb Nat.leb String.length]. intros H. injection H as <-.
  cbn [Forms.form_date Forms.form_value Forms.form_notes].
  split; [reflexivity |]. split; [discriminate |].
  assert (Hschema :
            logProgressSchema
              (Forms.progress_body
                 {| Forms.form_value := v; Forms.form_date := String c date;
                    Forms.form_notes := option_map trim notes |} goalId)
            = (if ObjectId_isValid goalId && is_finite v
                  && zod_datetime_offset (String c date)
               then Some {| log_goalId := goalId; log_value := v;
                            log_date := String c date;
                            log_notes := option_map trim notes |}
               else None)).
  { unfold logProgressSchema, Forms.progress_body, Forms.json_number.
    cbn [Forms.form_date Forms.form_value Forms.form_notes].
    destruct (is_finite v) eqn:Hfin.
    - destruct notes as [notes | ]; cbn -[trim];
        rewrite ?trim_idempotent, ?Hfin;
        destruct (ObjectId_isValid goalId); destruct (zod_datetime_offset (String c date));
        reflexivity.
    - destruct notes as [notes | ]; cbn -[trim]; rewrite ?Bool.andb_false_r; reflexivity. }
  split; [exact Hschema |].
  intros env request w userId Hconn Hauth Hjson Hdate.
  rewrite Hdate, Bool.andb_false_r in Hschema.
  unfold response_of, world_after, run, Progress.POST.
  unfold bind, connectDB, attempt. rewrite Hconn. cbn [fst snd]. rewrite same_world.
  rewrite (progress_helper_success env request userId w (Hauth w) w).
  rewrite Hjson, Hschema. split; reflexivity.
Qed.

End FormsAndEndpoints.

(** ** The decoded session *)

Section DecodedSession.

Context {L : Libraries}.

Variable jwt_decode : string -> option Jwt.Decoded.

Import LibAuth.

(** X28.  Decoding agrees with verification where verification succeeds:
    when the goal-item helper accepts a request for a user, the decoded
    session of that request is the same user.  A decoded session is
    never the empty string. *)
Theorem decoded_session_is_the_verified_user
    (env : Env) (request : Request) (w : World) (userId : string) :
  decode_agrees_with_verify jwt_decode ->
  (verification_result GoalItem.getVerifiedUserId env request w = inr userId ->
   fst (getUserIdFromRequest jwt_decode request) = Some userId)
  /\ (fst (getUserIdFromRequest jwt_decode request) = Some userId ->
      userId <> EmptyString).
Proof.
  intros Hagree. unfold verification_result, GoalItem.getVerifiedUserId, getUserIdFromRequest.
  destruct (cookie_value (cookies request) "access_token") as [[ | c token] | ];
    try (split; intros H; discriminate H).
  split.
  - destruct (JWT_SECRET env) as [[ | c' jwtSecret] | ]; try discriminate.
    destruct (jwt_verify (String c token) (String c' jwtSecret)) as [decoded | e] eqn:Hv;
      [| discriminate].
    rewrite (Hagree _ _ _ Hv).
    destruct decoded as [payload | [[ | | b | x | uid | ] | ]]; try discriminate.
    destruct uid as [ | c0 uid]; [discriminate |].
    cbn. intros H. injection H as <-. reflexivity.
  - destruct (jwt_decode (String c token)) as [[payload | [[ | | b | x | uid | ] | ]] | ];
      try discriminate.
    destruct uid as [ | c0 uid]; [discriminate |].
    cbn. intros H. injection H as <-. discriminate.
Qed.

Lemma findById_unique (d : Db) (user : UserDoc) :
  unique_user_ids d ->
  In user (users d) ->
  find (fun u => String.eqb (Store.castObjectId (user_id u))
                            (Store.castObjectId (user_id user)))
       (users d)
  = Some user.
Proof.
  unfold unique_user_ids. induction (users d) as [ | u rest IH]; cbn [map find In].
  - intros _ [].
  - intros Hnodup [-> | Hin].
    + rewrite String.eqb_refl. reflexivity.
    + inversion Hnodup as [ | id ids Hnotin Hrest]; subst.
      destruct (String.eqb (Store.castObjectId (user_id u))
                           (Store.castObjectId (user_id user))) eqn:Heq.
      * apply String.eqb_eq in Heq. contradiction Hnotin. rewrite Heq.
        apply (in_map (fun u => Store.castObjectId (user_id u))). exact Hin.
      * exact (IH Hrest Hin).
Qed.

(** X29.  Logging in and then asking for the session user.  A request
    that carries the cookie of a successful login is given, by
    [getSessionUser], the profile that the login response carried,
    provided the token decodes to the id it was signed for, that id is a
    well-formed identifier, account ids are unique and the query does
    not fail. *)
Theorem session_user_after_login
    (env : Env) (request request' : Request) (w : World)
    (cookie : Cookie) (profile : PublicUser) :
  response_of (Auth.POST env request) w
  = {| status := 200;
       body := JsonBody {| success := true; message := None;
                           data := Some (DataUser profile);
                           error := None; validationErrors := false |};
       set_cookie := Some cookie |} ->
  cookie_value (cookies request') (cookie_name cookie) = Some (cookie_token cookie) ->
  cookie_token cookie <> EmptyString ->
  jwt_decode (cookie_token cookie)
  = Some (Jwt.DecodedObject (Some (JsStr (public_id profile)))) ->
  public_id profile <> EmptyString ->
  ObjectId_isValid (public_id profile) = true ->
  unique_user_ids (db w) ->
  getSessionUser jwt_decode false request' (db (world_after (Auth.POST env request) w))
  = Some profile.
Proof.
  intros Hlogin Hjar Htoken Hdecode Hid Hvalid Hunique.
  destruct (auth_POST_cases env request w)
    as [[Hnone _] | [[rawBody [details [hashed [_ [_ [_ [_ [_ [Hr _]]]]]]]]]
                    | [user [jwtSecret [jwtExpiresIn [n [token
                         [Hacc [_ [_ [Hr Hdb]]]]]]]]]]].
  - rewrite Hlogin in Hnone. discriminate Hnone.
  - rewrite Hr in Hlogin. discriminate Hlogin.
  - rewrite Hr in Hlogin. injection Hlogin as <- <-. rewrite Hdb.
    destruct Hacc as [rawBody [credentials [_ [_ [_ [_ [Huser _]]]]]]].
    destruct (findOne_in _ _ _ Huser) as [Hin _].
    unfold getSessionUser, getUserIdFromRequest.
    cbn [cookie_name cookie_token Auth.session_cookie] in Hjar, Htoken, Hdecode.
    rewrite Hjar.
    destruct token as [ | c token]; [contradiction Htoken; reflexivity |].
    rewrite Hdecode.
    cbn [Auth.public_profile public_id] in Hid, Hvalid |- *.
    destruct (user_id user) as [ | c0 uid] eqn:Huid; [contradiction Hid; reflexivity |].
    cbn [fst]. rewrite Hvalid. cbn [negb orb].
    unfold UserModel_findById. rewrite <- Huid.
    rewrite (findById_unique _ _ Hunique Hin). reflexivity.
Qed.

End DecodedSession.

(** ** Further properties on the concrete deployment *)

Section MoreOnTheScenario.

Import Scenario Cases Middleware.

Lemma goal_item_checks_in_order_witness :
  run (GoalItem.GET env_database_down profile_request malformed_goal) world
  = (failure 400 "Invalid Goal ID format.", world)
  /\ response_of (GoalItem.DELETE env_database_down (goal_request None) run5k) world
     = failure 500 "Internal Server Error: Could not connect to database.".
Proof.
  split.
  - exact (proj1 (proj1 (goal_item_checks_in_order env_database_down profile_request
                           malformed_goal world) eq_refl)).
  - exact (proj1 (proj2 (proj2 (proj2 (goal_item_checks_in_order env_database_down
                                         (goal_request None) run5k world)
                                      OtherDbError eq_refl eq_refl)))).
Defined.

Lemma rename_changes_the_database :
  db (world_after (GoalItem.PUT env rename_request run5k) world) <> db world.
Proof.
  intros H. apply (f_equal (fun d => map goal_name (goals d))) in H.
  vm_compute in H. discriminate H.
Qed.

Lemma writes_require_authentication_witness :
  exists userId, authenticated_for_goal env rename_request userId.
Proof.
  exact (proj1 (writes_require_authentication env GoalsCollection.no_faults rename_request
                  run5k world) rename_changes_the_database).
Defined.

Lemma put_changes_only_the_callers_goal_witness :
  map goal_id (goals (db (world_after (GoalItem.PUT env rename_request run5k) world)))
  = map goal_id (goals database)
  /\ (In goal_swim (goals (db (world_after (GoalItem.PUT env rename_request run5k) world)))
      \/ (same_id (goal_id goal_swim) run5k
          /\ exists userId, authenticated_for_goal env rename_request userId
                            /\ same_id (goal_userId goal_swim) userId)).
Proof.
  split.
  - exact (proj1 (put_changes_only_the_callers_goal env rename_request run5k world)).
  - exact (proj2 (proj2 (proj2 (proj2 (proj2
             (put_changes_only_the_callers_goal env rename_request run5k world)))))
             goal_swim (or_intror (or_introl eq_refl))).
Defined.

Lemma delete_removes_only_the_callers_goal_witness :
  In goal_swim (goals (db (world_after (GoalItem.DELETE env (goal_request None) run5k) world)))
  \/ (same_id (goal_id goal_swim) run5k
      /\ exists userId, authenticated_for_goal env (goal_request None) userId
                        /\ same_id (goal_userId goal_swim) userId).
Proof.
  exact (proj1 (delete_removes_only_the_callers_goal env (goal_request None) run5k world)
               goal_swim (or_intror (or_introl eq_refl))).
Defined.

Lemma get_returns_the_goal_and_its_history_witness :
  In goal_run5k (goals database)
  /\ same_id (goal_id goal_run5k) run5k_in_capitals
  /\ (exists userId, authenticated_for_goal env (goal_request None) userId
                     /\ same_id (goal_userId goal_run5k) userId)
  /\ Permutation [entry_run5k]
                 (filter (Store.of_goal run5k_in_capitals) (progress database))
  /\ (forall p, In p [entry_run5k]
                <-> In p (progress database)
                    /\ same_id (progress_goalId p) run5k_in_capitals)
  /\ newest_first [entry_run5k].
Proof.
  exact (proj2 (get_returns_the_goal_and_its_history env (goal_request None)
                  run5k_in_capitals world)
               goal_run5k [entry_run5k] eq_refl).
Defined.

Lemma put_then_get_returns_the_update_witness :
  same_id (goal_id goal_run10k) run5k
  /\ (exists userId, authenticated_for_goal env rename_request userId
                     /\ same_id (goal_userId goal_run10k) userId)
  /\ exists entries,
      response_of (GoalItem.GET env (goal_request None) run5k)
                  (world_after (GoalItem.PUT env rename_request run5k) world)
      = success_data 200 (DataGoalDetail goal_run10k entries).
Proof.
  exact (put_then_get_returns_the_update env env rename_request (goal_request None) run5k
           world goal_run10k alice eq_refl (alice_is_authenticated None) eq_refl
           eq_refl eq_refl eq_refl).
Defined.

Lemma database_ids_unique : unique_goal_ids database.
Proof.
  unfold unique_goal_ids. cbn.
  apply NoDup_cons; [intros [H | []]; discriminate H |].
  apply NoDup_cons; [intros [] | apply NoDup_nil].
Qed.

Lemma bob_is_authenticated : authenticated_for_goal env (as_bob "/api/goals/item" None) bob.
Proof. intros w. reflexivity. Qed.

Lemma delete_then_get_is_not_found_witness :
  (forall g, In g (goals (db (world_after (GoalItem.DELETE env (goal_request None) run5k) world)))
             -> ~ same_id (goal_id g) run5k)
  /\ response_of (GoalItem.GET env (as_bob "/api/goals/item" None) run5k)
                 (world_after (GoalItem.DELETE env (goal_request None) run5k) world)
     = GoalItem.not_found
  /\ response_of (GoalItem.DELETE env (as_bob "/api/goals/item" None) run5k)
                 (world_after (GoalItem.DELETE env (goal_request None) run5k) world)
     = GoalItem.not_found.
Proof.
  exact (delete_then_get_is_not_found env env (goal_request None) (as_bob "/api/goals/item" None)
           run5k world bob database_ids_unique eq_refl bob_is_authenticated
           eq_refl eq_refl eq_refl).
Defined.

Lemma logged_progress_is_in_the_history_witness :
  (exists userId, authenticated_for_progress env (progress_request run5k) userId
                  /\ progress_userId entry_logged = Store.castObjectId userId)
  /\ owns database (progress_userId entry_logged) (progress_goalId entry_logged)
  /\ exists g entries,
      response_of (GoalItem.GET env (goal_request None) (progress_goalId entry_logged))
                  (world_after (Progress.POST env (progress_request run5k)) world)
      = success_data 200 (DataGoalDetail g entries)
      /\ In entry_logged entries.
Proof.
  exact (logged_progress_is_in_the_history env env (progress_request run5k) (goal_request None)
           world entry_logged eq_refl eq_refl (alice_is_authenticated None)
           eq_refl eq_refl eq_refl).
Defined.

Lemma database_entries_have_goals : entries_have_goals database.
Proof.
  intros p [<- | []]. exact alice_owns_run5k.
Qed.

Lemma entries_keep_their_goals_witness :
  entries_have_goals (db (world_after (Progress.POST env (progress_request run5k)) world))
  /\ entries_have_goals (db (world_after (GoalItem.DELETE env (goal_request None) run5k) world)).
Proof.
  split.
  - exact (proj1 (entries_keep_their_goals env GoalsCollection.no_faults
                    (progress_request run5k) run5k world database_entries_have_goals)).
  - exact (proj2 (proj2 (proj2 (entries_keep_their_goals env GoalsCollection.no_faults
                                  (goal_request None) run5k world
                                  database_entries_have_goals))) eq_refl).
Defined.

Lemma run5k_has_entries : has_entries database run5k.
Proof. exists entry_run5k. split; [left |]; reflexivity. Qed.

Lemma failed_cascade_leaves_orphans_witness :
  progress (db (world_after (GoalItem.DELETE env_cascade_fails (goal_request None) run5k) world))
  = progress database
  /\ ~ entries_have_goals
       (db (world_after (GoalItem.DELETE env_cascade_fails (goal_request None) run5k) world)).
Proof.
  pose proof (failed_cascade_leaves_orphans env_cascade_fails (goal_request None) run5k world
                OtherDbError database_ids_unique eq_refl eq_refl) as H.
  cbv zeta in H. destruct H as [Hprogress [_ Horphans]].
  split; [exact Hprogress | exact (Horphans run5k_has_entries)].
Defined.

Lemma goals_list_is_the_callers_witness :
  db (GoalsCollection.world_after_reply
        (GoalsCollection.GET env GoalsCollection.no_faults (goals_api "token-alice")) world)
  = database
  /\ (200 = 200)%Z
  /\ exists userId,
      authenticated_for_goals env (goals_api "token-alice") userId
      /\ Permutation [goal_run5k] (filter (GoalsCollection.owned_by userId) (goals database))
      /\ (forall g, In g [goal_run5k]
                    <-> In g (goals database) /\ same_id (goal_userId g) userId)
      /\ newest_created_first [goal_run5k].
Proof.
  split.
  - exact (proj1 (goals_list_is_the_callers env GoalsCollection.no_faults
                    (goals_api "token-alice") world)).
  - exact (proj2 (goals_list_is_the_callers env GoalsCollection.no_faults
                    (goals_api "token-alice") world) 200%Z [goal_run5k] eq_refl).
Defined.

Lemma alice_lists_her_goals : authenticated_for_goals env (goals_api "token-alice") alice.
Proof. intros w. reflexivity. Qed.

Lemma created_goal_is_the_callers_and_listed_witness :
  (exists userId, authenticated_for_goals env create_request userId
                  /\ goal_userId goal_row2k = Store.castObjectId userId)
  /\ goal_name goal_row2k <> EmptyString
  /\ trim (goal_name goal_row2k) = goal_name goal_row2k
  /\ goal_createdAt goal_row2k = now env
  /\ goals (db (world_after (GoalsCollection.POST env GoalsCollection.no_faults create_request)
                            world))
     = (goals database ++ [goal_row2k])%list
  /\ progress (db (world_after (GoalsCollection.POST env GoalsCollection.no_faults
                                  create_request) world))
     = progress database
  /\ users (db (world_after (GoalsCollection.POST env GoalsCollection.no_faults create_request)
                            world))
     = users database
  /\ exists listed,
      GoalsCollection.reply_of
        (GoalsCollection.GET env GoalsCollection.no_faults (goals_api "token-alice"))
        (world_after (GoalsCollection.POST env GoalsCollection.no_faults create_request) world)
      = GoalsCollection.Goals_reply 200 listed
      /\ In goal_row2k listed.
Proof.
  exact (created_goal_is_the_callers_and_listed env env GoalsCollection.no_faults
           GoalsCollection.no_faults create_request (goals_api "token-alice") world goal_row2k
           eq_refl alice_lists_her_goals eq_refl eq_refl).
Defined.

(** *** Accounts and sessions *)

Lemma session_cookie_only_after_password_check_witness :
  status (response_of (Auth.POST env (login_request "Alice@Example.com" "wonderland")) world)
  = 200%Z
  /\ db (world_after (Auth.POST env (login_request "Alice@Example.com" "wonderland")) world)
     = db world.
Proof.
  pose proof (session_cookie_only_after_password_check env
                (login_request "Alice@Example.com" "wonderland") world alice_cookie eq_refl)
    as H.
  exact (conj (proj1 H) (proj1 (proj2 H))).
Defined.

Lemma database_addresses_unique : NoDup (map user_email (users (db world))).
Proof.
  cbn. apply NoDup_cons; [intros [] | apply NoDup_nil].
Qed.

Lemma auth_only_adds_an_unused_address_witness :
  NoDup (map user_email
             (users (db (world_after
                           (Auth.POST env (signup_request " Carol " "Carol@Example.com"
                                                          "rabbit-hole")) world)))).
Proof.
  exact (proj2 (proj2 (proj2 (auth_only_adds_an_unused_address env
                                (signup_request " Carol " "Carol@Example.com" "rabbit-hole")
                                world)))
               database_addresses_unique).
Defined.

Lemma taken_address_is_refused_witness :
  response_of (Auth.POST env (signup_request "Alice" "ALICE@example.com" "looking-glass")) world
  = failure 409 "Email already in use."
  /\ db (world_after (Auth.POST env (signup_request "Alice" "ALICE@example.com"
                                                    "looking-glass")) world)
     = db world.
Proof.
  exact (taken_address_is_refused env
           (signup_request "Alice" "ALICE@example.com" "looking-glass") world
           (signup_body "Alice" "ALICE@example.com" "looking-glass")
           {| Auth.signup_name := "Alice"; Auth.signup_email := "ALICE@example.com";
              Auth.signup_password := "looking-glass" |}
           user_alice eq_refl eq_refl eq_refl eq_refl (or_introl eq_refl) eq_refl).
Defined.

Lemma carol_hash_accepts (hashed : string) :
  bcrypt_hash (Auth.signup_password carol) = Some hashed ->
  bcrypt_compare (Auth.signup_password carol) hashed = Some true.
Proof.
  intros H. injection H as <-. reflexivity.
Qed.

Lemma signup_then_login_witness :
  exists user,
    users (db (world_after (Auth.POST env (signup_request " Carol " "Carol@Example.com"
                                                          "rabbit-hole")) world))
    = (users (db world) ++ [user])%list
    /\ user_email user = toLowerCase (Auth.signup_email carol)
    /\ user_name user = trim (Auth.signup_name carol)
    /\ user_id user = fresh_id env
    /\ response_of (Auth.POST env (login_request "CAROL@example.com" "rabbit-hole"))
                   (world_after (Auth.POST env (signup_request " Carol " "Carol@Example.com"
                                                               "rabbit-hole")) world)
       = {| status := 200;
            body := JsonBody {| success := true; message := None;
                                data := Some (DataUser (Auth.public_profile user));
                                error := None; validationErrors := false |};
            set_cookie := Some (Auth.session_cookie env "token-for-64d000000000000000000001"
                                                    (of_Z 86400)) |}.
Proof.
  exact (signup_then_login env env
           (signup_request " Carol " "Carol@Example.com" "rabbit-hole")
           (login_request "CAROL@example.com" "rabbit-hole") world
           (signup_body " Carol " "Carol@Example.com" "rabbit-hole")
           (login_body "CAROL@example.com" "rabbit-hole")
           carol
           {| Auth.login_email := "CAROL@example.com"; Auth.login_password := "rabbit-hole" |}
           secret "1d" (of_Z 86400) "token-for-64d000000000000000000001"
           eq_refl eq_refl eq_refl eq_refl eq_refl eq_refl eq_refl carol_hash_accepts
           eq_refl eq_refl eq_refl eq_refl eq_refl eq_refl eq_refl).
Defined.

(** *** The middleware and the helpers *)

Lemma middleware_and_helpers_agree_witness :
  fst (middleware env (goals_api "token-alice")) = Next.
Proof.
  exact (proj1 (middleware_and_helpers_agree env (goals_api "token-alice") world)
               alice (or_introl eq_refl)).
Defined.

Lemma guarded_paths_run_the_middleware_witness :
  runs_on "/dashboard" = true
  /\ runs_on "/api/goals" = true
  /\ runs_on "/api/progress" = true
  /\ runs_on ("/dashboard/" ++ run5k) = true
  /\ runs_on ("/api/goals/" ++ run5k) = true
  /\ runs_on ("/api/progress/" ++ run5k) = true.
Proof.
  exact (guarded_paths_run_the_middleware run5k eq_refl).
Defined.

Lemma auth_paths_bypass_the_middleware_witness :
  runs_on (pathname profile_request) = false
  /\ route env profile_request = Reaches_handler.
Proof.
  exact (auth_paths_bypass_the_middleware env profile_request "/profile" eq_refl).
Defined.

(** *** The connection cache *)

Lemma second_call_reachable :
  MongooseCache.reachable_from MongooseCache.boot second_call.
Proof.
  apply MongooseCache.reach_step with first_call.
  - apply MongooseCache.reach_step with MongooseCache.boot.
    + apply MongooseCache.reach_refl.
    + exact (MongooseCache.step_call_waits MongooseCache.boot (MongooseCache.New_promise 0)
               (MongooseCache.runtime first_call) eq_refl).
  - exact (MongooseCache.step_call_waits first_call (MongooseCache.Existing_promise 0)
             (MongooseCache.runtime second_call) eq_refl).
Qed.

Lemma fulfilled_is_not_pending :
  MongooseCache.Fulfilled 7 <> MongooseCache.Pending.
Proof. discriminate. Qed.

Lemma first_call_resumed_reachable :
  MongooseCache.reachable_from MongooseCache.boot first_call_resumed.
Proof.
  apply MongooseCache.reach_step with connection_made.
  - apply MongooseCache.reach_step with second_call.
    + exact second_call_reachable.
    + exact (MongooseCache.step_settle second_call 0 (MongooseCache.Fulfilled 7)
               eq_refl fulfilled_is_not_pending).
  - exact (MongooseCache.step_resume connection_made [MongooseCache.Existing_promise 0] []
             (MongooseCache.New_promise 0) (MongooseCache.Resolves 7)
             (MongooseCache.runtime first_call_resumed) eq_refl eq_refl).
Qed.

Lemma third_call_reachable :
  MongooseCache.reachable_from first_call_resumed third_call.
Proof.
  apply MongooseCache.reach_step with first_call_resumed.
  - apply MongooseCache.reach_refl.
  - exact (MongooseCache.step_call_returns first_call_resumed 7
             (MongooseCache.runtime third_call) eq_refl).
Qed.

Lemma cached_connection_stops_connecting_witness :
  (exists p, nth_error (MongooseCache.promises (MongooseCache.runtime first_call_resumed)) p
             = Some (MongooseCache.Fulfilled 7))
  /\ MongooseCache.connects third_call = MongooseCache.connects first_call_resumed
  /\ exists instance',
      fst (MongooseCache.connectDB (MongooseCache.runtime third_call))
      = MongooseCache.Returned instance'.
Proof.
  exact (cached_connection_stops_connecting first_call_resumed third_call 7
           first_call_resumed_reachable eq_refl third_call_reachable).
Defined.

Lemma one_connection_attempt_without_failure_witness :
  MongooseCache.connects second_call <= 1
  /\ (forall k, In k (MongooseCache.waiting second_call) ->
                k = MongooseCache.Existing_promise 0 \/ k = MongooseCache.New_promise 0)
  /\ (forall instance,
         MongooseCache.conn (MongooseCache.cached (MongooseCache.runtime second_call))
         = Some instance ->
         MongooseCache.promises (MongooseCache.runtime second_call)
         = [MongooseCache.Fulfilled instance]).
Proof.
  exact (one_connection_attempt_without_failure second_call second_call_reachable eq_refl).
Defined.

(** *** The displayed history *)

Lemma history_comparator_is_consistent_witness :
  ProgressHistory.compare parseISO newer_entry older_entry = (-488000000)%Z
  /\ (ProgressHistory.compare parseISO newer_entry undated_entry < 0)%Z.
Proof.
  split; [reflexivity |].
  exact (proj2 (proj2 (proj2 (proj2 (proj2
           (history_comparator_is_consistent parseISO newer_entry undated_entry
                                             older_entry)))))
           eq_refl eq_refl).
Defined.

Lemma history_is_shown_newest_first_witness :
  exists shown_dated,
    ProgressHistory.sortedEntries parseISO
      (Some [undated_entry; older_entry; blank_entry; newer_entry])
    = (shown_dated
       ++ filter (fun e => negb (ProgressHistory.dated parseISO e))
                 [undated_entry; older_entry; blank_entry; newer_entry])%list
    /\ Permutation shown_dated
                   (filter (ProgressHistory.dated parseISO)
                           [undated_entry; older_entry; blank_entry; newer_entry])
    /\ StronglySorted (ProgressHistory.not_older parseISO) shown_dated
    /\ Permutation (ProgressHistory.sortedEntries parseISO
                      (Some [undated_entry; older_entry; blank_entry; newer_entry]))
                   [undated_entry; older_entry; blank_entry; newer_entry].
Proof.
  exact (history_is_shown_newest_first parseISO
           [undated_entry; older_entry; blank_entry; newer_entry]).
Defined.

Lemma database_dates_survive (p : ProgressEntry) :
  In p (progress (db world)) ->
  toISOString (progress_date p) <> EmptyString
  /\ parseISO (toISOString (progress_date p)) = Some (progress_date p).
Proof.
  intros [<- | []]. split; [discriminate | reflexivity].
Qed.

Lemma served_history_is_shown_as_served_witness :
  ProgressHistory.sortedEntries parseISO
    (Some (map (ProgressHistory.received toISOString) [entry_run5k]))
  = map (ProgressHistory.received toISOString) [entry_run5k].
Proof.
  exact (served_history_is_shown_as_served parseISO toISOString env (goal_request None) run5k
           world goal_run5k [entry_run5k] database_dates_survive eq_refl).
Defined.

(** *** Forms *)

Lemma auth_forms_pass_the_server_schemas_witness :
  Auth.actionSchema (Forms.login_body login_credentials) = Some Auth.Login
  /\ Auth.loginSchema (Forms.login_body login_credentials)
     = Some {| Auth.login_email := trim (Forms.login_email_input login_values);
               Auth.login_password := Forms.login_password_input login_values |}.
Proof.
  exact (proj1 auth_forms_pass_the_server_schemas login_values login_credentials eq_refl).
Defined.

Lemma goal_form_passes_the_server_schema_witness :
  Forms.form_name goal_form_data <> EmptyString
  /\ GoalsCollection.createGoalSchema (Forms.goal_body goal_form_data)
     = Some {| GoalsCollection.new_name := trim (Forms.goal_name_input goal_values);
               GoalsCollection.new_description
               := option_map trim (Forms.goal_description_input goal_values);
               GoalsCollection.new_targetMetric
               := option_map trim (Forms.goal_targetMetric_input goal_values);
               GoalsCollection.new_targetUnit
               := option_map trim (Forms.goal_targetUnit_input goal_values);
               GoalsCollection.new_deadline := None |}.
Proof.
  exact (goal_form_passes_the_server_schema goal_values goal_form_data eq_refl).
Defined.

Lemma alice_submits_the_form :
  authenticated_for_progress env form_progress_request alice.
Proof. intros w. reflexivity. Qed.

Lemma progress_form_needs_an_iso_date_witness :
  response_of (Progress.POST env form_progress_request) world
  = failure_with 400 "Invalid progress data provided." "Validation failed" true
  /\ db (world_after (Progress.POST env form_progress_request) world) = db world.
Proof.
  exact (proj2 (proj2 (proj2 (progress_form_needs_an_iso_date ToNumber progress_values
                                progress_form_data run5k eq_refl)))
               env form_progress_request world alice eq_refl alice_submits_the_form
               eq_refl eq_refl).
Defined.

(** *** The decoded session *)

Lemma decode_agrees : LibAuth.decode_agrees_with_verify decode.
Proof.
  intros token jwtSecret decoded. cbn [jwt_verify libraries]. unfold verify.
  destruct (negb (String.eqb jwtSecret secret)); [discriminate |].
  destruct (String.eqb token "token-alice") eqn:E1;
    [apply String.eqb_eq in E1; subst token; intros H; injection H as <-; reflexivity |].
  destruct (String.eqb token "token-bob") eqn:E2;
    [apply String.eqb_eq in E2; subst token; intros H; injection H as <-; reflexivity |].
  destruct (String.eqb token "token-empty-userId") eqn:E3;
    [apply String.eqb_eq in E3; subst token; intros H; injection H as <-; reflexivity |].
  destruct (String.eqb token "token-numeric-userId") eqn:E4;
    [apply String.eqb_eq in E4; subst token; intros H; injection H as <-; reflexivity |].
  destruct (String.eqb token "token-without-userId") eqn:E5;
    [apply String.eqb_eq in E5; subst token; intros H; injection H as <-; reflexivity |].
  destruct (String.eqb token "token-expired"); discriminate.
Qed.

Lemma decoded_session_is_the_verified_user_witness :
  fst (LibAuth.getUserIdFromRequest decode (goal_request None)) = Some alice.
Proof.
  exact (proj1 (decoded_session_is_the_verified_user decode env (goal_request None) world
                  alice decode_agrees) eq_refl).
Defined.

Lemma alice_token_is_not_empty : cookie_token alice_cookie <> EmptyString.
Proof. discriminate. Qed.

Lemma alice_id_is_not_empty : public_id (Auth.public_profile user_alice) <> EmptyString.
Proof. discriminate. Qed.

Lemma database_user_ids_unique : unique_user_ids (db world).
Proof.
  unfold unique_user_ids. cbn. apply NoDup_cons; [intros [] | apply NoDup_nil].
Qed.

Lemma session_user_after_login_witness :
  LibAuth.getSessionUser decode false alice_session_request
    (db (world_after (Auth.POST env (login_request "Alice@Example.com" "wonderland")) world))
  = Some (Auth.public_profile user_alice).
Proof.
  exact (session_user_after_login decode env
           (login_request "Alice@Example.com" "wonderland") alice_session_request world
           alice_cookie (Auth.public_profile user_alice)
           eq_refl eq_refl alice_token_is_not_empty eq_refl alice_id_is_not_empty eq_refl
           database_user_ids_unique).
Defined.

End MoreOnTheScenario.
